(** * SpriteFXPipeline: the sprite-effects compositor of the renderer

    A shallow embedding of [src/renderer/webgl/pipelines/SpriteFXPipeline.js]:
    the render-target ladder built by [boot], the lookup [getSpriteTarget]
    and its siblings, the six-vertex quad buffer ([onResize], [setUVs],
    [setTargetUVs], [resetUVs]) and the draw passes ([batchQuad],
    [copySprite], [drawToGame], [bindAndDraw]).  The module [FlappyBird]
    embeds the score kept by [src/flappybird.js].

    Conventions.
    - A JavaScript number is a rational of [Q]; arithmetic on it is exact
      (binary64 rounding, NaN and the infinities of the arithmetic are left
      out).  Integer-valued quantities (viewport sizes, the frame increment,
      array indices, bucket numbers) are in [Z].
    - The one narrowing conversion of the file, the store into the
      [Float32Array] view of the quad buffer, is written out: [toFloat32]
      rounds to the nearest binary32 value, ties to even.
    - The pipeline object is the record [Pipeline]; a method is a computation
      of the monad [M], which threads the pipeline and may end in a
      [TypeError] (a property read on [null] or [undefined]).
    - The WebGL context is represented by the list of commands issued so far. *)

From Stdlib Require Import ZArith QArith Qround Qabs Qpower Qminmax Lia List String Bool.
From stdpp Require Import base list pretty.

Open Scope Z_scope.

(** ** Numbers *)

(** [2 ^ e] for an integer exponent of either sign. *)
Definition pow2 (e : Z) : Q := Qpower 2 e.

(** The exponent [e] with [2 ^ e <= a < 2 ^ (e + 1)], for [a > 0]. *)
Definition ilog2 (a : Q) : Z :=
  let c := Z.log2 (Qnum a) - Z.log2 (Zpos (Qden a)) in
  if Qle_bool (pow2 c) a then c else c - 1.

(** Rounding to the nearest integer, a tie going to the even neighbour. *)
Definition roundTiesToEven (s : Q) : Z :=
  let f := Qfloor s in
  match Qcompare (s - inject_Z f)%Q (1 # 2)%Q with
  | Lt => f
  | Gt => f + 1
  | Eq => if Z.even f then f else f + 1
  end.

(** An element of a [Float32Array]: a binary32 value, finite or infinite. *)
Inductive float32 : Type :=
| F32 (q : Q)
| F32inf (negative : bool).

(** The conversion a [Float32Array] applies on a store: 24 bits of
    significand, exponents from -126 (subnormals below) to 127, overflow to
    an infinity.  Finite results are kept in lowest terms. *)
Definition toFloat32 (x : Q) : float32 :=
  let q := Qred x in
  if Qeq_bool q 0 then F32 0
  else
    let a := Qabs q in
    let ulp := pow2 (Z.max (ilog2 a) (-126) - 23) in
    let r := (inject_Z (roundTiesToEven (a / ulp)) * ulp)%Q in
    let negative := Qnum q <? 0 in
    if Qle_bool (pow2 128) r then F32inf negative
    else F32 (Qred (if negative then (- r)%Q else r)).

(** [holds c x]: reading the cell [c] gives exactly the number [x]. *)
Definition holds (c : float32) (x : Q) : Prop :=
  match c with
  | F32 q => q == x
  | F32inf _ => False
  end.

(** A number a [Float32Array] stores without change. *)
Definition isFloat32 (x : Q) : Prop := holds (toFloat32 x) x.

(** [Math.min] and [Math.max] of four numbers, as [batchQuad] calls them. *)
Definition min4 (a b c d : Q) : Q := Qmin (Qmin (Qmin a b) c) d.
Definition max4 (a b c d : Q) : Q := Qmax (Qmax (Qmax a b) c) d.

(** Modelled from the spec: [SnapCeil] (math/snap/SnapCeil.js) is not among
    the sources.  The call [SnapCeil(value, gap, 0, true)] yields the bucket
    number, the ceiling of [value / gap]. *)
Definition SnapCeil (value gap : Q) : Z := Qceiling (value / gap).

(** [array[i]] for an integer [i]: [undefined] outside the array. *)
Definition item {A : Type} (l : list A) (i : Z) : option A :=
  if i <? 0 then None else l !! Z.to_nat i.

(** ** The host engine's objects *)

(** Modelled from the spec: renderer/BlendModes.js is not among the sources.
    The blend modes of the renderer; [ERASE] is the subtractive mode
    [copySprite] switches to for the duration of a draw. *)
Inductive BlendMode : Type :=
| NORMAL
| ADD
| MULTIPLY
| SCREEN
| ERASE
| OtherBlendMode (id : Z).

(** A shader of the pipeline as configured: its name and the names of its
    fragment and vertex sources. *)
Record Shader : Type := {
  shaderName : string;
  fragShader : string;
  vertShader : string
}.

(** The two vertex buffers the pipeline binds: the batch buffer of the base
    pipeline and the quad buffer of [copySprite]. *)
Inductive VertexBuffer : Type :=
| vertexBuffer
| quadVertexBuffer.

Module RenderTarget.

(** Modelled from the spec: the class RenderTarget (renderer/webgl/
    RenderTarget.js) is not among the sources.  A render target owns a
    texture and a framebuffer, has a fixed width and height, and flags for
    clearing on bind and for following the renderer's size. *)
Record t : Type := {
  texture : nat;
  framebuffer : nat;
  width : Z;
  height : Z;
  scale : Q;
  minFilter : Z;
  autoClear : bool;
  autoResize : bool
}.

(** Two targets of the same dimensions. *)
Definition sameSize (a b : t) : Prop :=
  width a = width b /\ height a = height b.

(** A square target of the given side. *)
Definition isSquare (side : Z) (a : t) : Prop :=
  width a = side /\ height a = side.

End RenderTarget.

Module Renderer.

(** Modelled from the spec: the WebGL renderer is an external collaborator.
    Kept here: the viewport size, the current blend mode, the stack of
    framebuffers with push/pop semantics (the top is the current one), and
    the number of GPU objects created so far, which names the next one. *)
Record t : Type := {
  isBooted : bool;
  width : Z;
  height : Z;
  currentBlendMode : BlendMode;
  fboStack : list nat;
  created : nat
}.

(** Modelled from the spec: the framebuffer in use is the top of the
    stack, [null] when the stack is empty. *)
Definition currentFramebuffer (r : t) : option nat := head (fboStack r).

(** Assignments to one field of the renderer. *)
Definition withBlendMode (m : BlendMode) (r : t) : t :=
  {| isBooted := isBooted r; width := width r; height := height r;
     currentBlendMode := m; fboStack := fboStack r; created := created r |}.

Definition withFboStack (s : list nat) (r : t) : t :=
  {| isBooted := isBooted r; width := width r; height := height r;
     currentBlendMode := currentBlendMode r; fboStack := s;
     created := created r |}.

Definition withCreated (n : nat) (r : t) : t :=
  {| isBooted := isBooted r; width := width r; height := height r;
     currentBlendMode := currentBlendMode r; fboStack := fboStack r;
     created := n |}.

End Renderer.

Module Rectangle.

(** Modelled from the spec: geom/rectangle/Rectangle.js is not among the
    sources.  A rectangle is a position and a size. *)
Record t : Type := { x : Q; y : Q; width : Q; height : Q }.

(** [new Rectangle()] *)
Definition empty : t := {| x := 0; y := 0; width := 0; height := 0 |}.

(** Modelled from the spec: [setTo] gives the rectangle a position and a
    size. *)
Definition setTo (x y width height : Q) : t :=
  {| x := x; y := y; width := width; height := height |}.

(** Modelled from the spec: the centre of the rectangle, on each axis. *)
Definition centerX (r : t) : Q := (x r + width r / 2)%Q.

(** Modelled from the spec: the centre of the rectangle, on each axis. *)
Definition centerY (r : t) : Q := (y r + height r / 2)%Q.

(** Modelled from the spec: geom/rectangle/CenterOn.js is not among the
    sources.  [CenterOn] moves the rectangle so that its centre is the
    given point. *)
Definition CenterOn (r : t) (cx cy : Q) : t :=
  {| x := (cx - width r / 2)%Q; y := (cy - height r / 2)%Q;
     width := width r; height := height r |}.

End Rectangle.

Module TransformMatrix.

(** Modelled from the spec: gameobjects/components/TransformMatrix.js is not
    among the sources, and the spec leaves matrix maths to the host engine.
    An affine transform, with the usual action on a point. *)
Record t : Type := { a : Q; b : Q; c : Q; d : Q; tx : Q; ty : Q }.

(** Modelled from the spec: [loadIdentity] resets the transform to the
    identity. *)
Definition loadIdentity : t := {| a := 1; b := 0; c := 0; d := 1; tx := 0; ty := 0 |}.

(** Modelled from the spec: the x of the image of the point [(x, y)]. *)
Definition getX (m : t) (x y : Q) : Q := (x * a m + y * c m + tx m)%Q.

(** Modelled from the spec: the y of the image of the point [(x, y)]. *)
Definition getY (m : t) (x y : Q) : Q := (x * b m + y * d m + ty m)%Q.

End TransformMatrix.

(** Modelled from the spec: the Game Objects are the host engine's.  The
    pipeline reads a sprite's FX padding, the margin reserved around its
    bounds, and calls its hooks; [objectId] tells one object from another. *)
Record GameObject : Type := { objectId : nat; fxPadding : Q }.

(** The commands sent to the WebGL context, to the renderer and to the base
    pipeline, in the order of issue. *)
Inductive Command : Type :=
| gl_viewport (x y w h : Q)
| gl_bindFramebuffer (framebuffer : option nat)
| gl_framebufferTexture2D (texture : nat)
| gl_clearColor (r g b a : Q)
| gl_clear
| gl_activeTexture0
| gl_bindTexture (texture : option nat)
| gl_copyTexSubImage2D (xoffset yoffset x y w h : Q)
| gl_bufferData (data : list float32)
| gl_drawArrays (first count : Z)
| renderer_setBlendMode (mode : BlendMode)
| renderer_setTextureZero (texture : nat)
| renderer_clearTextureZero
| renderer_resetTextures
| renderer_popFramebuffer
| renderer_createVertexBuffer
| pipeline_setShader (shader : option Shader)
| pipeline_set1i (name : string) (value : Z)
| pipeline_batchVert (x y u v : Q) (textureUnit tintEffect tint : Z)
| pipeline_flush
| pipeline_setVertexBuffer (buffer : VertexBuffer)
| shader_bind (shader : Shader) (setAttributes : bool).

(** ** The pipeline *)

(** [spriteData]: the transient data of the sprite being drawn. *)
Record SpriteData : Type := {
  sprite : option GameObject;
  x0 : Q; y0 : Q; x1 : Q; y1 : Q; x2 : Q; y2 : Q; x3 : Q; y3 : Q;
  u0 : Q; v0 : Q; u1 : Q; v1 : Q;
  tintTL : Z; tintTR : Z; tintBL : Z; tintBR : Z;
  tintEffect : Z;
  texture : option nat;
  textureIndex : Z
}.

Definition withSprite (s : option GameObject) (d : SpriteData) : SpriteData :=
  {| sprite := s;
     x0 := x0 d; y0 := y0 d; x1 := x1 d; y1 := y1 d;
     x2 := x2 d; y2 := y2 d; x3 := x3 d; y3 := y3 d;
     u0 := u0 d; v0 := v0 d; u1 := u1 d; v1 := v1 d;
     tintTL := tintTL d; tintTR := tintTR d; tintBL := tintBL d;
     tintBR := tintBR d; tintEffect := tintEffect d;
     texture := texture d; textureIndex := textureIndex d |}.

Definition withTexture (t : option nat) (d : SpriteData) : SpriteData :=
  {| sprite := sprite d;
     x0 := x0 d; y0 := y0 d; x1 := x1 d; y1 := y1 d;
     x2 := x2 d; y2 := y2 d; x3 := x3 d; y3 := y3 d;
     u0 := u0 d; v0 := v0 d; u1 := u1 d; v1 := v1 d;
     tintTL := tintTL d; tintTR := tintTR d; tintBL := tintBL d;
     tintBR := tintBR d; tintEffect := tintEffect d;
     texture := t; textureIndex := textureIndex d |}.

Definition withTextureIndex (i : Z) (d : SpriteData) : SpriteData :=
  {| sprite := sprite d;
     x0 := x0 d; y0 := y0 d; x1 := x1 d; y1 := y1 d;
     x2 := x2 d; y2 := y2 d; x3 := x3 d; y3 := y3 d;
     u0 := u0 d; v0 := v0 d; u1 := u1 d; v1 := v1 d;
     tintTL := tintTL d; tintTR := tintTR d; tintBL := tintBL d;
     tintBR := tintBR d; tintEffect := tintEffect d;
     texture := texture d; textureIndex := i |}.

(** The part of the configuration object the constructor reads. *)
Record Config : Type := {
  config_frameInc : option Q;
  config_altFrame : option bool;
  config_fragShader : option string;
  config_vertShader : option string;
  config_drawShader : option string;
  config_shaders : list Shader
}.

(** [GetFastValue(source, key, defaultValue)] on an optional property. *)
Definition GetFastValue {A : Type} (property : option A) (defaultValue : A) : A :=
  match property with
  | Some v => v
  | None => defaultValue
  end.

(** [if (argument === undefined) { argument = defaultValue; }] *)
Definition orDefault {A : Type} (argument : option A) (defaultValue : A) : A :=
  match argument with
  | Some v => v
  | None => defaultValue
  end.

(** The fields of a SpriteFXPipeline instance.  A field the constructor only
    declares ([this.copyShader;]) is [None] until [boot] assigns it. *)
Record Pipeline : Type := {
  renderer : Renderer.t;
  gl : list Command;
  shaders : list Shader;
  renderTargets : list RenderTarget.t;
  currentShader : option Shader;
  activeBuffer : VertexBuffer;
  drawSpriteShader : option Shader;
  copyShader : option Shader;
  gameShader : option Shader;
  quadVertexViewF32 : option (list float32);
  maxDimension : Z;
  frameInc : Z;
  altFrame : bool;
  spriteBounds : Rectangle.t;
  targetBounds : Rectangle.t;
  fsTarget : option RenderTarget.t;
  spriteData : SpriteData
}.

(** Assignments to one field of the pipeline. *)
Definition set_renderer (v : Renderer.t) (p : Pipeline) : Pipeline :=
  {| renderer := v;
     gl := gl p;
     shaders := shaders p;
     renderTargets := renderTargets p;
     currentShader := currentShader p;
     activeBuffer := activeBuffer p;
     drawSpriteShader := drawSpriteShader p;
     copyShader := copyShader p;
     gameShader := gameShader p;
     quadVertexViewF32 := quadVertexViewF32 p;
     maxDimension := maxDimension p;
     frameInc := frameInc p;
     altFrame := altFrame p;
     spriteBounds := spriteBounds p;
     targetBounds := targetBounds p;
     fsTarget := fsTarget p;
     spriteData := spriteData p |}.

Definition set_gl (v : list Command) (p : Pipeline) : Pipeline :=
  {| renderer := renderer p;
     gl := v;
     shaders := shaders p;
     renderTargets := renderTargets p;
     currentShader := currentShader p;
     activeBuffer := activeBuffer p;
     drawSpriteShader := drawSpriteShader p;
     copyShader := copyShader p;
     gameShader := gameShader p;
     quadVertexViewF32 := quadVertexViewF32 p;
     maxDimension := maxDimension p;
     frameInc := frameInc p;
     altFrame := altFrame p;
     spriteBounds := spriteBounds p;
     targetBounds := targetBounds p;
     fsTarget := fsTarget p;
     spriteData := spriteData p |}.

Definition set_renderTargets (v : list RenderTarget.t) (p : Pipeline) : Pipeline :=
  {| renderer := renderer p;
     gl := gl p;
     shaders := shaders p;
     renderTargets := v;
     currentShader := currentShader p;
     activeBuffer := activeBuffer p;
     drawSpriteShader := drawSpriteShader p;
     copyShader := copyShader p;
     gameShader := gameShader p;
     quadVertexViewF32 := quadVertexViewF32 p;
     maxDimension := maxDimension p;
     frameInc := frameInc p;
     altFrame := altFrame p;
     spriteBounds := spriteBounds p;
     targetBounds := targetBounds p;
     fsTarget := fsTarget p;
     spriteData := spriteData p |}.

Definition set_currentShader (v : option Shader) (p : Pipeline) : Pipeline :=
  {| renderer := renderer p;
     gl := gl p;
     shaders := shaders p;
     renderTargets := renderTargets p;
     currentShader := v;
     activeBuffer := activeBuffer p;
     drawSpriteShader := drawSpriteShader p;
     copyShader := copyShader p;
     gameShader := gameShader p;
     quadVertexViewF32 := quadVertexViewF32 p;
     maxDimension := maxDimension p;
     frameInc := frameInc p;
     altFrame := altFrame p;
     spriteBounds := spriteBounds p;
     targetBounds := targetBounds p;
     fsTarget := fsTarget p;
     spriteData := spriteData p |}.

Definition set_activeBuffer (v : VertexBuffer) (p : Pipeline) : Pipeline :=
  {| renderer := renderer p;
     gl := gl p;
     shaders := shaders p;
     renderTargets := renderTargets p;
     currentShader := currentShader p;
     activeBuffer := v;
     drawSpriteShader := drawSpriteShader p;
     copyShader := copyShader p;
     gameShader := gameShader p;
     quadVertexViewF32 := quadVertexViewF32 p;
     maxDimension := maxDimension p;
     frameInc := frameInc p;
     altFrame := altFrame p;
     spriteBounds := spriteBounds p;
     targetBounds := targetBounds p;
     fsTarget := fsTarget p;
     spriteData := spriteData p |}.

Definition set_drawSpriteShader (v : option Shader) (p : Pipeline) : Pipeline :=
  {| renderer := renderer p;
     gl := gl p;
     shaders := shaders p;
     renderTargets := renderTargets p;
     currentShader := currentShader p;
     activeBuffer := activeBuffer p;
     drawSpriteShader := v;
     copyShader := copyShader p;
     gameShader := gameShader p;
     quadVertexViewF32 := quadVertexViewF32 p;
     maxDimension := maxDimension p;
     frameInc := frameInc p;
     altFrame := altFrame p;
     spriteBounds := spriteBounds p;
     targetBounds := targetBounds p;
     fsTarget := fsTarget p;
     spriteData := spriteData p |}.

Definition set_copyShader (v : option Shader) (p : Pipeline) : Pipeline :=
  {| renderer := renderer p;
     gl := gl p;
     shaders := shaders p;
     renderTargets := renderTargets p;
     currentShader := currentShader p;
     activeBuffer := activeBuffer p;
     drawSpriteShader := drawSpriteShader p;
     copyShader := v;
     gameShader := gameShader p;
     quadVertexViewF32 := quadVertexViewF32 p;
     maxDimension := maxDimension p;
     frameInc := frameInc p;
     altFrame := altFrame p;
     spriteBounds := spriteBounds p;
     targetBounds := targetBounds p;
     fsTarget := fsTarget p;
     spriteData := spriteData p |}.

Definition set_gameShader (v : option Shader) (p : Pipeline) : Pipeline :=
  {| renderer := renderer p;
     gl := gl p;
     shaders := shaders p;
     renderTargets := renderTargets p;
     currentShader := currentShader p;
     activeBuffer := activeBuffer p;
     drawSpriteShader := drawSpriteShader p;
     copyShader := copyShader p;
     gameShader := v;
     quadVertexViewF32 := quadVertexViewF32 p;
     maxDimension := maxDimension p;
     frameInc := frameInc p;
     altFrame := altFrame p;
     spriteBounds := spriteBounds p;
     targetBounds := targetBounds p;
     fsTarget := fsTarget p;
     spriteData := spriteData p |}.

Definition set_quadVertexViewF32 (v : option (list float32)) (p : Pipeline) : Pipeline :=
  {| renderer := renderer p;
     gl := gl p;
     shaders := shaders p;
     renderTargets := renderTargets p;
     currentShader := currentShader p;
     activeBuffer := activeBuffer p;
     drawSpriteShader := drawSpriteShader p;
     copyShader := copyShader p;
     gameShader := gameShader p;
     quadVertexViewF32 := v;
     maxDimension := maxDimension p;
     frameInc := frameInc p;
     altFrame := altFrame p;
     spriteBounds := spriteBounds p;
     targetBounds := targetBounds p;
     fsTarget := fsTarget p;
     spriteData := spriteData p |}.

Definition set_maxDimension (v : Z) (p : Pipeline) : Pipeline :=
  {| renderer := renderer p;
     gl := gl p;
     shaders := shaders p;
     renderTargets := renderTargets p;
     currentShader := currentShader p;
     activeBuffer := activeBuffer p;
     drawSpriteShader := drawSpriteShader p;
     copyShader := copyShader p;
     gameShader := gameShader p;
     quadVertexViewF32 := quadVertexViewF32 p;
     maxDimension := v;
     frameInc := frameInc p;
     altFrame := altFrame p;
     spriteBounds := spriteBounds p;
     targetBounds := targetBounds p;
     fsTarget := fsTarget p;
     spriteData := spriteData p |}.

Definition set_spriteBounds (v : Rectangle.t) (p : Pipeline) : Pipeline :=
  {| renderer := renderer p;
     gl := gl p;
     shaders := shaders p;
     renderTargets := renderTargets p;
     currentShader := currentShader p;
     activeBuffer := activeBuffer p;
     drawSpriteShader := drawSpriteShader p;
     copyShader := copyShader p;
     gameShader := gameShader p;
     quadVertexViewF32 := quadVertexViewF32 p;
     maxDimension := maxDimension p;
     frameInc := frameInc p;
     altFrame := altFrame p;
     spriteBounds := v;
     targetBounds := targetBounds p;
     fsTarget := fsTarget p;
     spriteData := spriteData p |}.

Definition set_targetBounds (v : Rectangle.t) (p : Pipeline) : Pipeline :=
  {| renderer := renderer p;
     gl := gl p;
     shaders := shaders p;
     renderTargets := renderTargets p;
     currentShader := currentShader p;
     activeBuffer := activeBuffer p;
     drawSpriteShader := drawSpriteShader p;
     copyShader := copyShader p;
     gameShader := gameShader p;
     quadVertexViewF32 := quadVertexViewF32 p;
     maxDimension := maxDimension p;
     frameInc := frameInc p;
     altFrame := altFrame p;
     spriteBounds := spriteBounds p;
     targetBounds := v;
     fsTarget := fsTarget p;
     spriteData := spriteData p |}.

Definition set_fsTarget (v : option RenderTarget.t) (p : Pipeline) : Pipeline :=
  {| renderer := renderer p;
     gl := gl p;
     shaders := shaders p;
     renderTargets := renderTargets p;
     currentShader := currentShader p;
     activeBuffer := activeBuffer p;
     drawSpriteShader := drawSpriteShader p;
     copyShader := copyShader p;
     gameShader := gameShader p;
     quadVertexViewF32 := quadVertexViewF32 p;
     maxDimension := maxDimension p;
     frameInc := frameInc p;
     altFrame := altFrame p;
     spriteBounds := spriteBounds p;
     targetBounds := targetBounds p;
     fsTarget := v;
     spriteData := spriteData p |}.

Definition set_spriteData (v : SpriteData) (p : Pipeline) : Pipeline :=
  {| renderer := renderer p;
     gl := gl p;
     shaders := shaders p;
     renderTargets := renderTargets p;
     currentShader := currentShader p;
     activeBuffer := activeBuffer p;
     drawSpriteShader := drawSpriteShader p;
     copyShader := copyShader p;
     gameShader := gameShader p;
     quadVertexViewF32 := quadVertexViewF32 p;
     maxDimension := maxDimension p;
     frameInc := frameInc p;
     altFrame := altFrame p;
     spriteBounds := spriteBounds p;
     targetBounds := targetBounds p;
     fsTarget := fsTarget p;
     spriteData := v |}.

(** ** Computations on the pipeline *)

Inductive JSError : Type := TypeError.

(** How a call ends: with a value, or with an exception thrown. *)
Inductive Completion (A : Type) : Type :=
| Normal (a : A)
| Throw (e : JSError).

Arguments Normal {A} a.
Arguments Throw {A} e.

(** A method: it ends one way or the other and leaves the pipeline in a new
    state (what was written before an exception stays written). *)
Definition M (A : Type) : Type := Pipeline -> Completion A * Pipeline.

Definition ret {A : Type} (a : A) : M A := fun p => (Normal a, p).

Definition bind {A B : Type} (m : M A) (k : A -> M B) : M B :=
  fun p =>
    match m p with
    | (Normal a, p') => k a p'
    | (Throw e, p') => (Throw e, p')
    end.

Declare Scope js_scope.
Delimit Scope js_scope with js.
Notation "x <- m ;; k" := (bind m (fun x => k))
  (at level 100, m at next level, right associativity) : js_scope.
Notation "m ;; k" := (bind m (fun _ => k))
  (at level 100, right associativity) : js_scope.
Open Scope js_scope.

(** Reading a field of [this]. *)
Definition gets {A : Type} (f : Pipeline -> A) : M A := fun p => (Normal (f p), p).

(** Writing to [this], or running code that does. *)
Definition modify (f : Pipeline -> Pipeline) : M unit := fun p => (Normal tt, f p).

(** Reading a property of a value that may be [null] or [undefined]. *)
Definition deref {A : Type} (o : option A) : M A :=
  fun p =>
    match o with
    | Some a => (Normal a, p)
    | None => (Throw TypeError, p)
    end.

(** Issuing a command. *)
Definition emit (c : Command) : M unit :=
  modify (fun p => set_gl (gl p ++ [c]) p).

(** [if (c) { m }] *)
Definition when (c : bool) (m : M unit) : M unit := if c then m else ret tt.

(** The final state and the completion of a call. *)
Definition stateAfter {A : Type} (m : M A) (p : Pipeline) : Pipeline := snd (m p).
Definition completion {A : Type} (m : M A) (p : Pipeline) : Completion A := fst (m p).

(** *** The base pipeline and the renderer *)

(** Modelled from the spec: WebGLPipeline.js is not among the sources.  The
    base pipeline has a current-shader slot that [setShader] fills. *)
Definition setShader (shader : option Shader) : M unit :=
  emit (pipeline_setShader shader) ;;
  modify (set_currentShader shader).

(** Modelled from the spec: [set1i(uniformName, value)] of the base pipeline
    sets a uniform of the current shader. *)
Definition set1i (name : string) (value : Z) : M unit :=
  emit (pipeline_set1i name value).

(** Modelled from the spec: [batchVert] of the base pipeline adds one vertex
    to the batch. *)
Definition batchVert (x y u v : Q) (textureUnit tintEffect tint : Z) : M unit :=
  emit (pipeline_batchVert x y u v textureUnit tintEffect tint).

(** Modelled from the spec: [flush] of the base pipeline draws the batch. *)
Definition flush : M unit := emit pipeline_flush.

Definition VertexBuffer_eqb (a b : VertexBuffer) : bool :=
  match a, b with
  | vertexBuffer, vertexBuffer => true
  | quadVertexBuffer, quadVertexBuffer => true
  | _, _ => false
  end.

(** Modelled from the spec: [setVertexBuffer] of the base pipeline binds a
    vertex buffer unless it is the active one, and tells whether it did. *)
Definition setVertexBuffer (buffer : VertexBuffer) : M bool :=
  active <- gets activeBuffer ;;
  if VertexBuffer_eqb active buffer then ret false
  else
    emit (pipeline_setVertexBuffer buffer) ;;
    modify (set_activeBuffer buffer) ;;
    ret true.

(** Modelled from the spec: the base class's boot compiles the configured
    shaders, which the constructor keeps in [shaders], and creates the
    render targets of [config.renderTarget], which this pipeline leaves
    unset. *)
Definition WebGLPipeline_boot : M unit := ret tt.

(** A change to the renderer the pipeline holds. *)
Definition renderer_modify (f : Renderer.t -> Renderer.t) : M unit :=
  modify (fun p => set_renderer (f (renderer p)) p).

(** Modelled from the spec: [renderer.setBlendMode] is not among the
    sources; it makes [mode] the renderer's current blend mode. *)
Definition setBlendMode (mode : BlendMode) : M unit :=
  emit (renderer_setBlendMode mode) ;;
  renderer_modify (Renderer.withBlendMode mode).

(** Modelled from the spec: [renderer.popFramebuffer] is not among the
    sources; it pops the framebuffer stack, the new top becoming current. *)
Definition popFramebuffer : M unit :=
  emit renderer_popFramebuffer ;;
  renderer_modify (fun r => Renderer.withFboStack (tail (Renderer.fboStack r)) r).

(** Modelled from the spec: [new RenderTarget(renderer, width, height,
    scale, minFilter, autoClear, autoResize)] creates a texture and a
    framebuffer of the given size; the call without the last four arguments
    takes scale 1, filter 0, [autoClear] and no [autoResize]. *)
Definition new_RenderTarget (width height : Z) (scale : Q) (minFilter : Z)
    (autoClear autoResize : bool) : M RenderTarget.t :=
  r <- gets renderer ;;
  let n := Renderer.created r in
  renderer_modify (Renderer.withCreated (S n)) ;;
  ret {| RenderTarget.texture := n; RenderTarget.framebuffer := n;
         RenderTarget.width := width; RenderTarget.height := height;
         RenderTarget.scale := scale; RenderTarget.minFilter := minFilter;
         RenderTarget.autoClear := autoClear;
         RenderTarget.autoResize := autoResize |}.

(** [targets.push(target)] *)
Definition push (target : RenderTarget.t) : M unit :=
  modify (fun p => set_renderTargets (renderTargets p ++ [target]) p).

(** *** The constructor *)

Definition defaultShaders (fragShader vertShader drawShader : string) : list Shader :=
  [ {| shaderName := "DrawSprite"; fragShader := "SingleQuadFS";
       vertShader := "SingleQuadVS" |};
    {| shaderName := "CopySprite"; fragShader := fragShader;
       vertShader := vertShader |};
    {| shaderName := "DrawGame"; fragShader := drawShader;
       vertShader := "SingleQuadVS" |} ].

Definition emptySpriteData : SpriteData :=
  {| sprite := None;
     x0 := 0; y0 := 0; x1 := 0; y1 := 0; x2 := 0; y2 := 0; x3 := 0; y3 := 0;
     u0 := 0; v0 := 0; u1 := 0; v1 := 0;
     tintTL := 0; tintTR := 0; tintBL := 0; tintBR := 0;
     tintEffect := 0;
     texture := None;
     textureIndex := 0 |}.

(** The state the constructor leaves, before its call to [boot]. *)
Definition construct (config : Config) (r : Renderer.t) : Pipeline :=
  let fragShader := GetFastValue (config_fragShader config) "PostFXFS"%string in
  let vertShader := GetFastValue (config_vertShader config) "SingleQuadVS"%string in
  let drawShader := GetFastValue (config_drawShader config) "PostFXFS"%string in
  {| renderer := r;
     gl := [];
     shaders := defaultShaders fragShader vertShader drawShader ++ config_shaders config;
     renderTargets := [];
     currentShader := None;
     activeBuffer := vertexBuffer;
     drawSpriteShader := None;
     copyShader := None;
     gameShader := None;
     quadVertexViewF32 := None;
     maxDimension := 0;
     frameInc := Qfloor (GetFastValue (config_frameInc config) 64%Q);
     altFrame := GetFastValue (config_altFrame config) false;
     spriteBounds := Rectangle.empty;
     targetBounds := Rectangle.empty;
     fsTarget := None;
     spriteData := emptySpriteData |}.

(** *** The quad vertex buffer *)

(** The assignments of [onResize] to the Float32 view, in source order. *)
Definition onResize_view (width height : Q) (view : list float32) : list float32 :=
  let view := <[1%nat := toFloat32 height]> view in
  let view := <[22%nat := toFloat32 height]> view in
  let view := <[14%nat := toFloat32 width]> view in
  let view := <[28%nat := toFloat32 width]> view in
  let view := <[35%nat := toFloat32 width]> view in
  <[36%nat := toFloat32 height]> view.

(** [onResize]: the assignments, on the view [boot] created. *)
Definition onResize (width height : Q) : M unit :=
  vertexViewF32 <- gets quadVertexViewF32 ;;
  view <- deref vertexViewF32 ;;
  modify (set_quadVertexViewF32 (Some (onResize_view width height view))).

(** The assignments of [setUVs] to the Float32 view, in source order. *)
Definition setUVs_view (uA vA uB vB uC vC uD vD : Q) (view : list float32) : list float32 :=
  let view := <[2%nat := toFloat32 uA]> view in
  let view := <[3%nat := toFloat32 vA]> view in
  let view := <[9%nat := toFloat32 uB]> view in
  let view := <[10%nat := toFloat32 vB]> view in
  let view := <[16%nat := toFloat32 uC]> view in
  let view := <[17%nat := toFloat32 vC]> view in
  let view := <[23%nat := toFloat32 uA]> view in
  let view := <[24%nat := toFloat32 vA]> view in
  let view := <[30%nat := toFloat32 uC]> view in
  let view := <[31%nat := toFloat32 vC]> view in
  let view := <[37%nat := toFloat32 uD]> view in
  <[38%nat := toFloat32 vD]> view.

(** [setUVs]: the assignments, on the view [boot] created. *)
Definition setUVs (uA vA uB vB uC vC uD vD : Q) : M unit :=
  vertexViewF32 <- gets quadVertexViewF32 ;;
  view <- deref vertexViewF32 ;;
  modify (set_quadVertexViewF32 (Some (setUVs_view uA vA uB vB uC vC uD vD view))).

(** The vertical offset [setTargetUVs] computes from the two heights. *)
Definition targetUVdiff (source target : RenderTarget.t) : Q :=
  let diff := (inject_Z (RenderTarget.height target)
               / inject_Z (RenderTarget.height source))%Q in
  if Qlt_le_dec (1 # 2) diff
  then ((1 # 2) - (diff - (1 # 2)))%Q
  else ((1 # 2) + ((1 # 2) - diff))%Q.

(** [setTargetUVs]: the UVs shifted vertically by [diff]. *)
Definition setTargetUVs (source target : RenderTarget.t) : M unit :=
  let diff := targetUVdiff source target in
  setUVs 0 diff 0 (1 + diff) 1 (1 + diff) 1 diff.

(** [resetUVs]: the UVs of the whole texture. *)
Definition resetUVs : M unit := setUVs 0 0 0 1 1 1 1 0.

(** *** The render-target ladder *)

(** One round of the loop of [boot]: the target of bucket [i], its swap
    duplicate and, with [altFrame], its alt-swap duplicate. *)
Definition boot_bucket (i : Z) : M unit :=
  inc <- gets frameInc ;;
  let targetWidth := i * inc in
  t <- new_RenderTarget targetWidth targetWidth 1 0 true false ;;
  push t ;;
  t <- new_RenderTarget targetWidth targetWidth 1 0 true false ;;
  push t ;;
  alt <- gets altFrame ;;
  when alt (
    t <- new_RenderTarget targetWidth targetWidth 1 0 true false ;;
    push t).

(** [for (var i = ...; i < qty; i++)], unrolled at most [fuel] times. *)
Fixpoint boot_loop (fuel : nat) (i qty : Z) : M unit :=
  match fuel with
  | O => ret tt
  | S fuel' =>
      if i <? qty then
        boot_bucket i ;;
        boot_loop fuel' (i + 1) qty
      else ret tt
  end.

(** The number of ladder steps [boot] asks for.  The step is taken to be
    positive: with [frameInc] 0 the quotient is [Infinity] in JavaScript
    and the loop of [boot] does not end, which the rational quotient here
    does not show; the properties of [boot] below are for a positive
    step. *)
Definition boot_qty (p : Pipeline) : Z :=
  let minDimension := Z.min (Renderer.width (renderer p)) (Renderer.height (renderer p)) in
  Qceiling (inject_Z minDimension / inject_Z (frameInc p)).

(** [boot]: the shaders, the ladder of targets, the full-screen targets,
    [maxDimension], and the quad buffer sized to the renderer. *)
Definition boot : M unit :=
  WebGLPipeline_boot ;;
  shaders <- gets shaders ;;
  modify (set_drawSpriteShader (shaders !! 0%nat)) ;;
  modify (set_copyShader (shaders !! 1%nat)) ;;
  modify (set_gameShader (shaders !! 2%nat)) ;;
  qty <- gets boot_qty ;;
  boot_loop (Z.to_nat qty) 1 qty ;;
  r <- gets renderer ;;
  let w := Renderer.width r in
  let h := Renderer.height r in
  t <- new_RenderTarget w h 1 0 true true ;;
  push t ;;
  t <- new_RenderTarget w h 1 0 true true ;;
  push t ;;
  alt <- gets altFrame ;;
  when alt (
    t <- new_RenderTarget w h 1 0 true true ;;
    push t) ;;
  t <- new_RenderTarget w h 1 0 true true ;;
  modify (set_fsTarget (Some t)) ;;
  push t ;;
  inc <- gets frameInc ;;
  modify (set_maxDimension ((qty - 1) * inc)) ;;
  modify (set_quadVertexViewF32 (Some (replicate 42 (F32 0)))) ;;
  emit renderer_createVertexBuffer ;;
  onResize (inject_Z w) (inject_Z h) ;;
  copy <- gets copyShader ;;
  modify (set_currentShader copy).

(** [new SpriteFXPipeline(config)] on a booted renderer. *)
Definition initialize (config : Config) (r : Renderer.t) : Pipeline :=
  let p := construct config r in
  if Renderer.isBooted r then stateAfter boot p else p.

(** [this.spriteData.textureIndex = index] *)
Definition setTextureIndex (index : Z) : M unit :=
  modify (fun p => set_spriteData (withTextureIndex index (spriteData p)) p).

(** The target for a sprite of the given size: past [maxDimension] the one
    [offset] places from the end of the list, else the one of the bucket
    [SnapCeil(size, 64, 0, true)].  The index is kept in [spriteData]. *)
Definition getSpriteTarget (size : Q) : M (option RenderTarget.t) :=
  targets <- gets renderTargets ;;
  alt <- gets altFrame ;;
  let offset := if alt then 3 else 2 in
  maxDimension <- gets maxDimension ;;
  if Qlt_le_dec (inject_Z maxDimension) size then
    setTextureIndex (Z.of_nat (length targets) - offset) ;;
    index <- gets (fun p => textureIndex (spriteData p)) ;;
    ret (item targets index)
  else
    let index := (SnapCeil size 64 - 1) * offset in
    setTextureIndex index ;;
    ret (item targets index).

(** The target after the selected one. *)
Definition getSwapTarget : M (option RenderTarget.t) :=
  targets <- gets renderTargets ;;
  index <- gets (fun p => textureIndex (spriteData p)) ;;
  ret (item targets (index + 1)).

(** The target two after the selected one, when the pipeline has alt swap
    frames; [undefined] otherwise. *)
Definition getAltSwapTarget : M (option RenderTarget.t) :=
  alt <- gets altFrame ;;
  if alt then
    targets <- gets renderTargets ;;
    index <- gets (fun p => textureIndex (spriteData p)) ;;
    ret (item targets (index + 2))
  else ret None.

(** *** The draw passes *)

Section Passes.

(** The hooks the pipeline calls on the sprite ([onFX], [onFXCopy]) and on
    itself ([onBatch], empty in the base class): code of the effect's
    author, run on the pipeline. *)
Variable onFX : GameObject -> Pipeline -> Pipeline.
Variable onFXCopy : GameObject -> Pipeline -> Pipeline.
Variable onBatch : GameObject -> Pipeline -> Pipeline.

(** The callback before the sprite is drawn; empty in this class. *)
Definition onDrawSprite (gameObject : GameObject) (target : RenderTarget.t) : M unit :=
  ret tt.

(** The callback before a target is copied; empty in this class. *)
Definition onCopySprite (source target : RenderTarget.t) (gameObject : GameObject) : M unit :=
  ret tt.

(** Draws [source] to the framebuffer below on the stack, at
    [targetBounds], and drops the references held in [spriteData]. *)
Definition bindAndDraw (source : RenderTarget.t) : M unit :=
  set1i "uMainSampler" 0 ;;
  popFramebuffer ;;
  r <- gets renderer ;;
  when (negb (bool_decide (is_Some (Renderer.currentFramebuffer r)))) (
    emit (gl_viewport 0 0 (inject_Z (Renderer.width r)) (inject_Z (Renderer.height r)))) ;;
  emit gl_activeTexture0 ;;
  emit (gl_bindTexture (Some (RenderTarget.texture source))) ;;
  bounds <- gets targetBounds ;;
  let x := Rectangle.x bounds in
  let y := Rectangle.y bounds in
  let xw := (x + inject_Z (RenderTarget.width source))%Q in
  let yh := (y + inject_Z (RenderTarget.height source))%Q in
  let matrix := TransformMatrix.loadIdentity in
  let x0 := TransformMatrix.getX matrix x y in
  let x1 := TransformMatrix.getX matrix x yh in
  let x2 := TransformMatrix.getX matrix xw yh in
  let x3 := TransformMatrix.getX matrix xw y in
  let y0 := TransformMatrix.getY matrix x y in
  let y1 := TransformMatrix.getY matrix x yh in
  let y2 := TransformMatrix.getY matrix xw yh in
  let y3 := TransformMatrix.getY matrix xw y in
  batchVert x0 y0 0 0 0 0 16777215 ;;
  batchVert x1 y1 0 1 0 0 16777215 ;;
  batchVert x2 y2 1 1 0 0 16777215 ;;
  batchVert x0 y0 0 0 0 0 16777215 ;;
  batchVert x2 y2 1 1 0 0 16777215 ;;
  batchVert x3 y3 1 0 0 0 16777215 ;;
  flush ;;
  emit renderer_resetTextures ;;
  modify (fun p => set_spriteData (withSprite None (spriteData p)) p) ;;
  modify (fun p => set_spriteData (withTexture None (spriteData p)) p).

(** Draws [source] to the game through the copy shader. *)
Definition drawToGame (source : RenderTarget.t) : M unit :=
  modify (set_currentShader None) ;;
  copy <- gets copyShader ;;
  setShader copy ;;
  bindAndDraw source.

(** Draws [source] to the game through the game shader. *)
Definition copyToGame (source : RenderTarget.t) : M unit :=
  modify (set_currentShader None) ;;
  game <- gets gameShader ;;
  setShader game ;;
  bindAndDraw source.

(** The last step of a draw; in this class, [drawToGame]. *)
Definition onDraw (target : RenderTarget.t) (swapTarget : option RenderTarget.t) : M unit :=
  drawToGame target.

(** The opening of [batchQuad], up to [this.spriteData.sprite =
    gameObject]: the bounds of the quad, the target that fits them and its
    placement.  It hands the sprite and the target to the passes. *)
Definition batchQuad_begin (gameObject : option GameObject)
    (x0 y0 x1 y1 x2 y2 x3 y3 : Q) : M (GameObject * RenderTarget.t) :=
  object <- deref gameObject ;;
  let padding := fxPadding object in
  let bx := min4 x0 x1 x2 x3 in
  let by' := min4 y0 y1 y2 y3 in
  let br := max4 x0 x1 x2 x3 in
  let bb := max4 y0 y1 y2 y3 in
  let bw := (br - bx)%Q in
  let bh := (bb - by')%Q in
  modify (set_spriteBounds (Rectangle.setTo bx by' bw bh)) ;;
  let width := (bw + padding * 2)%Q in
  let height := (bh + padding * 2)%Q in
  let maxDimension := Qabs (Qmax width height) in
  found <- getSpriteTarget maxDimension ;;
  target <- deref found ;;
  modify (set_targetBounds
            (Rectangle.setTo 0 0 (inject_Z (RenderTarget.width target))
                                 (inject_Z (RenderTarget.height target)))) ;;
  bounds <- gets spriteBounds ;;
  modify (fun p => set_targetBounds
            (Rectangle.CenterOn (targetBounds p)
               (Rectangle.centerX bounds) (Rectangle.centerY bounds)) p) ;;
  modify (fun p => set_spriteData (withSprite (Some object) (spriteData p)) p) ;;
  ret (object, target).

(** The rest of [batchQuad], from "Now draw the quad" on. *)
Definition batchQuad_draw (object : GameObject) (target : RenderTarget.t)
    (x0 y0 x1 y1 x2 y2 x3 y3 u0 v0 u1 v1 : Q)
    (tintTL tintTR tintBL tintBR tintEffect : Z) (texture : nat) : M bool :=
  let padding := fxPadding object in
  let bb := max4 y0 y1 y2 y3 in
  drawSprite <- gets drawSpriteShader ;;
  setShader drawSprite ;;
  set1i "uMainSampler" 0 ;;
  onDrawSprite object target ;;
  modify (onFX object) ;;
  fs <- gets fsTarget ;;
  emit (renderer_setTextureZero texture) ;;
  r <- gets renderer ;;
  emit (gl_viewport 0 0 (inject_Z (Renderer.width r)) (inject_Z (Renderer.height r))) ;;
  scratch <- deref fs ;;
  emit (gl_bindFramebuffer (Some (RenderTarget.framebuffer scratch))) ;;
  emit (gl_framebufferTexture2D (RenderTarget.texture scratch)) ;;
  emit (gl_clearColor 0 0 0 0) ;;
  emit gl_clear ;;
  batchVert x0 y0 u0 v0 0 tintEffect tintTL ;;
  batchVert x1 y1 u0 v1 0 tintEffect tintBL ;;
  batchVert x2 y2 u1 v1 0 tintEffect tintBR ;;
  batchVert x0 y0 u0 v0 0 tintEffect tintTL ;;
  batchVert x2 y2 u1 v1 0 tintEffect tintBR ;;
  batchVert x3 y3 u1 v0 0 tintEffect tintTR ;;
  flush ;;
  emit renderer_clearTextureZero ;;
  emit gl_activeTexture0 ;;
  emit (gl_bindTexture (Some (RenderTarget.texture target))) ;;
  placed <- gets targetBounds ;;
  r <- gets renderer ;;
  let tx := Rectangle.x placed in
  let ty := (inject_Z (Renderer.height r) - (bb + padding * 2))%Q in
  let tw := Z.min (Renderer.width r) (RenderTarget.width target) in
  let th := Z.min (Renderer.height r) (RenderTarget.height target) in
  let ty := if RenderTarget.height target =? Renderer.height r then 0%Q else ty in
  emit (gl_copyTexSubImage2D 0 0 tx ty (inject_Z tw) (inject_Z th)) ;;
  emit (gl_bindFramebuffer None) ;;
  emit (gl_bindTexture None) ;;
  modify (onBatch object) ;;
  copy <- gets copyShader ;;
  modify (set_currentShader copy) ;;
  swap <- getSwapTarget ;;
  onDraw target swap ;;
  ret true.

(** [batchQuad]: the two parts in sequence. *)
Definition batchQuad (gameObject : option GameObject)
    (x0 y0 x1 y1 x2 y2 x3 y3 u0 v0 u1 v1 : Q)
    (tintTL tintTR tintBL tintBR tintEffect : Z) (texture : nat) : M bool :=
  started <- batchQuad_begin gameObject x0 y0 x1 y1 x2 y2 x3 y3 ;;
  batchQuad_draw (fst started) (snd started)
    x0 y0 x1 y1 x2 y2 x3 y3 u0 v0 u1 v1
    tintTL tintTR tintBL tintBR tintEffect texture.

(** Copies [source] to [target] with the quad buffer, through [shader] or
    the copy shader; an omitted argument is [None]. *)
Definition copySprite (source target : RenderTarget.t)
    (clear clearAlpha eraseMode : option bool) (shader : option Shader) : M unit :=
  let clear := orDefault clear true in
  let clearAlpha := orDefault clearAlpha true in
  let eraseMode := orDefault eraseMode false in
  copy <- gets copyShader ;;
  let shader := match shader with Some s => Some s | None => copy end in
  sprite <- gets (fun p => sprite (spriteData p)) ;;
  modify (set_currentShader shader) ;;
  wasBound <- setVertexBuffer quadVertexBuffer ;;
  bound <- deref shader ;;
  emit (shader_bind bound wasBound) ;;
  set1i "uMainSampler" 0 ;;
  object <- deref sprite ;;
  modify (onFXCopy object) ;;
  onCopySprite source target object ;;
  emit gl_activeTexture0 ;;
  emit (gl_bindTexture (Some (RenderTarget.texture source))) ;;
  (if RenderTarget.height source >? RenderTarget.height target then
     emit (gl_viewport 0 0 (inject_Z (RenderTarget.width source))
                           (inject_Z (RenderTarget.height source))) ;;
     setTargetUVs source target
   else
     let diff := RenderTarget.height target - RenderTarget.height source in
     emit (gl_viewport 0 (inject_Z diff) (inject_Z (RenderTarget.width source))
                                         (inject_Z (RenderTarget.height source))) ;;
     resetUVs) ;;
  emit (gl_bindFramebuffer (Some (RenderTarget.framebuffer target))) ;;
  emit (gl_framebufferTexture2D (RenderTarget.texture target)) ;;
  when clear (
    emit (gl_clearColor 0 0 0 (if negb clearAlpha then 1 else 0)) ;;
    emit gl_clear) ;;
  blendMode <- (if eraseMode then
                  r <- gets renderer ;;
                  let blendMode := Renderer.currentBlendMode r in
                  setBlendMode ERASE ;;
                  ret (Some blendMode)
                else ret None) ;;
  data <- gets quadVertexViewF32 ;;
  emit (gl_bufferData (default [] data)) ;;
  emit (gl_drawArrays 0 6) ;;
  when eraseMode (
    match blendMode with
    | Some mode => setBlendMode mode
    | None => ret tt
    end) ;;
  emit (gl_bindFramebuffer None).

End Passes.

(** ** Vocabulary of the specification *)

(** The dimensions of a target. *)
Definition dims (t : RenderTarget.t) : Z * Z :=
  (RenderTarget.width t, RenderTarget.height t).

(** The number of targets per step of the ladder: primary and swap, and the
    alt swap when [altFrame] is set. *)
Definition offsetOf (p : Pipeline) : nat := if altFrame p then 3%nat else 2%nat.

(** The ladder as the specification describes it: for the bucket indices
    [i], [i + 1], ... ([n] of them) a square of side [i * increment],
    repeated once per sibling. *)
Fixpoint ladderSizes (siblings : nat) (increment i : Z) (n : nat) : list (Z * Z) :=
  match n with
  | O => []
  | S n' =>
      replicate siblings (i * increment, i * increment)
        ++ ladderSizes siblings increment (i + 1) n'
  end.

(** The full-screen tier that closes the list: one target per sibling and
    the scratch target [fsTarget]. *)
Definition fullScreenTier (siblings : nat) (w h : Z) : list (Z * Z) :=
  replicate (S siblings) (w, h).

(** The targets of the ladder proper are the ones [boot] creates without
    [autoResize]; the full-screen ones follow the renderer's size. *)
Definition ladderTargets (p : Pipeline) : list RenderTarget.t :=
  filter (fun t => RenderTarget.autoResize t = false) (renderTargets p).

(** The size buckets: the distinct sides of the ladder targets, in order. *)
Definition bucketSizes (p : Pipeline) : list Z :=
  remove_dups (map RenderTarget.width (ladderTargets p)).

(** The six position pairs and the six UV pairs of the quad buffer: vertex
    [k] starts at cell [7 * k]; x, y, u, v are its first four cells. *)
Definition positionAt (view : list float32) (k : nat) : option (float32 * float32) :=
  match view !! (7 * k)%nat, view !! (7 * k + 1)%nat with
  | Some x, Some y => Some (x, y)
  | _, _ => None
  end.

Definition uvAt (view : list float32) (k : nat) : option (float32 * float32) :=
  match view !! (7 * k + 2)%nat, view !! (7 * k + 3)%nat with
  | Some u, Some v => Some (u, v)
  | _, _ => None
  end.

(** The cells [setUVs] assigns: the u and v of the six vertices. *)
Definition uvCells : list nat := [2; 3; 9; 10; 16; 17; 23; 24; 30; 31; 37; 38]%nat.

(** The cells that hold the positions: the x and y of the six vertices. *)
Definition positionCells : list nat := [0; 1; 7; 8; 14; 15; 21; 22; 28; 29; 35; 36]%nat.

(** The position cells no method ever assigns; they keep the zero of the
    fresh buffer. *)
Definition restingCells : list nat := [0; 7; 8; 15; 21; 29]%nat.

(** The quad buffers the pipeline can hold: the fresh one of [boot],
    rewritten by [onResize] and [setUVs] only. *)
Inductive QuadView : list float32 -> Prop :=
| QuadView_fresh : QuadView (replicate 42 (F32 0))
| QuadView_onResize width height view :
    QuadView view -> QuadView (onResize_view width height view)
| QuadView_setUVs uA vA uB vB uC vC uD vD view :
    QuadView view -> QuadView (setUVs_view uA vA uB vB uC vC uD vD view).

(** The [renderer.setBlendMode] calls among the commands, in order. *)
Definition blendCalls (commands : list Command) : list BlendMode :=
  omap (fun c => match c with
                 | renderer_setBlendMode mode => Some mode
                 | _ => None
                 end) commands.

(** The size [batchQuad] asks a target for: the larger side of the quad's
    bounding box, padded on both sides. *)
Definition quadSize (padding x0 y0 x1 y1 x2 y2 x3 y3 : Q) : Q :=
  let bw := (max4 x0 x1 x2 x3 - min4 x0 x1 x2 x3)%Q in
  let bh := (max4 y0 y1 y2 y3 - min4 y0 y1 y2 y3)%Q in
  Qabs (Qmax (bw + padding * 2) (bh + padding * 2)).

(** A renderer of the given viewport, booted, with nothing created yet. *)
Definition bootedRenderer (w h : Z) : Renderer.t :=
  {| Renderer.isBooted := true; Renderer.width := w; Renderer.height := h;
     Renderer.currentBlendMode := NORMAL; Renderer.fboStack := [];
     Renderer.created := 0 |}.

(** A configuration that sets the frame increment and [altFrame] only. *)
Definition configOf (inc : option Q) (alt : option bool) : Config :=
  {| config_frameInc := inc; config_altFrame := alt;
     config_fragShader := None; config_vertShader := None;
     config_drawShader := None; config_shaders := [] |}.

(** A hook that does nothing. *)
Definition noHook (gameObject : GameObject) (p : Pipeline) : Pipeline := p.

(** ** Vocabulary of the proofs *)

(** What a run of the loop leaves: more targets and more GPU objects,
    nothing else touched. *)
Definition grown (ts : list RenderTarget.t) (created : nat) (p : Pipeline) : Pipeline :=
  set_renderTargets (renderTargets p ++ ts)
    (set_renderer (Renderer.withCreated created (renderer p)) p).

(** The state [boot] leaves, field by field.  [ladder] are the targets of
    the loop, [tier] the full-screen targets after them, [scratch] the last
    one, kept in [fsTarget]. *)
Record BootResult (p p' : Pipeline) (ladder tier : list RenderTarget.t)
    (scratch : RenderTarget.t) : Prop := {
  boot_renderTargets : renderTargets p' = renderTargets p ++ ladder ++ tier ++ [scratch];
  boot_ladder_dims :
    map dims ladder
    = ladderSizes (offsetOf p) (frameInc p) 1 (Z.to_nat (boot_qty p - 1));
  boot_ladder_fixed : Forall (fun t => RenderTarget.autoResize t = false) ladder;
  boot_tier_dims :
    map dims tier
    = replicate (offsetOf p) (Renderer.width (renderer p), Renderer.height (renderer p));
  boot_tier_resizes : Forall (fun t => RenderTarget.autoResize t = true) (tier ++ [scratch]);
  boot_scratch_dims :
    dims scratch = (Renderer.width (renderer p), Renderer.height (renderer p));
  boot_fsTarget : fsTarget p' = Some scratch;
  boot_maxDimension : maxDimension p' = (boot_qty p - 1) * frameInc p;
  boot_frameInc : frameInc p' = frameInc p;
  boot_altFrame : altFrame p' = altFrame p;
  boot_width : Renderer.width (renderer p') = Renderer.width (renderer p);
  boot_height : Renderer.height (renderer p') = Renderer.height (renderer p);
  boot_blendMode :
    Renderer.currentBlendMode (renderer p') = Renderer.currentBlendMode (renderer p);
  boot_view :
    quadVertexViewF32 p'
    = Some (onResize_view (inject_Z (Renderer.width (renderer p)))
              (inject_Z (Renderer.height (renderer p))) (replicate 42 (F32 0)));
  boot_spriteData : spriteData p' = spriteData p;
  boot_shaders :
    drawSpriteShader p' = shaders p !! 0%nat
    /\ copyShader p' = shaders p !! 1%nat
    /\ gameShader p' = shaders p !! 2%nat
    /\ currentShader p' = shaders p !! 1%nat
}.

(** A full-screen target: the renderer's size, following its resizes. *)
Definition fullScreenTarget (w h : Z) (n : nat) : RenderTarget.t :=
  {| RenderTarget.texture := n; RenderTarget.framebuffer := n;
     RenderTarget.width := w; RenderTarget.height := h;
     RenderTarget.scale := 1; RenderTarget.minFilter := 0;
     RenderTarget.autoClear := true; RenderTarget.autoResize := true |}.

(** The shape of the target list after [boot]: [n] ladder steps of
    [frameInc], then the full-screen tier, and [maxDimension] at the last
    step. *)
Record Ladder (p : Pipeline) (n : nat) : Prop := {
  ladder_targets :
    map dims (renderTargets p)
    = ladderSizes (offsetOf p) (frameInc p) 1 n
        ++ fullScreenTier (offsetOf p)
             (Renderer.width (renderer p)) (Renderer.height (renderer p));
  ladder_maxDimension : maxDimension p = Z.of_nat n * frameInc p
}.

(** The pipeline with [spriteData.textureIndex] set. *)
Definition selected (index : Z) (p : Pipeline) : Pipeline :=
  set_spriteData (withTextureIndex index (spriteData p)) p.

(** The index [getSpriteTarget] settles on. *)
Definition targetIndex (size : Q) (p : Pipeline) : Z :=
  if Qlt_le_dec (inject_Z (maxDimension p)) size
  then Z.of_nat (length (renderTargets p)) - Z.of_nat (offsetOf p)
  else (SnapCeil size 64 - 1) * Z.of_nat (offsetOf p).

(** The two pipelines of the scenarios: the default configuration and a
    configured increment, on a booted 800 by 600 renderer. *)
Definition pipeline800x600 (inc : option Q) (alt : option bool) : Pipeline :=
  initialize (configOf inc alt) (bootedRenderer 800 600).

(** A ladder with a bucket for every index from 1 to [last]: every sibling of
    bucket [i] is a square of side [i * frameInc]. *)
Definition ladderUpTo (last : Z) (p p' : Pipeline) : Prop :=
  forall i, 1 <= i <= last ->
  forall j, (j < offsetOf p)%nat ->
  exists t,
    item (renderTargets p') ((i - 1) * Z.of_nat (offsetOf p) + Z.of_nat j) = Some t
    /\ RenderTarget.isSquare (i * frameInc p) t.

(** The state [batchQuad_begin] leaves when it found the target [t] at
    [index]. *)
Definition begun (object : GameObject) (t : RenderTarget.t) (index : Z)
    (bounds : Rectangle.t) (p : Pipeline) : Pipeline :=
  let placed :=
    Rectangle.CenterOn
      (Rectangle.setTo 0 0 (inject_Z (RenderTarget.width t))
                           (inject_Z (RenderTarget.height t)))
      (Rectangle.centerX bounds) (Rectangle.centerY bounds) in
  set_spriteData
    (withSprite (Some object) (withTextureIndex index (spriteData p)))
    (set_targetBounds placed (set_spriteBounds bounds p)).

(** Reading the UV pair of vertex [k] gives exactly [(u, v)]. *)
Definition readsBack (view : list float32) (k : nat) (u v : Q) : Prop :=
  exists cu cv, uvAt view k = Some (cu, cv) /\ holds cu u /\ holds cv v.

(** [ensures m Q p]: run from [p], the method [m] ends with a completion and
    a state that satisfy [Q]. *)
Definition ensures {A : Type} (m : M A) (Q : Completion A -> Pipeline -> Prop)
    (p : Pipeline) : Prop :=
  Q (completion m p) (stateAfter m p).

(** A method that never throws. *)
Definition returns {A : Type} (m : M A) : Prop :=
  forall p, exists a, completion m p = Normal a.

(** [neutral R m]: the state [m] leaves is related by [R] to the state it
    started from, however [m] ends. *)
Definition neutral (R : Pipeline -> Pipeline -> Prop) {A : Type} (m : M A) : Prop :=
  forall p, R p (stateAfter m p).

(** [sameBlend p0 p]: since [p0] the blend mode has not changed and
    [setBlendMode] has not been called. *)
Definition sameBlend (p0 p : Pipeline) : Prop :=
  Renderer.currentBlendMode (renderer p) = Renderer.currentBlendMode (renderer p0)
  /\ blendCalls (gl p) = blendCalls (gl p0).

(** [sameData p0 p]: since [p0] nothing was written to [spriteData]. *)
Definition sameData (p0 p : Pipeline) : Prop := spriteData p = spriteData p0.

(** The sprite data a completed draw leaves: what it was before the draw,
    with the index of the target chosen for it, and no sprite or texture. *)
Definition drawn (index : Z) (d : SpriteData) : SpriteData :=
  withTexture None (withSprite None (withTextureIndex index d)).

(** A sprite draw under way on the 800 by 600 pipeline: [batchQuad_begin]
    has run for a 130 by 130 quad of a sprite with padding 10. *)
Definition midDraw : Pipeline :=
  stateAfter
    (batchQuad_begin (Some {| objectId := 1; fxPadding := 10 |})
       0 0 0 130 130 130 130 0)
    (pipeline800x600 None None).

(** ** Vocabulary of the further properties *)

(** The GPU objects behind a list of targets.  A target's texture and
    framebuffer are created together and carry the same number. *)
Definition handles (ts : list RenderTarget.t) : list nat :=
  map RenderTarget.texture ts.


(** A target of the ladder: a square that keeps its size. *)
Definition squareTarget (side : Z) (n : nat) : RenderTarget.t :=
  {| RenderTarget.texture := n; RenderTarget.framebuffer := n;
     RenderTarget.width := side; RenderTarget.height := side;
     RenderTarget.scale := 1; RenderTarget.minFilter := 0;
     RenderTarget.autoClear := true; RenderTarget.autoResize := false |}.

(** A booted pipeline: the ladder shape, a GPU object of its own for every
    target, and the scratch target last in the list. *)
Record Booted (p : Pipeline) (n : nat) : Prop := {
  booted_ladder : Ladder p n;
  booted_handles : NoDup (handles (renderTargets p));
  booted_scratch : fsTarget p = last (renderTargets p)
}.

(** The vertices batched among the commands, in order: the position and
    the texture coordinates of each. *)
Definition batchedVertices (commands : list Command) : list (Q * Q * Q * Q) :=
  omap (fun c => match c with
                 | pipeline_batchVert x y u v _ _ _ => Some (x, y, u, v)
                 | _ => None
                 end) commands.

(** The two triangles that cover the rectangle at [(x, y)] of size [w] by
    [h] with the whole of a texture. *)
Definition fullQuad (x y w h : Q) : list (Q * Q * Q * Q) :=
  [(x, y, 0, 0); (x, y + h, 0, 1); (x + w, y + h, 1, 1);
   (x, y, 0, 0); (x + w, y + h, 1, 1); (x + w, y, 1, 0)]%Q.

(** Vertices equal as numbers. *)
Definition sameVertex (a b : Q * Q * Q * Q) : Prop :=
  let '(x, y, u, v) := a in
  let '(x', y', u', v') := b in
  (x == x' /\ y == y' /\ u == u' /\ v == v')%Q.

(** [quietly p0 p]: since [p0] no vertex was batched, and the placement of
    the target and the scratch target are the same. *)
Definition quietly (p0 p : Pipeline) : Prop :=
  batchedVertices (gl p) = batchedVertices (gl p0)
  /\ targetBounds p = targetBounds p0
  /\ fsTarget p = fsTarget p0.

(** [batched vs p0 p]: since [p0] the vertices [vs] were batched, and the
    placement of the target and the scratch target are the same. *)
Definition batched (vs : list (Q * Q * Q * Q)) (p0 p : Pipeline) : Prop :=
  batchedVertices (gl p) = batchedVertices (gl p0) ++ vs
  /\ targetBounds p = targetBounds p0
  /\ fsTarget p = fsTarget p0.

(** The six vertices [batchQuad] batches for the sprite. *)
Definition spriteQuad (x0 y0 x1 y1 x2 y2 x3 y3 u0 v0 u1 v1 : Q) : list (Q * Q * Q * Q) :=
  [(x0, y0, u0, v0); (x1, y1, u0, v1); (x2, y2, u1, v1);
   (x0, y0, u0, v0); (x2, y2, u1, v1); (x3, y3, u1, v0)].

(** The commands that bind the quad vertex buffer or a shader, or set a
    uniform of the bound shader. *)
Definition isBinding (c : Command) : bool :=
  match c with
  | pipeline_setVertexBuffer _ | shader_bind _ _ | pipeline_set1i _ _ => true
  | _ => false
  end.

(** The shader [copySprite] binds: its argument, or the copy shader. *)
Definition resolvedShader (shader : option Shader) (p : Pipeline) : option Shader :=
  match shader with Some s => Some s | None => copyShader p end.

(** [boundOnly shader p0 p]: since [p0] the pipeline has got as far as the
    bindings that open [copySprite], and no further.  [currentShader] and
    [activeBuffer] are overwritten; the commands issued, three at most,
    bind the quad vertex buffer or the shader or set its sampler uniform;
    the renderer, the sprite data, the quad buffer and the targets are the
    same. *)
Definition boundOnly (shader : option Shader) (p0 p : Pipeline) : Prop :=
  (exists cs,
     gl p = gl p0 ++ cs /\ forallb isBinding cs = true /\ (length cs <= 3)%nat)
  /\ currentShader p = resolvedShader shader p0
  /\ activeBuffer p = quadVertexBuffer
  /\ renderer p = renderer p0
  /\ spriteData p = spriteData p0
  /\ quadVertexViewF32 p = quadVertexViewF32 p0
  /\ renderTargets p = renderTargets p0.

(** The buffers handed to [gl.bufferData] among the commands, in order. *)
Definition uploads (commands : list Command) : list (list float32) :=
  omap (fun c => match c with gl_bufferData data => Some data | _ => None end) commands.

(** [calmly p0 p]: since [p0] the quad buffer was neither written nor
    uploaded. *)
Definition calmly (p0 p : Pipeline) : Prop :=
  quadVertexViewF32 p = quadVertexViewF32 p0 /\ uploads (gl p) = uploads (gl p0).

(** The quad buffer holds [view], and [ups] have been uploaded. *)
Definition kept (view : list float32) (ups : list (list float32)) (p : Pipeline) : Prop :=
  quadVertexViewF32 p = Some view /\ uploads (gl p) = ups.

(** [shaderwise p0 p]: since [p0] no shader slot was assigned. *)
Definition shaderwise (p0 p : Pipeline) : Prop :=
  currentShader p = currentShader p0
  /\ copyShader p = copyShader p0
  /\ gameShader p = gameShader p0.

(** The cells of the quad buffer that [onResize] assigns. *)
Definition resizedCells : list nat := [1; 22; 14; 28; 35; 36]%nat.

(** [sameLadder p0 p]: since [p0] the targets, what selects among them and
    the viewport are the same. *)
Definition sameLadder (p0 p : Pipeline) : Prop :=
  renderTargets p = renderTargets p0
  /\ fsTarget p = fsTarget p0
  /\ maxDimension p = maxDimension p0
  /\ frameInc p = frameInc p0
  /\ altFrame p = altFrame p0
  /\ Renderer.width (renderer p) = Renderer.width (renderer p0)
  /\ Renderer.height (renderer p) = Renderer.height (renderer p0)
  /\ Renderer.created (renderer p) = Renderer.created (renderer p0).

(** ** The score of flappybird.js *)

Module FlappyBird.

(** The globals of [flappybird.js] that keep the score: the count, and the
    text object that shows it, which is [undefined] until [create] has
    run.  Of the text object only its string is kept. *)
Record Game : Type := { score : Z; scoreText : option string }.

(** [var score = 0; var scoreText;] *)
Definition loaded : Game := {| score := 0; scoreText := None |}.

(** The part of [create] that concerns the score:
    [scoreText = this.add.text(16, 16, 'Score: 0', ...)]. *)
Definition create (g : Game) : Game :=
  {| score := score g; scoreText := Some "Score: 0"%string |}.

(** [incrementScore]: [score += 1], then
    [scoreText.setText('Score: ' + score)]. *)
Definition incrementScore (g : Game) : Completion unit * Game :=
  let g := {| score := score g + 1; scoreText := scoreText g |} in
  match scoreText g with
  | Some _ =>
      (Normal tt,
       {| score := score g; scoreText := Some ("Score: " +:+ pretty (score g)) |})
  | None => (Throw TypeError, g)
  end.

(** [n] calls of [incrementScore] in a row, as many as complete. *)
Fixpoint incrementScores (n : nat) (g : Game) : Completion unit * Game :=
  match n with
  | O => (Normal tt, g)
  | S n' =>
      match incrementScore g with
      | (Normal _, g') => incrementScores n' g'
      | (Throw e, g') => (Throw e, g')
      end
  end.

(** The counts a JS number holds exactly, so that [score += 1] is the
    successor. *)
Definition exactCount (n : Z) : Prop := 0 <= n <= 2 ^ 53.

End FlappyBird.

(** * Properties *)

(** ** The monad *)

Lemma bind_Normal {A B : Type} (m : M A) (k : A -> M B) (p p' : Pipeline) (a : A) :
  m p = (Normal a, p') -> bind m k p = k a p'.
Proof. intros E. unfold bind. rewrite E. reflexivity. Qed.

(** Unfolds the straight-line part of a method. *)
Ltac step :=
  unfold stateAfter, completion, setShader, set1i, batchVert, flush,
    setBlendMode, popFramebuffer, setTextureIndex, push, new_RenderTarget,
    WebGLPipeline_boot, renderer_modify, when, emit,
    bind, gets, modify, ret, deref in *;
  cbn [fst snd] in *.

(** ** The ladder built by boot *)

Lemma ladderSizes_length siblings inc i n :
  length (ladderSizes siblings inc i n) = (n * siblings)%nat.
Proof.
  revert i. induction n as [|n IH]; intros i; simpl; [reflexivity|].
  rewrite length_app, length_replicate, IH. lia.
Qed.

(** Sibling [j] of bucket [i + k] sits at index [k * siblings + j]. *)
Lemma ladderSizes_lookup siblings inc i n k j :
  (k < n)%nat -> (j < siblings)%nat ->
  ladderSizes siblings inc i n !! (k * siblings + j)%nat
  = Some ((i + Z.of_nat k) * inc, (i + Z.of_nat k) * inc).
Proof.
  revert i k. induction n as [|n IH]; intros i k Hk Hj; [lia|].
  simpl. destruct k as [|k].
  - rewrite lookup_app_l by (rewrite length_replicate; lia).
    rewrite lookup_replicate_2 by lia. do 3 f_equal; lia.
  - rewrite lookup_app_r by (rewrite length_replicate; lia).
    rewrite length_replicate.
    replace (S k * siblings + j - siblings)%nat with (k * siblings + j)%nat by lia.
    rewrite IH by lia. do 3 f_equal; lia.
Qed.

Lemma boot_bucket_spec i p :
  exists ts created,
    boot_bucket i p = (Normal tt, grown ts created p)
    /\ map dims ts = replicate (offsetOf p) (i * frameInc p, i * frameInc p)
    /\ Forall (fun t => RenderTarget.autoResize t = false) ts.
Proof.
  unfold boot_bucket, offsetOf. step.
  destruct p as [r g sh ts cs ab ds cps gs qv md inc alt sb tb fs sd].
  destruct r as [bo w h bm st cr]. cbn.
  destruct alt; cbn; eexists _, _; unfold grown; cbn;
    (split; [rewrite <- ?app_assoc; cbn; reflexivity|]);
    (split; [reflexivity | repeat constructor]).
Qed.

Lemma grown_grown ts ts' c c' p :
  grown ts' c' (grown ts c p) = grown (ts ++ ts') c' p.
Proof. unfold grown. destruct p; cbn. rewrite app_assoc. reflexivity. Qed.

(** The loop runs [min fuel (qty - i)] rounds and ends normally. *)
Lemma boot_loop_spec fuel : forall i qty p,
  exists ts created,
    boot_loop fuel i qty p = (Normal tt, grown ts created p)
    /\ map dims ts
       = ladderSizes (offsetOf p) (frameInc p) i (Nat.min fuel (Z.to_nat (qty - i)))
    /\ Forall (fun t => RenderTarget.autoResize t = false) ts.
Proof.
  induction fuel as [|fuel IH]; intros i qty p.
  - exists [], (Renderer.created (renderer p)). cbn. split; [|split; [reflexivity|constructor]].
    unfold ret, grown. destruct p as [r g sh ts cs ab ds cps gs qv md inc alt sb tb fs sd].
    destruct r; cbn. rewrite app_nil_r. reflexivity.
  - cbn [boot_loop]. destruct (Z.ltb_spec i qty) as [Hlt|Hge].
    + destruct (boot_bucket_spec i p) as (ts1 & c1 & E1 & D1 & A1).
      rewrite (bind_Normal _ _ _ _ _ E1).
      destruct (IH (i + 1) qty (grown ts1 c1 p)) as (ts2 & c2 & E2 & D2 & A2).
      exists (ts1 ++ ts2), c2. rewrite E2, grown_grown.
      split; [reflexivity|]. split; [|apply Forall_app; auto].
      rewrite map_app, D1, D2.
      replace (Z.to_nat (qty - i)) with (S (Z.to_nat (qty - (i + 1)))) by lia.
      rewrite <- Nat.succ_min_distr. reflexivity.
    + exists [], (Renderer.created (renderer p)).
      replace (Z.to_nat (qty - i)) with 0%nat by lia. rewrite Nat.min_0_r. cbn.
      split; [|split; [reflexivity|constructor]].
      unfold ret, grown. destruct p as [r g sh ts cs ab ds cps gs qv md inc alt sb tb fs sd].
      destruct r; cbn. rewrite app_nil_r. reflexivity.
Qed.

(** The fuel [boot] gives the loop is never used up: the loop leaves by its
    own test, and more fuel changes nothing. *)
Lemma boot_loop_fuel fuel : forall i qty p,
  (Z.to_nat (qty - i) <= fuel)%nat ->
  boot_loop fuel i qty p = boot_loop (Z.to_nat (qty - i)) i qty p.
Proof.
  induction fuel as [|fuel IH]; intros i qty p Hf.
  - replace (Z.to_nat (qty - i)) with 0%nat by lia. reflexivity.
  - cbn [boot_loop]. destruct (Z.ltb_spec i qty) as [Hlt|Hge].
    + replace (Z.to_nat (qty - i)) with (S (Z.to_nat (qty - (i + 1)))) by lia.
      cbn [boot_loop]. destruct (Z.ltb_spec i qty); [|lia].
      unfold bind. destruct (boot_bucket i p) as [[[]|e] p']; [|reflexivity].
      apply IH. lia.
    + replace (Z.to_nat (qty - i)) with 0%nat by lia. reflexivity.
Qed.

Arguments onResize_view : simpl never.
Arguments setUVs_view : simpl never.
Arguments toFloat32 : simpl never.
Arguments boot_qty : simpl never.
Arguments blendCalls : simpl never.

(** [boot] returns, and leaves the state [BootResult] describes.  (The
    loop here always ends; the loop of the source ends for a positive
    step.) *)
Lemma boot_spec p :
  exists p' ladder tier scratch,
    boot p = (Normal tt, p') /\ BootResult p p' ladder tier scratch.
Proof.
  unfold boot. step.
  destruct (boot_loop_spec (Z.to_nat (boot_qty p)) 1 (boot_qty p)
     (set_gameShader (shaders p !! 2%nat)
        (set_copyShader (shaders p !! 1%nat)
           (set_drawSpriteShader (shaders p !! 0%nat) p))))
    as (ts & c & E & D & A).
  replace (Nat.min (Z.to_nat (boot_qty p)) (Z.to_nat (boot_qty p - 1)))
    with (Z.to_nat (boot_qty p - 1)) in D by lia.
  change (boot_qty (set_gameShader _ _)) with (boot_qty p).
  rewrite E. clear E. unfold onResize, grown. step.
  destruct p as [r g sh ts0 cs ab ds cps gs qv md inc alt sb tb fs sd].
  destruct r as [bo w h bm st cr].
  unfold offsetOf in *. cbn in D |- *.
  destruct alt; cbn.
  - eexists _, ts,
      [fullScreenTarget w h c; fullScreenTarget w h (S c); fullScreenTarget w h (S (S c))],
      (fullScreenTarget w h (S (S (S c)))).
    split; [reflexivity|].
    split; cbn; try reflexivity; try exact D; try exact A;
      try (rewrite <- !app_assoc; reflexivity); repeat constructor.
  - eexists _, ts,
      [fullScreenTarget w h c; fullScreenTarget w h (S c)],
      (fullScreenTarget w h (S (S c))).
    split; [reflexivity|].
    split; cbn; try reflexivity; try exact D; try exact A;
      try (rewrite <- !app_assoc; reflexivity); repeat constructor.
Qed.

(** ** Looking targets up in a booted pipeline *)

Lemma item_nat {A : Type} (l : list A) (k : nat) : item l (Z.of_nat k) = l !! k.
Proof.
  unfold item. destruct (Z.ltb_spec (Z.of_nat k) 0); [lia|].
  rewrite Nat2Z.id. reflexivity.
Qed.

Lemma item_dims (l : list RenderTarget.t) (i : Z) (d : Z * Z) :
  item (map dims l) i = Some d -> exists t, item l i = Some t /\ dims t = d.
Proof.
  unfold item. destruct (i <? 0); [discriminate|].
  rewrite list_lookup_fmap. destruct (l !! Z.to_nat i) as [t|]; cbn; [|discriminate].
  intros [= <-]. eauto.
Qed.

Lemma offsetOf_pos p : (2 <= offsetOf p <= 3)%nat.
Proof. unfold offsetOf. destruct (altFrame p); lia. Qed.

Lemma Ladder_length p n :
  Ladder p n -> length (renderTargets p) = (n * offsetOf p + offsetOf p + 1)%nat.
Proof.
  intros [H _]. apply (f_equal length) in H.
  rewrite length_map, length_app, ladderSizes_length in H.
  unfold fullScreenTier in H. rewrite length_replicate in H. lia.
Qed.

(** Sibling [j] of bucket [b] is at index [(b - 1) * offset + j], a square of
    side [b * frameInc]. *)
Lemma Ladder_bucket p n b j :
  Ladder p n -> 1 <= b <= Z.of_nat n -> (j < offsetOf p)%nat ->
  exists t,
    item (renderTargets p) ((b - 1) * Z.of_nat (offsetOf p) + Z.of_nat j) = Some t
    /\ dims t = (b * frameInc p, b * frameInc p).
Proof.
  intros [H _] Hb Hj. apply item_dims. rewrite H.
  replace ((b - 1) * Z.of_nat (offsetOf p) + Z.of_nat j)
    with (Z.of_nat (Z.to_nat (b - 1) * offsetOf p + j))
    by (rewrite Nat2Z.inj_add, Nat2Z.inj_mul, Z2Nat.id by lia; reflexivity).
  rewrite item_nat, lookup_app_l by (rewrite ladderSizes_length; nia).
  rewrite ladderSizes_lookup by lia. do 3 f_equal; lia.
Qed.

(** The full-screen targets are at the indices [n * offset + j], for [j] up
    to [offset]. *)
Lemma Ladder_tier p n j :
  Ladder p n -> (j <= offsetOf p)%nat ->
  exists t,
    item (renderTargets p) (Z.of_nat n * Z.of_nat (offsetOf p) + Z.of_nat j) = Some t
    /\ dims t = (Renderer.width (renderer p), Renderer.height (renderer p)).
Proof.
  intros [H _] Hj. apply item_dims. rewrite H.
  replace (Z.of_nat n * Z.of_nat (offsetOf p) + Z.of_nat j)
    with (Z.of_nat (n * offsetOf p + j)) by lia.
  rewrite item_nat, lookup_app_r by (rewrite ladderSizes_length; lia).
  rewrite ladderSizes_length. unfold fullScreenTier.
  rewrite lookup_replicate_2 by lia. reflexivity.
Qed.

(** [ceil(a / b)] for positive integers. *)
Lemma Qceiling_div_pos (a b : Z) :
  0 < a -> 0 < b -> 1 <= Qceiling (inject_Z a / inject_Z b).
Proof.
  intros Ha Hb.
  assert (H : (0 < inject_Z a / inject_Z b)%Q).
  { apply Qlt_shift_div_l; [change 0%Q with (inject_Z 0); rewrite <- Zlt_Qlt; lia|].
    rewrite Qmult_0_l. change 0%Q with (inject_Z 0). rewrite <- Zlt_Qlt. lia. }
  pose proof (Qle_ceiling (inject_Z a / inject_Z b)) as Hc.
  assert (Hlt : (inject_Z 0 < inject_Z (Qceiling (inject_Z a / inject_Z b)))%Q).
  { eapply Qlt_le_trans; [exact H | exact Hc]. }
  rewrite <- Zlt_Qlt in Hlt. lia.
Qed.

Lemma boot_qty_pos p :
  0 < Renderer.width (renderer p) -> 0 < Renderer.height (renderer p) ->
  0 < frameInc p -> 1 <= boot_qty p.
Proof. intros Hw Hh Hi. unfold boot_qty. apply Qceiling_div_pos; lia. Qed.

(** A fresh pipeline, booted on a viewport of positive size, has the shape
    [Ladder] with [boot_qty - 1] steps. *)
Lemma boot_Ladder p p' ladder tier scratch :
  BootResult p p' ladder tier scratch ->
  renderTargets p = [] -> 1 <= boot_qty p ->
  Ladder p' (Z.to_nat (boot_qty p - 1)).
Proof.
  intros R Hnil Hq. destruct R. split.
  - unfold offsetOf in *. rewrite boot_altFrame0, boot_frameInc0, boot_width0, boot_height0.
    rewrite boot_renderTargets0, Hnil. cbn [app].
    rewrite !map_app, boot_ladder_dims0, boot_tier_dims0. cbn [map].
    rewrite boot_scratch_dims0. f_equal. unfold fullScreenTier.
    destruct (altFrame p); reflexivity.
  - rewrite boot_maxDimension0, boot_frameInc0. f_equal. lia.
Qed.

(** ** Buckets *)

Lemma SnapCeil_mono (s1 s2 gap : Q) :
  (0 < gap)%Q -> (s1 <= s2)%Q -> SnapCeil s1 gap <= SnapCeil s2 gap.
Proof.
  intros Hg Hs. unfold SnapCeil. apply Qceiling_resp_le.
  unfold Qdiv. apply Qmult_le_compat_r; [exact Hs|].
  apply Qlt_le_weak, Qinv_lt_0_compat, Hg.
Qed.

Lemma SnapCeil_pos (s gap : Q) :
  (0 < gap)%Q -> (0 < s)%Q -> 1 <= SnapCeil s gap.
Proof.
  intros Hg Hs. unfold SnapCeil.
  assert (H : (0 < s / gap)%Q).
  { apply Qlt_shift_div_l; [exact Hg|]. rewrite Qmult_0_l. exact Hs. }
  pose proof (Qle_ceiling (s / gap)) as Hc.
  assert (Hlt : (inject_Z 0 < inject_Z (Qceiling (s / gap)))%Q)
    by (eapply Qlt_le_trans; [exact H | exact Hc]).
  rewrite <- Zlt_Qlt in Hlt. lia.
Qed.

Lemma SnapCeil_le (s gap : Q) (n : Z) :
  (0 < gap)%Q -> (s <= inject_Z n * gap)%Q -> SnapCeil s gap <= n.
Proof.
  intros Hg Hs. unfold SnapCeil. rewrite <- (Qceiling_Z n).
  apply Qceiling_resp_le. apply Qle_shift_div_r; assumption.
Qed.

Lemma SnapCeil_fits (s gap : Q) :
  (0 < gap)%Q -> (s <= inject_Z (SnapCeil s gap) * gap)%Q.
Proof.
  intros Hg. unfold SnapCeil.
  pose proof (Qle_ceiling (s / gap)) as Hc.
  apply (Qmult_le_compat_r _ _ gap) in Hc; [|apply Qlt_le_weak, Hg].
  eapply Qle_trans; [|exact Hc].
  unfold Qdiv. rewrite <- Qmult_assoc, (Qmult_comm (/ gap)), Qmult_inv_r, Qmult_1_r.
  - apply Qle_refl.
  - intros E. rewrite E in Hg. discriminate.
Qed.

(** ** getSpriteTarget *)

(** [getSpriteTarget] never throws: it records the index and returns the
    target found there, if any. *)
Lemma getSpriteTarget_eq size p :
  getSpriteTarget size p
  = (Normal (item (renderTargets p) (targetIndex size p)), selected (targetIndex size p) p).
Proof.
  unfold getSpriteTarget, targetIndex, offsetOf, selected. step.
  destruct (altFrame p); destruct (Qlt_le_dec (inject_Z (maxDimension p)) size);
    reflexivity.
Qed.

(** A size within the ladder, on a ladder whose step is at most the 64 of
    [getSpriteTarget]: the bucket is a step of the ladder. *)
Lemma bucket_in_ladder p n (s : Q) :
  Ladder p n -> 0 < frameInc p <= 64 ->
  (0 < s)%Q -> (s <= inject_Z (maxDimension p))%Q ->
  1 <= SnapCeil s 64 <= Z.of_nat n.
Proof.
  intros [_ Hm] Hinc Hs Hle. split.
  - apply SnapCeil_pos; [reflexivity | exact Hs].
  - apply SnapCeil_le; [reflexivity|].
    eapply Qle_trans; [exact Hle|]. rewrite Hm.
    change 64%Q with (inject_Z 64). rewrite <- inject_Z_mult, <- Zle_Qle. nia.
Qed.

(** Within the ladder [getSpriteTarget] returns the primary target of the
    bucket [ceil(size / 64)], a square of that many steps. *)
Lemma getSpriteTarget_ladder p n (s : Q) :
  Ladder p n -> 0 < frameInc p <= 64 ->
  (0 < s)%Q -> (s <= inject_Z (maxDimension p))%Q ->
  exists t,
    getSpriteTarget s p
    = (Normal (Some t), selected ((SnapCeil s 64 - 1) * Z.of_nat (offsetOf p)) p)
    /\ dims t = (SnapCeil s 64 * frameInc p, SnapCeil s 64 * frameInc p).
Proof.
  intros L Hinc Hs Hle.
  pose proof (bucket_in_ladder p n s L Hinc Hs Hle) as Hb.
  pose proof (offsetOf_pos p) as Ho.
  destruct (Ladder_bucket p n (SnapCeil s 64) 0 L Hb) as (t & Ht & Hd); [lia|].
  rewrite Z.add_0_r in Ht. exists t. split; [|exact Hd].
  rewrite getSpriteTarget_eq. unfold targetIndex.
  destruct (Qlt_le_dec (inject_Z (maxDimension p)) s) as [Hlt|_].
  - exfalso. exact (Qlt_not_le _ _ Hlt Hle).
  - rewrite Ht. reflexivity.
Qed.

(** With the default step of 64 the target found is large enough. *)
Lemma getSpriteTarget_fits p n (s : Q) :
  Ladder p n -> frameInc p = 64 ->
  (0 < s)%Q -> (s <= inject_Z (maxDimension p))%Q ->
  exists t,
    completion (getSpriteTarget s) p = Normal (Some t)
    /\ RenderTarget.width t = RenderTarget.height t
    /\ (s <= inject_Z (RenderTarget.width t))%Q
    /\ RenderTarget.isSquare (SnapCeil s (inject_Z (frameInc p)) * frameInc p) t.
Proof.
  intros L Hinc Hs Hle.
  destruct (getSpriteTarget_ladder p n s L ltac:(lia) Hs Hle) as (t & E & Hd).
  exists t. unfold completion. rewrite E. cbn [fst].
  rewrite Hinc in *. injection Hd as Hw Hh.
  repeat split; try assumption; try congruence.
  rewrite Hw, inject_Z_mult. apply SnapCeil_fits. reflexivity.
Qed.

(** Beyond [maxDimension] it returns a full-screen target, whatever the
    step, and never throws. *)
Lemma getSpriteTarget_fullscreen p n (s : Q) :
  Ladder p n -> (inject_Z (maxDimension p) < s)%Q ->
  exists t,
    getSpriteTarget s p
    = (Normal (Some t), selected (Z.of_nat n * Z.of_nat (offsetOf p) + 1) p)
    /\ dims t = (Renderer.width (renderer p), Renderer.height (renderer p)).
Proof.
  intros L Hlt. pose proof (offsetOf_pos p) as Ho.
  destruct (Ladder_tier p n 1 L) as (t & Ht & Hd); [lia|].
  exists t. split; [|exact Hd].
  rewrite getSpriteTarget_eq. unfold targetIndex.
  destruct (Qlt_le_dec (inject_Z (maxDimension p)) s) as [_|Hle].
  - rewrite (Ladder_length p n L).
    replace (Z.of_nat (n * offsetOf p + offsetOf p + 1) - Z.of_nat (offsetOf p))
      with (Z.of_nat n * Z.of_nat (offsetOf p) + Z.of_nat 1) by lia.
    rewrite Ht. reflexivity.
  - exfalso. exact (Qlt_not_le _ _ Hlt Hle).
Qed.

(** With a step of at most 64 the index chosen never decreases as the size
    grows. *)
Lemma targetIndex_mono p n (s1 s2 : Q) :
  Ladder p n -> 0 < frameInc p <= 64 -> (s1 <= s2)%Q ->
  targetIndex s1 p <= targetIndex s2 p.
Proof.
  intros L Hinc Hs. pose proof (offsetOf_pos p) as Ho.
  pose proof (Ladder_length p n L) as Hlen.
  unfold targetIndex.
  destruct (Qlt_le_dec (inject_Z (maxDimension p)) s1) as [H1|H1];
    destruct (Qlt_le_dec (inject_Z (maxDimension p)) s2) as [H2|H2].
  - lia.
  - exfalso. apply (Qlt_not_le _ _ H1). eapply Qle_trans; eassumption.
  - assert (Hb : SnapCeil s1 64 <= Z.of_nat n).
    { apply SnapCeil_le; [reflexivity|]. eapply Qle_trans; [exact H1|].
      rewrite (ladder_maxDimension p n L).
      change 64%Q with (inject_Z 64). rewrite <- inject_Z_mult, <- Zle_Qle. nia. }
    rewrite Hlen. nia.
  - apply Z.mul_le_mono_nonneg_r; [lia|].
    pose proof (SnapCeil_mono s1 s2 64 eq_refl Hs). lia.
Qed.

(** C1, at an increment other than 64.  With [frameInc] configured as 32 on
    an 800 by 600 viewport the ladder goes up to 576 in steps of 32; asked
    for size 100, which is within the ladder, [getSpriteTarget] returns the
    64 by 64 target of bucket 2 and not the 128 by 128 one of bucket
    [ceil(100 / 32) = 4]: the target is smaller than the size asked for. *)
Theorem getSpriteTarget_ignores_frameInc :
  let p := pipeline800x600 (Some 32%Q) None in
  frameInc p = 32
  /\ maxDimension p = 576
  /\ SnapCeil 100 (inject_Z (frameInc p)) = 4
  /\ exists t,
       completion (getSpriteTarget 100) p = Normal (Some t)
       /\ dims t = (64, 64)
       /\ ~ (100 <= inject_Z (RenderTarget.width t))%Q.
Proof.
  cbv zeta. repeat split; try (vm_compute; reflexivity).
  eexists. split; [vm_compute; reflexivity|].
  split; [reflexivity|]. vm_compute. intros H. apply H. reflexivity.
Qed.

(** C8, at an increment above 64.  With [frameInc] configured as 128 on an
    800 by 600 viewport, size 500 selects index 14 and the larger size 520
    selects index 9: the index is not monotone in the size. *)
Theorem getSpriteTarget_index_not_monotone :
  let p := pipeline800x600 (Some 128%Q) None in
  let indexFor (s : Q) := textureIndex (spriteData (stateAfter (getSpriteTarget s) p)) in
  frameInc p = 128
  /\ (500 < 520)%Q
  /\ indexFor 500%Q = 14
  /\ indexFor 520%Q = 9
  /\ ~ indexFor 500%Q <= indexFor 520%Q
  /\ completion (getSpriteTarget 500) p = Normal None.
Proof.
  cbv zeta. repeat split; try (vm_compute; reflexivity).
  vm_compute. intros H. apply H. reflexivity.
Qed.

(** ** The ladder of boot *)

(** C2 as stated fails: on an 800 by 600 viewport with the default increment
    [ceil(600 / 64)] is 10, and there is no bucket 10, no square of side 640;
    at its place the list has a full-screen target. *)
Lemma boot_ladder_stops_before_qty :
  let p := construct (configOf None None) (bootedRenderer 800 600) in
  boot_qty p = 10 /\ ~ ladderUpTo (boot_qty p) p (stateAfter boot p).
Proof.
  cbv zeta. split; [vm_compute; reflexivity|]. intros H.
  destruct (H 10 ltac:(vm_compute; split; discriminate) 0%nat ltac:(vm_compute; lia))
    as (t & Ht & Hw & _).
  vm_compute in Ht. injection Ht as <-. vm_compute in Hw. discriminate.
Qed.

(** C2, amended.  [boot] returns; the targets it leaves are, in order, the
    ladder for the bucket indices 1 to [ceil(min(w, h) / frameInc) - 1],
    each a square of side [i * frameInc] with its swap (and alt-swap)
    duplicate, then the full-screen targets, the last of which is
    [fsTarget]; [maxDimension] is [(qty - 1) * frameInc], the side of the
    last bucket; and the sides increase strictly with the index. *)
Theorem boot_builds_ladder (p : Pipeline) :
  0 < frameInc p -> renderTargets p = [] ->
  let p' := stateAfter boot p in
  let w := Renderer.width (renderer p) in
  let h := Renderer.height (renderer p) in
  completion boot p = Normal tt
  /\ map dims (renderTargets p')
     = ladderSizes (offsetOf p) (frameInc p) 1 (Z.to_nat (boot_qty p - 1))
         ++ fullScreenTier (offsetOf p) w h
  /\ ladderUpTo (boot_qty p - 1) p p'
  /\ (exists scratch,
        fsTarget p' = Some scratch /\ last (renderTargets p') = Some scratch
        /\ dims scratch = (w, h))
  /\ maxDimension p' = (boot_qty p - 1) * frameInc p
  /\ (forall i j, i < j -> i * frameInc p < j * frameInc p).
Proof.
  intros Hinc Hnil p' w h.
  destruct (boot_spec p) as (q & ladder & tier & scratch & E & R).
  assert (Hq : p' = q) by (unfold p', stateAfter; rewrite E; reflexivity).
  rewrite Hq. clear Hq p'.
  assert (Hdims : map dims (renderTargets q)
                  = ladderSizes (offsetOf p) (frameInc p) 1 (Z.to_nat (boot_qty p - 1))
                      ++ fullScreenTier (offsetOf p) w h).
  { rewrite (boot_renderTargets _ _ _ _ _ R), Hnil. cbn [app].
    rewrite !map_app, (boot_ladder_dims _ _ _ _ _ R), (boot_tier_dims _ _ _ _ _ R).
    cbn [map]. rewrite (boot_scratch_dims _ _ _ _ _ R). f_equal.
    unfold fullScreenTier. fold w h. generalize (offsetOf p). intros k.
    induction k as [|k IH]; cbn; [reflexivity|]. f_equal. exact IH. }
  split; [unfold completion; rewrite E; reflexivity|].
  split; [exact Hdims|]. split; [|split; [|split]].
  - intros i Hi j Hj.
    assert (L : Ladder q (Z.to_nat (boot_qty p - 1))).
    { apply (boot_Ladder p q ladder tier scratch R Hnil). lia. }
    assert (Ho : offsetOf q = offsetOf p)
      by (unfold offsetOf; rewrite (boot_altFrame _ _ _ _ _ R); reflexivity).
    destruct (Ladder_bucket q _ i j L) as (t & Ht & Hd); [lia | rewrite Ho; exact Hj|].
    rewrite Ho, (boot_frameInc _ _ _ _ _ R) in *.
    exists t. split; [exact Ht|]. injection Hd as Hw Hh. split; assumption.
  - exists scratch. split; [exact (boot_fsTarget _ _ _ _ _ R)|].
    split; [|exact (boot_scratch_dims _ _ _ _ _ R)].
    rewrite (boot_renderTargets _ _ _ _ _ R), !app_assoc. apply last_snoc.
  - exact (boot_maxDimension _ _ _ _ _ R).
  - intros i j Hij. nia.
Qed.

Lemma boot_builds_ladder_witness :
  let p := construct (configOf None None) (bootedRenderer 800 600) in
  map dims (renderTargets (stateAfter boot p))
  = ladderSizes 2 64 1 9 ++ fullScreenTier 2 800 600
  /\ maxDimension (stateAfter boot p) = 576.
Proof.
  cbv zeta.
  pose proof (boot_builds_ladder (construct (configOf None None) (bootedRenderer 800 600))
                ltac:(vm_compute; reflexivity) ltac:(reflexivity)) as H.
  cbv zeta in H. destruct H as (_ & Hd & _ & _ & Hm & _).
  split; [exact Hd | exact Hm].
Defined.

(** ** The opening of batchQuad *)

Lemma targetIndex_comp (s s' : Q) p : s == s' -> targetIndex s p = targetIndex s' p.
Proof.
  intros E. unfold targetIndex, SnapCeil.
  destruct (Qlt_le_dec (inject_Z (maxDimension p)) s) as [H|H];
    destruct (Qlt_le_dec (inject_Z (maxDimension p)) s') as [H'|H'].
  - reflexivity.
  - exfalso. rewrite E in H. exact (Qlt_not_le _ _ H H').
  - exfalso. rewrite <- E in H'. exact (Qlt_not_le _ _ H' H).
  - rewrite (Qceiling_comp (s / 64) (s' / 64)); [reflexivity|]. rewrite E. reflexivity.
Qed.

(** [batchQuad_begin] asks for a target of size [quadSize]; it throws when
    the sprite is [null] or no target is found, and otherwise records the
    index and then the sprite. *)
Lemma batchQuad_begin_eq object x0 y0 x1 y1 x2 y2 x3 y3 p :
  let size := quadSize (fxPadding object) x0 y0 x1 y1 x2 y2 x3 y3 in
  let bounds :=
    Rectangle.setTo (min4 x0 x1 x2 x3) (min4 y0 y1 y2 y3)
      (max4 x0 x1 x2 x3 - min4 x0 x1 x2 x3)%Q
      (max4 y0 y1 y2 y3 - min4 y0 y1 y2 y3)%Q in
  let index := targetIndex size p in
  batchQuad_begin (Some object) x0 y0 x1 y1 x2 y2 x3 y3 p
  = match item (renderTargets p) index with
    | Some t => (Normal (object, t), begun object t index bounds p)
    | None => (Throw TypeError, selected index (set_spriteBounds bounds p))
    end.
Proof.
  cbv zeta. unfold batchQuad_begin.
  unfold bind at 1. unfold deref at 1.
  unfold bind at 1. unfold modify at 1.
  unfold bind at 1. rewrite getSpriteTarget_eq.
  change (targetIndex ?s (set_spriteBounds ?b p)) with (targetIndex s p).
  change (renderTargets (set_spriteBounds ?b p)) with (renderTargets p).
  fold (quadSize (fxPadding object) x0 y0 x1 y1 x2 y2 x3 y3).
  destruct (item (renderTargets p) _) as [t|]; [|reflexivity].
  step. unfold begun, selected. destruct p; reflexivity.
Qed.

(** The size asked for is the bounding size plus twice the padding. *)
Lemma quadSize_padded padding x0 y0 x1 y1 x2 y2 x3 y3 :
  (0 <= padding)%Q ->
  let bw := (max4 x0 x1 x2 x3 - min4 x0 x1 x2 x3)%Q in
  let bh := (max4 y0 y1 y2 y3 - min4 y0 y1 y2 y3)%Q in
  quadSize padding x0 y0 x1 y1 x2 y2 x3 y3 == Qmax bw bh + padding * 2.
Proof.
  intros Hp bw bh. unfold quadSize. fold bw bh.
  rewrite Q.plus_max_distr_r. apply Qabs_pos.
  assert (Hbw : (0 <= bw)%Q).
  { unfold bw, max4, min4, Qminus. rewrite <- Qle_minus_iff.
    eapply Qle_trans; [apply Q.le_min_l|]. eapply Qle_trans; [apply Q.le_min_l|].
    eapply Qle_trans; [apply Q.le_min_l|]. eapply Qle_trans; [|apply Q.le_max_l].
    eapply Qle_trans; [|apply Q.le_max_l]. apply Q.le_max_l. }
  assert (Hm : (0 <= Qmax bw bh)%Q) by (eapply Qle_trans; [exact Hbw | apply Q.le_max_l]).
  assert (H2 : (0 <= padding * 2)%Q) by (apply Qmult_le_0_compat; [exact Hp | discriminate]).
  rewrite <- (Qplus_0_r 0). apply Qplus_le_compat; assumption.
Qed.

(** ** The 800 by 600 scenario *)

(** C3 as stated fails: the ladder of the 800 by 600 viewport has nine size
    buckets, not eight. *)
Lemma scenario_has_nine_buckets :
  length (bucketSizes (pipeline800x600 None None)) <> 8%nat.
Proof. vm_compute. discriminate. Qed.

(** C3, amended.  On an 800 by 600 viewport with the increment 64, [boot]
    produces [ceil(600 / 64) - 1 = 9] size buckets, 64 to 576, before the
    full-screen tier; and a sprite draw whose quad has bounding size 130 and
    FX padding 10 asks for size 150 and selects bucket [ceil(150 / 64) = 3]:
    the target at index 4, which is 192 by 192. *)
Theorem scenario_800x600 :
  let p := pipeline800x600 None None in
  bucketSizes p = [64; 128; 192; 256; 320; 384; 448; 512; 576]
  /\ Z.of_nat (length (bucketSizes p)) = Qceiling (600 / 64) - 1
  /\ Qceiling (600 / 64) - 1 = 9
  /\ SnapCeil 150 64 = 3
  /\ forall object x0 y0 x1 y1 x2 y2 x3 y3,
       fxPadding object == 10 ->
       Qmax (max4 x0 x1 x2 x3 - min4 x0 x1 x2 x3)
            (max4 y0 y1 y2 y3 - min4 y0 y1 y2 y3) == 130 ->
       quadSize (fxPadding object) x0 y0 x1 y1 x2 y2 x3 y3 == 150
       /\ exists t q,
            batchQuad_begin (Some object) x0 y0 x1 y1 x2 y2 x3 y3 p
            = (Normal (object, t), q)
            /\ item (renderTargets p) 4 = Some t
            /\ dims t = (192, 192)
            /\ textureIndex (spriteData q) = 4
            /\ sprite (spriteData q) = Some object.
Proof.
  cbv zeta. split; [vm_compute; reflexivity|].
  split; [vm_compute; reflexivity|]. split; [vm_compute; reflexivity|].
  split; [vm_compute; reflexivity|].
  intros object x0 y0 x1 y1 x2 y2 x3 y3 Hpad Hsize.
  assert (Hq : quadSize (fxPadding object) x0 y0 x1 y1 x2 y2 x3 y3 == 150).
  { rewrite quadSize_padded by (rewrite Hpad; discriminate).
    rewrite Hsize, Hpad. reflexivity. }
  split; [exact Hq|].
  pose proof (batchQuad_begin_eq object x0 y0 x1 y1 x2 y2 x3 y3
                (pipeline800x600 None None)) as E.
  cbv zeta in E. rewrite (targetIndex_comp _ _ _ Hq) in E.
  assert (E4 : targetIndex 150 (pipeline800x600 None None) = 4)
    by (vm_compute; reflexivity).
  rewrite E4 in E. clear E4.
  assert (Et : exists t, item (renderTargets (pipeline800x600 None None)) 4 = Some t
                         /\ dims t = (192, 192))
    by (eexists; split; vm_compute; reflexivity).
  destruct Et as (t & Et & Hd). rewrite Et in E.
  exists t. eexists. split; [exact E|].
  split; [exact Et|]. split; [exact Hd|]. split; reflexivity.
Qed.

Lemma scenario_800x600_witness :
  let object := {| objectId := 1; fxPadding := 10 |} in
  exists t q,
    batchQuad_begin (Some object) 0 0 0 130 130 130 130 0 (pipeline800x600 None None)
    = (Normal (object, t), q)
    /\ dims t = (192, 192) /\ textureIndex (spriteData q) = 4.
Proof.
  cbv zeta.
  destruct scenario_800x600 as (_ & _ & _ & _ & H).
  destruct (H {| objectId := 1; fxPadding := 10 |}
              0%Q 0%Q 0%Q 130%Q 130%Q 130%Q 130%Q 0%Q
              ltac:(reflexivity) ltac:(vm_compute; reflexivity))
    as (_ & t & q & E & _ & Hd & Hi & _).
  exists t, q. split; [exact E|]. split; assumption.
Defined.

(** ** The pipeline the constructor leaves *)

(** A pipeline constructed on a booted renderer of positive size has the
    ladder shape. *)
Lemma initialize_Ladder config r :
  Renderer.isBooted r = true ->
  0 < Renderer.width r -> 0 < Renderer.height r ->
  0 < frameInc (construct config r) ->
  Ladder (initialize config r) (Z.to_nat (boot_qty (construct config r) - 1))
  /\ frameInc (initialize config r) = frameInc (construct config r)
  /\ altFrame (initialize config r) = altFrame (construct config r).
Proof.
  intros Hb Hw Hh Hinc. unfold initialize. rewrite Hb.
  destruct (boot_spec (construct config r)) as (q & ladder & tier & scratch & E & R).
  unfold stateAfter. rewrite E. cbn [snd].
  split; [|split; [exact (boot_frameInc _ _ _ _ _ R) | exact (boot_altFrame _ _ _ _ _ R)]].
  apply (boot_Ladder _ _ _ _ _ R); [reflexivity|].
  apply boot_qty_pos; assumption.
Qed.

(** ** The quad vertex buffer *)

Lemma toFloat32_comp (x y : Q) : x == y -> toFloat32 x = toFloat32 y.
Proof. intros E. unfold toFloat32. rewrite (Qred_complete x y E). reflexivity. Qed.

Lemma toFloat32_0 : toFloat32 0 = F32 0.
Proof. reflexivity. Qed.

Lemma toFloat32_1 : toFloat32 1 = F32 1.
Proof. vm_compute. reflexivity. Qed.

(** ** Binary32 values *)

Lemma pow2_Z (e : Z) : 0 <= e -> pow2 e == inject_Z (2 ^ e).
Proof. intros He. unfold pow2. rewrite Zpower_Qpower by exact He. reflexivity. Qed.

Lemma pow2_add (a b : Z) : pow2 (a + b) == pow2 a * pow2 b.
Proof. unfold pow2. apply Qpower_plus. discriminate. Qed.

Lemma pow2_pos (e : Z) : (0 < pow2 e)%Q.
Proof. unfold pow2. apply Qpower_0_lt. reflexivity. Qed.

Lemma roundTiesToEven_Z (s : Q) (m : Z) : s == inject_Z m -> roundTiesToEven s = m.
Proof.
  intros E. unfold roundTiesToEven.
  rewrite (Qfloor_comp s (inject_Z m) E), Qfloor_Z.
  assert (H : (s - inject_Z m < 1 # 2)%Q) by (rewrite E; ring_simplify; reflexivity).
  destruct (Qcompare (s - inject_Z m) (1 # 2)) eqn:C; [| reflexivity |].
  - apply Qeq_alt in C. rewrite C in H. discriminate H.
  - apply Qgt_alt in C. exfalso. exact (Qlt_irrefl _ (Qlt_trans _ _ _ H C)).
Qed.

Lemma ilog2_Z (z : Z) : 0 < z -> ilog2 (inject_Z z) = Z.log2 z.
Proof.
  intros Hz.
  assert (H : (pow2 (Z.log2 z) <= inject_Z z)%Q).
  { rewrite pow2_Z by apply Z.log2_nonneg. rewrite <- Zle_Qle.
    apply Z.log2_spec. exact Hz. }
  apply Qle_bool_iff in H.
  unfold ilog2. change (Qnum (inject_Z z)) with z.
  change (Z.log2 (Z.pos (Qden (inject_Z z)))) with 0.
  rewrite Z.sub_0_r, H. reflexivity.
Qed.

(** The integers up to [2^24] are binary32 values. *)
Lemma isFloat32_Z (z : Z) : 0 <= z <= 2 ^ 24 -> isFloat32 (inject_Z z).
Proof.
  intros Hz. unfold isFloat32, toFloat32.
  assert (Hred : Qred (inject_Z z) = inject_Z z).
  { apply Qcanon.Qred_identity. cbn. apply Z.gcd_1_r. }
  rewrite Hred. clear Hred.
  destruct (Z.eq_dec z 0) as [->|Hnz]; [reflexivity|].
  assert (Hpos : 0 < z) by lia.
  destruct (Qeq_bool (inject_Z z) 0) eqn:E0.
  { apply Qeq_bool_eq in E0. change 0%Q with (inject_Z 0) in E0.
    rewrite inject_Z_injective in E0. lia. }
  assert (Habs : Qabs (inject_Z z) = inject_Z z).
  { unfold Qabs, inject_Z. rewrite Z.abs_eq by lia. reflexivity. }
  rewrite Habs, ilog2_Z by exact Hpos.
  pose proof (Z.log2_nonneg z) as He0.
  pose proof (Z.log2_spec z Hpos) as [Hlo Hhi].
  assert (He : Z.log2 z <= 24).
  { destruct (Z.le_gt_cases (Z.log2 z) 24) as [H|H]; [exact H|].
    exfalso. assert (2 ^ 25 <= 2 ^ Z.log2 z) by (apply Z.pow_le_mono_r; lia). lia. }
  rewrite Z.max_l by lia.
  set (e := Z.log2 z) in *.
  assert (Hm : exists m, inject_Z z == inject_Z m * pow2 (e - 23)).
  { destruct (Z.le_gt_cases e 23) as [H|H].
    - exists (z * 2 ^ (23 - e)).
      rewrite inject_Z_mult, <- pow2_Z by lia.
      rewrite <- Qmult_assoc, <- pow2_add.
      replace (23 - e + (e - 23)) with 0 by lia. change (pow2 0) with 1%Q. ring.
    - assert (E24 : e = 24) by lia. clearbody e. subst e.
      assert (z = 2 ^ 24) by lia.
      exists (2 ^ 23). subst z. reflexivity. }
  destruct Hm as (m & Hm).
  assert (Hdiv : inject_Z z / pow2 (e - 23) == inject_Z m).
  { rewrite Hm. field. intros E. pose proof (pow2_pos (e - 23)) as P.
    rewrite E in P. discriminate P. }
  rewrite (roundTiesToEven_Z _ m Hdiv).
  assert (Hneg : (Qnum (inject_Z z) <? 0) = false) by (apply Z.ltb_ge; cbn; lia).
  rewrite Hneg.
  destruct (Qle_bool (pow2 128) (inject_Z m * pow2 (e - 23))) eqn:Ebig.
  { exfalso. apply Qle_bool_iff in Ebig. rewrite <- Hm in Ebig.
    rewrite pow2_Z in Ebig by lia. rewrite <- Zle_Qle in Ebig.
    assert (2 ^ 24 < 2 ^ 128) by reflexivity. lia. }
  cbn [holds]. rewrite Qred_correct. symmetry. exact Hm.
Qed.

(** ** Writing to the view *)

Lemma setUVs_view_comp uA vA uB vB uC vC uD vD uA' vA' uB' vB' uC' vC' uD' vD' view :
  uA == uA' -> vA == vA' -> uB == uB' -> vB == vB' ->
  uC == uC' -> vC == vC' -> uD == uD' -> vD == vD' ->
  setUVs_view uA vA uB vB uC vC uD vD view
  = setUVs_view uA' vA' uB' vB' uC' vC' uD' vD' view.
Proof.
  intros. unfold setUVs_view.
  rewrite (toFloat32_comp uA uA'), (toFloat32_comp vA vA'), (toFloat32_comp uB uB'),
    (toFloat32_comp vB vB'), (toFloat32_comp uC uC'), (toFloat32_comp vC vC'),
    (toFloat32_comp uD uD'), (toFloat32_comp vD vD') by assumption.
  reflexivity.
Qed.

Lemma setUVs_view_length uA vA uB vB uC vC uD vD view :
  length (setUVs_view uA vA uB vB uC vC uD vD view) = length view.
Proof. unfold setUVs_view. rewrite !length_insert. reflexivity. Qed.

Lemma onResize_view_length width height view :
  length (onResize_view width height view) = length view.
Proof. unfold onResize_view. rewrite !length_insert. reflexivity. Qed.

(** Reads a cell of a view after a run of assignments to known cells. *)
Ltac view_lookup :=
  repeat first
    [ rewrite list_lookup_insert_eq by (rewrite ?length_insert; lia)
    | rewrite list_lookup_insert_ne by lia ].

(** [setUVs] leaves every cell outside [uvCells] as it was. *)
Lemma setUVs_view_other uA vA uB vB uC vC uD vD view (i : nat) :
  i ∉ uvCells -> setUVs_view uA vA uB vB uC vC uD vD view !! i = view !! i.
Proof.
  unfold uvCells, setUVs_view. rewrite !not_elem_of_cons. intros H.
  repeat (rewrite list_lookup_insert_ne by (intros <-; intuition congruence)).
  reflexivity.
Qed.

(** [onResize] leaves every cell outside [positionCells] as it was. *)
Lemma onResize_view_other width height view (i : nat) :
  i ∉ positionCells -> onResize_view width height view !! i = view !! i.
Proof.
  unfold positionCells, onResize_view. rewrite !not_elem_of_cons. intros H.
  repeat (rewrite list_lookup_insert_ne by (intros <-; intuition congruence)).
  reflexivity.
Qed.

(** Every buffer the pipeline can hold has 42 cells, and zero in the six
    position cells that are never assigned. *)
Lemma QuadView_inv view :
  QuadView view ->
  length view = 42%nat /\ Forall (fun i => view !! i = Some (F32 0)) restingCells.
Proof.
  induction 1 as [|w h view _ [IHl IHz]|uA vA uB vB uC vC uD vD view _ [IHl IHz]].
  - split; [reflexivity|]. repeat constructor.
  - split; [rewrite onResize_view_length; exact IHl|].
    unfold restingCells in *. rewrite !Forall_cons in *.
    unfold onResize_view. repeat split; view_lookup; try tauto; constructor.
  - split; [rewrite setUVs_view_length; exact IHl|].
    unfold restingCells in *. rewrite !Forall_cons in *.
    unfold setUVs_view. repeat split; view_lookup; try tauto; constructor.
Qed.

Lemma setUVs_comp uA vA uB vB uC vC uD vD uA' vA' uB' vB' uC' vC' uD' vD' p :
  uA == uA' -> vA == vA' -> uB == uB' -> vB == vB' ->
  uC == uC' -> vC == vC' -> uD == uD' -> vD == vD' ->
  setUVs uA vA uB vB uC vC uD vD p = setUVs uA' vA' uB' vB' uC' vC' uD' vD' p.
Proof.
  intros. unfold setUVs. step. destruct (quadVertexViewF32 p) as [view|]; [|reflexivity].
  rewrite (setUVs_view_comp uA vA uB vB uC vC uD vD uA' vA' uB' vB' uC' vC' uD' vD')
    by assumption.
  reflexivity.
Qed.

(** The UV pairs after [setUVs], as stored: A at vertices 0 and 3, B at 1,
    C at 2 and 4, D at 5. *)
Lemma setUVs_view_uvs (view : list float32) (uA vA uB vB uC vC uD vD : Q) :
  length view = 42%nat ->
  map (uvAt (setUVs_view uA vA uB vB uC vC uD vD view)) (seq 0 6)
  = [ Some (toFloat32 uA, toFloat32 vA); Some (toFloat32 uB, toFloat32 vB);
      Some (toFloat32 uC, toFloat32 vC); Some (toFloat32 uA, toFloat32 vA);
      Some (toFloat32 uC, toFloat32 vC); Some (toFloat32 uD, toFloat32 vD) ].
Proof.
  intros Hlen. unfold setUVs_view, uvAt. cbn [map seq Nat.mul Nat.add].
  repeat f_equal; view_lookup; reflexivity.
Qed.

(** C6 as stated fails: the view is a [Float32Array].  The number
    [1 + 2^-30] is a binary64 value with no binary32 equal; stored as the u
    of vertex A it reads back as 1. *)
Lemma setUVs_rounds_to_float32 :
  let uA := (1 + pow2 (-30))%Q in
  let view := setUVs_view uA 0 0 1 1 1 1 0 (replicate 42 (F32 0)) in
  uvAt view 0 = Some (F32 1, F32 0) /\ ~ readsBack view 0 uA 0.
Proof.
  cbv zeta. split; [vm_compute; reflexivity|].
  intros (cu & cv & E & Hu & _). vm_compute in E. injection E as <- _.
  vm_compute in Hu. discriminate.
Qed.

(** C6, amended.  [setUVs] writes the twelve UV cells and nothing else: the
    pair of A at vertices 0 and 3, of B at 1, of C at 2 and 4, of D at 5,
    each number rounded to binary32 by the store; so the pairs read back are
    exactly the inputs whenever these are binary32 values.  Every other
    cell, the positions among them, keeps its content.  [resetUVs] is
    [setUVs(0, 0, 0, 1, 1, 1, 1, 0)] and leaves the identity mapping. *)
Theorem setUVs_writes_uvs (p : Pipeline) (view : list float32)
    (uA vA uB vB uC vC uD vD : Q) :
  quadVertexViewF32 p = Some view -> length view = 42%nat ->
  let view' := setUVs_view uA vA uB vB uC vC uD vD view in
  setUVs uA vA uB vB uC vC uD vD p = (Normal tt, set_quadVertexViewF32 (Some view') p)
  /\ map (uvAt view') (seq 0 6)
     = [ Some (toFloat32 uA, toFloat32 vA); Some (toFloat32 uB, toFloat32 vB);
         Some (toFloat32 uC, toFloat32 vC); Some (toFloat32 uA, toFloat32 vA);
         Some (toFloat32 uC, toFloat32 vC); Some (toFloat32 uD, toFloat32 vD) ]
  /\ (isFloat32 uA -> isFloat32 vA -> isFloat32 uB -> isFloat32 vB ->
      isFloat32 uC -> isFloat32 vC -> isFloat32 uD -> isFloat32 vD ->
      readsBack view' 0 uA vA /\ readsBack view' 1 uB vB /\ readsBack view' 2 uC vC
      /\ readsBack view' 3 uA vA /\ readsBack view' 4 uC vC /\ readsBack view' 5 uD vD)
  /\ (forall i : nat, i ∉ uvCells -> view' !! i = view !! i)
  /\ (forall k : nat, positionAt view' k = positionAt view k)
  /\ resetUVs p = setUVs 0 0 0 1 1 1 1 0 p
  /\ map (uvAt (setUVs_view 0 0 0 1 1 1 1 0 view)) (seq 0 6)
     = [ Some (F32 0, F32 0); Some (F32 0, F32 1); Some (F32 1, F32 1);
         Some (F32 0, F32 0); Some (F32 1, F32 1); Some (F32 1, F32 0) ].
Proof.
  intros Hview Hlen view'.
  pose proof (fun a b c d e f g h => setUVs_view_uvs view a b c d e f g h Hlen) as Huv.
  split; [|split; [|split; [|split; [|split; [|split]]]]].
  - unfold setUVs. step. rewrite Hview. reflexivity.
  - apply Huv.
  - intros HuA HvA HuB HvB HuC HvC HuD HvD.
    pose proof (Huv uA vA uB vB uC vC uD vD) as H. fold view' in H.
    cbn [map seq] in H. injection H as H0 H1 H2 H3 H4 H5.
    unfold readsBack. repeat split; eexists _, _; (split; [eassumption|]);
      split; assumption.
  - intros i Hi. apply setUVs_view_other. exact Hi.
  - intros k. unfold positionAt, view'.
    rewrite !setUVs_view_other; [reflexivity| |];
      unfold uvCells; rewrite !not_elem_of_cons; repeat split; try lia;
      apply not_elem_of_nil.
  - reflexivity.
  - rewrite Huv, toFloat32_0, toFloat32_1. reflexivity.
Qed.

Lemma setUVs_writes_uvs_witness :
  let p := pipeline800x600 None None in
  let view := onResize_view 800 600 (replicate 42 (F32 0)) in
  readsBack (setUVs_view 0 (1 # 4) 0 (5 # 4) 1 (5 # 4) 1 (1 # 4) view) 1 0 (5 # 4).
Proof.
  cbv zeta.
  pose proof (setUVs_writes_uvs (pipeline800x600 None None)
                (onResize_view 800 600 (replicate 42 (F32 0)))
                0 (1 # 4) 0 (5 # 4) 1 (5 # 4) 1 (1 # 4)
                ltac:(vm_compute; reflexivity) ltac:(reflexivity)) as H.
  cbv zeta in H. destruct H as (_ & _ & H & _).
  apply H; vm_compute; reflexivity.
Defined.

(** The positions after [onResize], as stored. *)
Lemma onResize_view_positions (view : list float32) (width height : Q) :
  QuadView view ->
  map (positionAt (onResize_view width height view)) (seq 0 6)
  = [ Some (F32 0, toFloat32 height); Some (F32 0, F32 0);
      Some (toFloat32 width, F32 0); Some (F32 0, toFloat32 height);
      Some (toFloat32 width, F32 0); Some (toFloat32 width, toFloat32 height) ].
Proof.
  intros Hq. destruct (QuadView_inv view Hq) as [Hlen Hz].
  unfold restingCells in Hz. rewrite !Forall_cons in Hz.
  destruct Hz as (Z0 & Z7 & Z8 & Z15 & Z21 & Z29 & _).
  unfold onResize_view, positionAt. cbn [map seq Nat.mul Nat.add].
  view_lookup. rewrite Z0, Z7, Z8, Z15, Z21, Z29. reflexivity.
Qed.

(** C7.  On any buffer the pipeline can hold, after [onResize(width,
    height)] with binary32 sizes the six position pairs are, in order,
    (0, height), (0, 0), (width, 0), (0, height), (width, 0) and (width,
    height): a quad over the viewport, cut into two triangles along the
    diagonal from (0, height) to (width, 0).  The UV pairs are untouched. *)
Theorem onResize_positions (p : Pipeline) (view : list float32) (width height : Q) :
  quadVertexViewF32 p = Some view -> QuadView view ->
  isFloat32 width -> isFloat32 height ->
  let view' := onResize_view width height view in
  onResize width height p = (Normal tt, set_quadVertexViewF32 (Some view') p)
  /\ (exists w h,
        holds w width /\ holds h height
        /\ map (positionAt view') (seq 0 6)
           = [ Some (F32 0, h); Some (F32 0, F32 0); Some (w, F32 0);
               Some (F32 0, h); Some (w, F32 0); Some (w, h) ])
  /\ (forall k : nat, uvAt view' k = uvAt view k)
  /\ QuadView view'.
Proof.
  intros Hview Hq Hw Hh view'.
  split; [|split; [|split]].
  - unfold onResize. step. rewrite Hview. reflexivity.
  - exists (toFloat32 width), (toFloat32 height).
    split; [exact Hw|]. split; [exact Hh|].
    apply onResize_view_positions. exact Hq.
  - intros k. unfold uvAt, view'.
    rewrite !onResize_view_other; [reflexivity| |];
      unfold positionCells; rewrite !not_elem_of_cons; repeat split; try lia;
      apply not_elem_of_nil.
  - constructor. exact Hq.
Qed.

(** The buffer of a booted pipeline is one of [QuadView], written by
    [onResize] with the renderer's size. *)
Lemma boot_QuadView p p' ladder tier scratch :
  BootResult p p' ladder tier scratch ->
  exists view, quadVertexViewF32 p' = Some view /\ QuadView view.
Proof.
  intros R. eexists. split; [exact (boot_view _ _ _ _ _ R)|]. repeat constructor.
Qed.

Lemma onResize_positions_witness :
  let p := pipeline800x600 None None in
  exists view view',
    quadVertexViewF32 p = Some view
    /\ onResize 1024 768 p = (Normal tt, set_quadVertexViewF32 (Some view') p)
    /\ map (positionAt view') (seq 0 6)
       = [ Some (F32 0, F32 768); Some (F32 0, F32 0); Some (F32 1024, F32 0);
           Some (F32 0, F32 768); Some (F32 1024, F32 0); Some (F32 1024, F32 768) ].
Proof.
  cbv zeta.
  exists (onResize_view 800 600 (replicate 42 (F32 0))).
  exists (onResize_view 1024 768 (onResize_view 800 600 (replicate 42 (F32 0)))).
  pose proof (onResize_positions (pipeline800x600 None None)
                (onResize_view 800 600 (replicate 42 (F32 0))) 1024 768
                ltac:(vm_compute; reflexivity)
                ltac:(repeat constructor)
                ltac:(vm_compute; reflexivity) ltac:(vm_compute; reflexivity)) as H.
  cbv zeta in H. destruct H as (E & _ & _ & _).
  split; [vm_compute; reflexivity|]. split; [exact E|]. vm_compute. reflexivity.
Defined.

(** For a viewport measured in whole pixels, up to [2^24] a side, the
    positions after [onResize] are the viewport's corners themselves. *)
Lemma onResize_positions_Z (view : list float32) (width height : Z) :
  QuadView view -> 0 <= width <= 2 ^ 24 -> 0 <= height <= 2 ^ 24 ->
  exists w h,
    holds w (inject_Z width) /\ holds h (inject_Z height)
    /\ map (positionAt (onResize_view (inject_Z width) (inject_Z height) view)) (seq 0 6)
       = [ Some (F32 0, h); Some (F32 0, F32 0); Some (w, F32 0);
           Some (F32 0, h); Some (w, F32 0); Some (w, h) ].
Proof.
  intros Hq Hw Hh.
  exists (toFloat32 (inject_Z width)), (toFloat32 (inject_Z height)).
  split; [exact (isFloat32_Z width Hw)|]. split; [exact (isFloat32_Z height Hh)|].
  apply onResize_view_positions. exact Hq.
Qed.

(** ** setTargetUVs *)

Lemma targetUVdiff_eq source target :
  let ratio := (inject_Z (RenderTarget.height target)
                / inject_Z (RenderTarget.height source))%Q in
  targetUVdiff source target == 1 - ratio.
Proof.
  cbv zeta. unfold targetUVdiff.
  destruct (Qlt_le_dec _ _); ring.
Qed.

(** C4.  For a source of non-zero height, [setTargetUVs(source, target)]
    takes [ratio = target.height / source.height], sets [diff] to
    [0.5 - (ratio - 0.5)] when [ratio > 0.5] and to [0.5 + (0.5 - ratio)]
    otherwise, and calls [setUVs(0, diff, 0, 1 + diff, 1, 1 + diff, 1,
    diff)]: the quad's UVs become (0, diff), (0, 1 + diff), (1, 1 + diff)
    and (1, diff), as the view stores them.  [diff] depends on the two
    heights only; with equal heights it is 0 and the call does what
    [resetUVs] does. *)
Theorem setTargetUVs_spec (source target : RenderTarget.t) (p : Pipeline) :
  RenderTarget.height source <> 0 ->
  let ratio := (inject_Z (RenderTarget.height target)
                / inject_Z (RenderTarget.height source))%Q in
  let diff := targetUVdiff source target in
  ((1 # 2 < ratio)%Q -> diff = ((1 # 2) - (ratio - (1 # 2)))%Q)
  /\ (~ (1 # 2 < ratio)%Q -> diff = ((1 # 2) + ((1 # 2) - ratio))%Q)
  /\ setTargetUVs source target p = setUVs 0 diff 0 (1 + diff) 1 (1 + diff) 1 diff p
  /\ (forall view,
        quadVertexViewF32 p = Some view -> length view = 42%nat ->
        exists view',
          setTargetUVs source target p
          = (Normal tt, set_quadVertexViewF32 (Some view') p)
          /\ map (uvAt view') (seq 0 6)
             = [ Some (F32 0, toFloat32 diff); Some (F32 0, toFloat32 (1 + diff));
                 Some (F32 1, toFloat32 (1 + diff)); Some (F32 0, toFloat32 diff);
                 Some (F32 1, toFloat32 (1 + diff)); Some (F32 1, toFloat32 diff) ])
  /\ (forall source' target',
        RenderTarget.height source' = RenderTarget.height source ->
        RenderTarget.height target' = RenderTarget.height target ->
        targetUVdiff source' target' = diff
        /\ setTargetUVs source' target' p = setTargetUVs source target p)
  /\ (RenderTarget.height source = RenderTarget.height target ->
      diff == 0 /\ setTargetUVs source target p = resetUVs p).
Proof.
  intros Hs ratio diff. split; [|split; [|split; [|split; [|split]]]].
  - intros Hr. unfold diff, targetUVdiff. fold ratio.
    destruct (Qlt_le_dec (1 # 2) ratio) as [_|Hle]; [reflexivity|].
    exfalso. exact (Qlt_not_le _ _ Hr Hle).
  - intros Hr. unfold diff, targetUVdiff. fold ratio.
    destruct (Qlt_le_dec (1 # 2) ratio) as [Hlt|_]; [|reflexivity].
    exfalso. exact (Hr Hlt).
  - reflexivity.
  - intros view Hview Hlen. eexists. split.
    + unfold setTargetUVs, setUVs. step. rewrite Hview. reflexivity.
    + fold diff. rewrite setUVs_view_uvs by exact Hlen.
      rewrite toFloat32_0, toFloat32_1. reflexivity.
  - intros source' target' Es Et.
    assert (E : targetUVdiff source' target' = diff)
      by (unfold diff, targetUVdiff; rewrite Es, Et; reflexivity).
    split; [exact E|]. unfold setTargetUVs. rewrite E. reflexivity.
  - intros Eh.
    assert (Hd : diff == 0).
    { unfold diff. rewrite targetUVdiff_eq. rewrite <- Eh.
      unfold Qdiv. rewrite Qmult_inv_r; [reflexivity|].
      intros E. apply Hs. change 0%Q with (inject_Z 0) in E.
      rewrite inject_Z_injective in E. exact E. }
    split; [exact Hd|]. unfold setTargetUVs, resetUVs. fold diff.
    apply setUVs_comp; try reflexivity; rewrite Hd; reflexivity.
Qed.

Lemma setTargetUVs_spec_witness :
  let t := fullScreenTarget 192 192 0 in
  targetUVdiff t t == 0
  /\ setTargetUVs t t (pipeline800x600 None None)
     = resetUVs (pipeline800x600 None None).
Proof.
  cbv zeta.
  pose proof (setTargetUVs_spec (fullScreenTarget 192 192 0) (fullScreenTarget 192 192 0)
                (pipeline800x600 None None) ltac:(discriminate)) as H.
  cbv zeta in H. destruct H as (_ & _ & _ & _ & _ & H). apply H. reflexivity.
Defined.

(** ** Reasoning on a method, statement by statement *)

Lemma ensures_bind {A B : Type} (m : M A) (k : A -> M B) Q p :
  ensures m (fun c p1 =>
               match c with
               | Normal a => ensures (k a) Q p1
               | Throw e => Q (Throw e) p1
               end) p ->
  ensures (bind m k) Q p.
Proof.
  unfold ensures, completion, stateAfter, bind.
  destruct (m p) as [[a|e] p1]; cbn [fst snd]; auto.
Qed.

Lemma ensures_weaken {A : Type} (m : M A) (Q Q' : Completion A -> Pipeline -> Prop) p :
  ensures m Q p -> (forall c q, Q c q -> Q' c q) -> ensures m Q' p.
Proof. unfold ensures. auto. Qed.

(** When the continuation reaches [Q] from any state. *)
Lemma ensures_bind_any {A B : Type} (m : M A) (k : A -> M B) (Q : Completion B -> Pipeline -> Prop) p :
  (forall a p1, ensures (k a) Q p1) ->
  (forall e p1, Q (Throw e) p1) ->
  ensures (bind m k) Q p.
Proof.
  intros Hk He. apply ensures_bind. unfold ensures at 1.
  destruct (completion m p); auto.
Qed.

(** A statement that always returns. *)
Lemma ensures_bind_returns {A B : Type} (m : M A) (k : A -> M B)
    (Q : Completion B -> Pipeline -> Prop) p :
  returns m -> (forall a p1, ensures (k a) Q p1) -> ensures (bind m k) Q p.
Proof.
  intros Hm Hk. apply ensures_bind. unfold ensures at 1.
  destruct (Hm p) as (a & E). rewrite E. apply Hk.
Qed.

Lemma returns_gets {A : Type} (f : Pipeline -> A) : returns (gets f).
Proof. intros p. eexists. reflexivity. Qed.

Lemma returns_modify (f : Pipeline -> Pipeline) : returns (modify f).
Proof. intros p. eexists. reflexivity. Qed.

Lemma returns_emit (c : Command) : returns (emit c).
Proof. intros p. eexists. reflexivity. Qed.

Lemma returns_when (c : bool) (m : M unit) : returns m -> returns (when c m).
Proof. intros H. destruct c; [exact H|]. intros p. eexists. reflexivity. Qed.

Lemma returns_bind {A B : Type} (m : M A) (k : A -> M B) :
  returns m -> (forall a, returns (k a)) -> returns (bind m k).
Proof.
  intros Hm Hk p. destruct (Hm p) as (a & E).
  unfold completion, bind in *. destruct (m p) as [c p1]. cbn [fst] in E. subst c.
  apply Hk.
Qed.

Create HintDb returns.

#[local] Hint Resolve returns_gets returns_modify returns_emit returns_when
  returns_bind : returns.

(** ** Statements that leave a part of the state alone *)

Section Neutral.

Context (R : Pipeline -> Pipeline -> Prop) `{!PreOrder R}.

Lemma neutral_ret {A : Type} (a : A) : neutral R (ret a).
Proof. intros p. reflexivity. Qed.

Lemma neutral_gets {A : Type} (f : Pipeline -> A) : neutral R (gets f).
Proof. intros p. reflexivity. Qed.

Lemma neutral_deref {A : Type} (o : option A) : neutral R (deref o).
Proof. intros p. unfold stateAfter, deref. destruct o; reflexivity. Qed.

Lemma neutral_modify (f : Pipeline -> Pipeline) :
  (forall p, R p (f p)) -> neutral R (modify f).
Proof. intros H p. apply H. Qed.

Lemma neutral_bind {A B : Type} (m : M A) (k : A -> M B) :
  neutral R m -> (forall a, neutral R (k a)) -> neutral R (bind m k).
Proof.
  intros Hm Hk p. specialize (Hm p). unfold stateAfter, bind in *.
  destruct (m p) as [[a|e] p1]; cbn [snd] in *; [|exact Hm].
  etransitivity; [exact Hm | apply Hk].
Qed.

Lemma neutral_when (c : bool) (m : M unit) : neutral R m -> neutral R (when c m).
Proof. intros H. destruct c; [exact H | apply neutral_ret]. Qed.

Lemma neutral_if {A : Type} (c : bool) (m1 m2 : M A) :
  neutral R m1 -> neutral R m2 -> neutral R (if c then m1 else m2).
Proof. intros H1 H2. destruct c; assumption. Qed.

(** A neutral statement hands [R] on to what follows it. *)
Lemma ensures_neutral_bind {A B : Type} (m : M A) (k : A -> M B) Q p0 p :
  R p0 p -> neutral R m ->
  (forall a p1, R p0 p1 -> ensures (k a) Q p1) ->
  (forall e p1, R p0 p1 -> Q (Throw e) p1) ->
  ensures (bind m k) Q p.
Proof.
  intros H0 Hm Hk He. apply ensures_bind. unfold ensures at 1.
  specialize (Hm p).
  assert (H1 : R p0 (stateAfter m p)) by (etransitivity; eassumption).
  destruct (completion m p); auto.
Qed.

(** The same for a statement that cannot throw. *)
Lemma ensures_neutral_returns_bind {A B : Type} (m : M A) (k : A -> M B) Q p0 p :
  R p0 p -> neutral R m -> returns m ->
  (forall a p1, R p0 p1 -> ensures (k a) Q p1) ->
  ensures (bind m k) Q p.
Proof.
  intros H0 Hm Hr Hk. apply ensures_bind. unfold ensures at 1.
  specialize (Hm p).
  assert (H1 : R p0 (stateAfter m p)) by (etransitivity; eassumption).
  destruct (Hr p) as (a & E). rewrite E. auto.
Qed.

End Neutral.

#[local] Instance sameBlend_PreOrder : PreOrder sameBlend.
Proof.
  split.
  - intros p. split; reflexivity.
  - intros p0 p1 p2 [A1 B1] [A2 B2]. split; congruence.
Qed.

#[local] Instance sameData_PreOrder : PreOrder sameData.
Proof.
  split.
  - intros p. reflexivity.
  - intros p0 p1 p2 H1 H2. unfold sameData in *. congruence.
Qed.

Lemma blendCalls_snoc l c :
  blendCalls (l ++ [c])
  = blendCalls l ++ match c with renderer_setBlendMode m => [m] | _ => [] end.
Proof. unfold blendCalls. rewrite omap_app. destruct c; reflexivity. Qed.

(** A command other than [setBlendMode] leaves the blend mode alone. *)
Lemma sameBlend_emit (c : Command) p :
  (forall m, c <> renderer_setBlendMode m) -> sameBlend p (set_gl (gl p ++ [c]) p).
Proof.
  intros Hc. split; [reflexivity|]. cbn. rewrite blendCalls_snoc.
  destruct c; try apply app_nil_r. exfalso. eapply Hc. reflexivity.
Qed.

(** Proves a method neutral by going through its statements. *)
Ltac neutrality :=
  repeat match goal with
         | |- neutral _ (ret _) => apply neutral_ret; try exact _
         | |- neutral _ (gets _) => apply neutral_gets; try exact _
         | |- neutral _ (deref _) => apply neutral_deref; try exact _
         | |- neutral _ (when _ _) => apply neutral_when; try exact _
         | |- neutral _ (bind _ _) => apply neutral_bind; [exact _ | | intros ?]
         | |- neutral _ (modify _) => apply neutral_modify; intros ?
         | |- neutral _ (if _ then _ else _) => apply neutral_if
         | |- neutral _ (match ?o with Some _ => _ | None => _ end) => destruct o
         | |- neutral _ (emit _) => unfold emit
         | |- neutral _ (set1i _ _) => unfold set1i
         | |- neutral _ (setShader _) => unfold setShader
         | |- neutral _ (batchVert _ _ _ _ _ _ _) => unfold batchVert
         | |- neutral _ flush => unfold flush
         | |- neutral _ popFramebuffer => unfold popFramebuffer
         | |- neutral _ (renderer_modify _) => unfold renderer_modify
         | |- neutral _ (setVertexBuffer _) => unfold setVertexBuffer
         | |- neutral _ (setUVs _ _ _ _ _ _ _ _) => unfold setUVs
         | |- neutral _ (setTargetUVs _ _) => unfold setTargetUVs
         | |- neutral _ resetUVs => unfold resetUVs
         | |- neutral _ (onCopySprite _ _ _) => unfold onCopySprite
         | |- neutral _ (onDrawSprite _ _) => unfold onDrawSprite
         | |- neutral _ getSwapTarget => unfold getSwapTarget
         | |- sameBlend ?p (set_gl (gl ?p ++ [_]) ?p) =>
             apply sameBlend_emit; discriminate
         | H : forall g q, sameBlend q (?hook g q) |- sameBlend ?p (?hook _ ?p) => apply H
         | H : forall g q, spriteData (?hook g q) = spriteData q
           |- sameData ?p (?hook _ ?p) => apply H
         | |- sameBlend _ _ => split; reflexivity
         | |- sameData _ _ => reflexivity
         end.

(** ** The blend mode in copySprite *)

(** The end of [copySprite], from the switch to ERASE on, run from a state
    [p1] that has the blend mode of [p0]. *)
Lemma copySprite_draw_ensures (eraseMode : bool) (Q : Completion unit -> Pipeline -> Prop)
    (p0 p1 : Pipeline) :
  sameBlend p0 p1 ->
  (forall p',
     Renderer.currentBlendMode (renderer p') = Renderer.currentBlendMode (renderer p0) ->
     blendCalls (gl p')
     = blendCalls (gl p0)
         ++ (if eraseMode then [ERASE; Renderer.currentBlendMode (renderer p0)] else []) ->
     (exists before data,
        gl p'
        = before
            ++ (if eraseMode then [renderer_setBlendMode ERASE] else [])
            ++ [gl_bufferData data; gl_drawArrays 0 6]
            ++ (if eraseMode
                then [renderer_setBlendMode (Renderer.currentBlendMode (renderer p0))]
                else [])
            ++ [gl_bindFramebuffer None]) ->
     Q (Normal tt) p') ->
  ensures
    (blendMode <- (if eraseMode then
                     r <- gets renderer ;;
                     let blendMode := Renderer.currentBlendMode r in
                     setBlendMode ERASE ;;
                     ret (Some blendMode)
                   else ret None) ;;
     data <- gets quadVertexViewF32 ;;
     emit (gl_bufferData (default [] data)) ;;
     emit (gl_drawArrays 0 6) ;;
     when eraseMode (
       match blendMode with
       | Some mode => setBlendMode mode
       | None => ret tt
       end) ;;
     emit (gl_bindFramebuffer None)) Q p1.
Proof.
  intros [Hb Hc] HQ. unfold ensures. step.
  destruct p1 as [r g sh ts cs ab ds cps gs qv md inc alt sb tb fs sd].
  destruct r as [bo w h bm st cr]. cbn in Hb, Hc.
  destruct eraseMode; cbn; apply HQ; cbn.
  - exact Hb.
  - rewrite !blendCalls_snoc, Hc, Hb, <- !app_assoc. cbn. reflexivity.
  - eexists g, _. rewrite Hb, <- !app_assoc. cbn. reflexivity.
  - exact Hb.
  - rewrite !blendCalls_snoc, Hc, <- !app_assoc. cbn. reflexivity.
  - eexists g, _. rewrite <- !app_assoc. cbn. reflexivity.
Qed.

(** C5.  Provided the sprite's [onFXCopy] hook leaves the blend mode alone:
    however [copySprite] ends, the renderer's blend mode afterwards is the
    one before the call.  Without [eraseMode], [setBlendMode] is not called
    at all.  With [eraseMode], a call that completes has called it twice,
    with ERASE just before the quad is drawn and with the previous mode just
    after; a call that throws had not switched yet.  Nothing here depends on
    the sizes of the two targets, zero included. *)
Theorem copySprite_restores_blend_mode
    (onFXCopy : GameObject -> Pipeline -> Pipeline)
    (source target : RenderTarget.t) (clear clearAlpha eraseMode : option bool)
    (shader : option Shader) (p : Pipeline) :
  (forall g q, sameBlend q (onFXCopy g q)) ->
  let call := copySprite onFXCopy source target clear clearAlpha eraseMode shader in
  let p' := stateAfter call p in
  let previous := Renderer.currentBlendMode (renderer p) in
  Renderer.currentBlendMode (renderer p') = previous
  /\ (orDefault eraseMode false = false -> blendCalls (gl p') = blendCalls (gl p))
  /\ (completion call p <> Normal tt -> blendCalls (gl p') = blendCalls (gl p))
  /\ (orDefault eraseMode false = true -> completion call p = Normal tt ->
      blendCalls (gl p') = blendCalls (gl p) ++ [ERASE; previous]
      /\ exists before data,
           gl p' = before ++ [ renderer_setBlendMode ERASE;
                               gl_bufferData data; gl_drawArrays 0 6;
                               renderer_setBlendMode previous;
                               gl_bindFramebuffer None ]).
Proof.
  intros Hhook call p' previous.
  set (Q := fun (c : Completion unit) (q : Pipeline) =>
    Renderer.currentBlendMode (renderer q) = previous
    /\ (orDefault eraseMode false = false -> blendCalls (gl q) = blendCalls (gl p))
    /\ (c <> Normal tt -> blendCalls (gl q) = blendCalls (gl p))
    /\ (orDefault eraseMode false = true -> c = Normal tt ->
        blendCalls (gl q) = blendCalls (gl p) ++ [ERASE; previous]
        /\ exists before data,
             gl q = before ++ [ renderer_setBlendMode ERASE;
                                gl_bufferData data; gl_drawArrays 0 6;
                                renderer_setBlendMode previous;
                                gl_bindFramebuffer None ])).
  change (ensures call Q p).
  assert (HT : forall e p1, sameBlend p p1 -> Q (Throw e) p1).
  { intros e p1 [Hb Hc]. unfold Q. split; [exact Hb|].
    split; [intros _; exact Hc|]. split; [intros _; exact Hc|].
    intros _ E. discriminate E. }
  unfold call, copySprite. cbv zeta.
  do 16 (eapply (ensures_neutral_bind sameBlend _ _ Q p);
         [ first [reflexivity | eassumption]
         | neutrality
         | intros ? ? ? | exact HT ]).
  apply (copySprite_draw_ensures _ Q p); [assumption|].
  intros q Hb Hc Hg. unfold Q. split; [exact Hb|]. split; [|split].
  - intros E. rewrite E in Hc. rewrite Hc. apply app_nil_r.
  - intros E. exfalso. apply E. reflexivity.
  - intros E _. rewrite E in Hc, Hg. split; [exact Hc|].
    destruct Hg as (before & data & Hg). exists before, data. exact Hg.
Qed.

Lemma copySprite_restores_blend_mode_witness :
  let empty := fullScreenTarget 0 0 0 in
  let call := copySprite noHook empty empty None None (Some true) None in
  completion call midDraw = Normal tt
  /\ Renderer.currentBlendMode (renderer (stateAfter call midDraw)) = NORMAL
  /\ blendCalls (gl (stateAfter call midDraw)) = [ERASE; NORMAL].
Proof.
  cbv zeta.
  pose proof (copySprite_restores_blend_mode noHook
                (fullScreenTarget 0 0 0) (fullScreenTarget 0 0 0)
                None None (Some true) None midDraw
                (fun g q => reflexivity q)) as H.
  cbv zeta in H. destruct H as (H1 & _ & _ & H4).
  assert (E : completion
                (copySprite noHook (fullScreenTarget 0 0 0) (fullScreenTarget 0 0 0)
                   None None (Some true) None) midDraw = Normal tt)
    by (vm_compute; reflexivity).
  split; [exact E|]. split.
  - rewrite H1. vm_compute. reflexivity.
  - destruct (H4 eq_refl E) as [H5 _]. rewrite H5. vm_compute. reflexivity.
Defined.

(** ** The sprite data over a draw *)

(** [bindAndDraw] returns, with the sprite and the texture forgotten. *)
Lemma bindAndDraw_clears source p :
  ensures (bindAndDraw source)
    (fun c q =>
       c = Normal tt
       /\ sprite (spriteData q) = None /\ texture (spriteData q) = None) p.
Proof.
  unfold bindAndDraw. cbv zeta.
  repeat match goal with
         | |- ensures (bind ?m _) _ _ =>
             lazymatch m with
             | modify _ => fail
             | _ =>
                 apply ensures_bind_returns;
                 [ unfold set1i, popFramebuffer, batchVert, flush, renderer_modify;
                   auto 10 with returns
                 | intros ? ? ]
             end
         end.
  unfold ensures, completion, stateAfter, bind, modify. cbn [fst snd].
  split; [reflexivity|]. split; reflexivity.
Qed.

Lemma onDraw_clears target swap p :
  ensures (onDraw target swap)
    (fun c q =>
       c = Normal tt
       /\ sprite (spriteData q) = None /\ texture (spriteData q) = None) p.
Proof.
  unfold onDraw, drawToGame.
  do 3 (apply ensures_bind_returns;
        [unfold setShader; auto 10 with returns | intros ? ?]).
  apply bindAndDraw_clears.
Qed.

(** With the data untouched since [p0], [bindAndDraw] leaves the data of
    [p0] less the sprite and the texture. *)
Lemma bindAndDraw_data source p0 p :
  sameData p0 p ->
  ensures (bindAndDraw source)
    (fun c q =>
       c = Normal tt
       /\ spriteData q = withTexture None (withSprite None (spriteData p0))) p.
Proof.
  intros H0. unfold bindAndDraw. cbv zeta.
  repeat match goal with
         | |- ensures (bind ?m _) _ _ =>
             lazymatch m with
             | modify _ => fail
             | _ =>
                 eapply (ensures_neutral_returns_bind sameData);
                 [ eassumption
                 | neutrality
                 | unfold set1i, popFramebuffer, batchVert, flush, renderer_modify;
                   auto 10 with returns
                 | intros ? ? ? ]
             end
         end.
  unfold ensures, completion, stateAfter, bind, modify. cbn [fst snd].
  split; [reflexivity|]. cbn.
  match goal with H : sameData p0 _ |- _ => rewrite H end. reflexivity.
Qed.

Lemma onDraw_data target swap p0 p :
  sameData p0 p ->
  ensures (onDraw target swap)
    (fun c q =>
       c = Normal tt
       /\ spriteData q = withTexture None (withSprite None (spriteData p0))) p.
Proof.
  intros H0. unfold onDraw, drawToGame.
  do 3 (eapply (ensures_neutral_returns_bind sameData);
        [ eassumption | neutrality
        | unfold setShader; auto 10 with returns | intros ? ? ? ]).
  apply bindAndDraw_data. assumption.
Qed.

(** C9.  A sprite draw that completes has, at its start, recorded the
    sprite and the index of the target chosen for the quad's size in
    [spriteData], and leaves [spriteData] with neither the sprite nor a
    texture: the default [onDraw] ends in [bindAndDraw], which clears
    both.  When the hooks do not write to [spriteData] themselves, the draw
    leaves it as it was before, the index of the chosen target apart: the
    pipeline writes no corner, UV or tint into it. *)
Theorem batchQuad_spriteData
    (onFX onBatch : GameObject -> Pipeline -> Pipeline)
    (gameObject : option GameObject)
    (x0 y0 x1 y1 x2 y2 x3 y3 u0 v0 u1 v1 : Q)
    (tintTL tintTR tintBL tintBR tintEffect : Z) (texture' : nat) (p : Pipeline) :
  let call := batchQuad onFX onBatch gameObject x0 y0 x1 y1 x2 y2 x3 y3 u0 v0 u1 v1
                tintTL tintTR tintBL tintBR tintEffect texture' in
  completion call p = Normal true ->
  (exists object target q,
     gameObject = Some object
     /\ batchQuad_begin gameObject x0 y0 x1 y1 x2 y2 x3 y3 p = (Normal (object, target), q)
     /\ sprite (spriteData q) = Some object
     /\ textureIndex (spriteData q)
        = targetIndex (quadSize (fxPadding object) x0 y0 x1 y1 x2 y2 x3 y3) p
     /\ item (renderTargets p) (textureIndex (spriteData q)) = Some target
     /\ ((forall g q, spriteData (onFX g q) = spriteData q) ->
         (forall g q, spriteData (onBatch g q) = spriteData q) ->
         spriteData (stateAfter call p)
         = drawn (textureIndex (spriteData q)) (spriteData p)))
  /\ sprite (spriteData (stateAfter call p)) = None
  /\ texture (spriteData (stateAfter call p)) = None.
Proof.
  intros call Hdone. split.
  - unfold call, batchQuad, completion in Hdone.
    destruct gameObject as [object|]; [|discriminate Hdone].
    pose proof (batchQuad_begin_eq object x0 y0 x1 y1 x2 y2 x3 y3 p) as E.
    cbv zeta in E.
    destruct (item (renderTargets p) _) as [target|] eqn:Ht;
      [|unfold bind in Hdone; rewrite E in Hdone; discriminate Hdone].
    exists object, target. eexists. split; [reflexivity|]. split; [exact E|].
    split; [reflexivity|]. split; [reflexivity|]. split; [exact Ht|].
    intros HFX HBatch. cbn [textureIndex begun set_spriteData spriteData withSprite].
    set (index := targetIndex _ p) in *.
    set (p1 := begun object target index _ p) in *.
    set (Q := fun (c : Completion bool) (q : Pipeline) =>
                c = Normal true -> spriteData q = drawn index (spriteData p)).
    assert (H : ensures call Q p); [|exact (H Hdone)].
    unfold call, batchQuad. apply ensures_bind. unfold ensures at 1.
    unfold completion at 1, stateAfter at 1. rewrite E. cbn [fst snd].
    unfold batchQuad_draw. cbv zeta.
    repeat match goal with
           | |- ensures (bind ?m _) _ _ =>
               lazymatch m with
               | onDraw _ _ => fail
               | _ =>
                   eapply (ensures_neutral_bind sameData _ _ Q p1);
                   [ first [reflexivity | eassumption]
                   | neutrality
                   | intros ? ? ?
                   | let T := fresh in intros ? ? ? T; discriminate T ]
               end
           end.
    apply ensures_bind.
    eapply ensures_weaken; [eapply (onDraw_data _ _ p1); eassumption|].
    intros c q (-> & Hq) _.
    change (spriteData q = drawn index (spriteData p)). rewrite Hq. reflexivity.
  - set (Q := fun (c : Completion bool) (q : Pipeline) =>
                c = Normal true ->
                sprite (spriteData q) = None /\ texture (spriteData q) = None).
    assert (H : ensures call Q p); [|exact (H Hdone)].
    unfold call, batchQuad.
    apply ensures_bind_any; [|intros ? ? H; discriminate H].
    intros started p1. unfold batchQuad_draw. cbv zeta.
    repeat match goal with
           | |- ensures (bind ?m _) _ _ =>
               lazymatch m with
               | onDraw _ _ => fail
               | _ => apply ensures_bind_any; [intros ? ? | intros ? ? H; discriminate H]
               end
           end.
    apply ensures_bind.
    eapply ensures_weaken; [apply onDraw_clears|].
    intros c q (-> & Hs & Ht) _. split; assumption.
Qed.

Lemma batchQuad_spriteData_witness :
  let call := batchQuad noHook noHook (Some {| objectId := 1; fxPadding := 10 |})
                0 0 0 130 130 130 130 0 0 0 1 1 0 0 0 0 0 7 in
  spriteData (stateAfter call (pipeline800x600 None None)) = drawn 4 emptySpriteData.
Proof.
  cbv zeta.
  pose proof (batchQuad_spriteData noHook noHook (Some {| objectId := 1; fxPadding := 10 |})
                0 0 0 130 130 130 130 0 0 0 1 1 0 0 0 0 0 7
                (pipeline800x600 None None) ltac:(vm_compute; reflexivity)) as H.
  cbv zeta in H. destruct H as ((object & target & q & Ho & _ & _ & Hi & _ & Hd) & _).
  injection Ho as <-. rewrite Hd by (intros; reflexivity). rewrite Hi.
  vm_compute. reflexivity.
Defined.

(** * Further properties *)

(** ** The targets boot creates *)

Lemma boot_bucket_handles i p :
  exists ts,
    boot_bucket i p
    = (Normal tt, grown ts (Renderer.created (renderer p) + length ts) p)
    /\ handles ts = seq (Renderer.created (renderer p)) (length ts).
Proof.
  unfold boot_bucket. step.
  destruct p as [r g sh ts cs ab ds cps gs qv md inc alt sb tb fs sd].
  destruct r as [bo w h bm st cr]. cbn.
  destruct alt; cbn.
  - exists [squareTarget (i * inc) cr; squareTarget (i * inc) (S cr);
            squareTarget (i * inc) (S (S cr))].
    unfold grown; cbn. rewrite <- !app_assoc.
    replace (cr + 3)%nat with (S (S (S cr))) by lia. split; reflexivity.
  - exists [squareTarget (i * inc) cr; squareTarget (i * inc) (S cr)].
    unfold grown; cbn. rewrite <- !app_assoc.
    replace (cr + 2)%nat with (S (S cr)) by lia. split; reflexivity.
Qed.

Lemma grown_created ts c p : Renderer.created (renderer (grown ts c p)) = c.
Proof. destruct p as [[]]; reflexivity. Qed.

Lemma boot_loop_handles fuel : forall i qty p,
  exists ts,
    boot_loop fuel i qty p
    = (Normal tt, grown ts (Renderer.created (renderer p) + length ts) p)
    /\ handles ts = seq (Renderer.created (renderer p)) (length ts).
Proof.
  induction fuel as [|fuel IH]; intros i qty p.
  - exists []. cbn. split; [|reflexivity].
    unfold ret, grown. destruct p as [r g sh ts cs ab ds cps gs qv md inc alt sb tb fs sd].
    destruct r; cbn. rewrite app_nil_r, Nat.add_0_r. reflexivity.
  - cbn [boot_loop]. destruct (Z.ltb_spec i qty) as [Hlt|Hge].
    + destruct (boot_bucket_handles i p) as (ts1 & E1 & D1).
      rewrite (bind_Normal _ _ _ _ _ E1).
      destruct (IH (i + 1) qty (grown ts1 (Renderer.created (renderer p) + length ts1) p))
        as (ts2 & E2 & D2).
      rewrite grown_created in E2, D2.
      exists (ts1 ++ ts2). rewrite E2, grown_grown, length_app, Nat.add_assoc.
      split; [reflexivity|].
      unfold handles in *. rewrite map_app, D1, D2, seq_app. reflexivity.
    + exists []. cbn. split; [|reflexivity].
      unfold ret, grown. destruct p as [r g sh ts cs ab ds cps gs qv md inc alt sb tb fs sd].
      destruct r; cbn. rewrite app_nil_r, Nat.add_0_r. reflexivity.
Qed.

Lemma boot_handles p :
  exists ts,
    renderTargets (stateAfter boot p) = renderTargets p ++ ts
    /\ handles ts = seq (Renderer.created (renderer p)) (length ts)
    /\ Renderer.created (renderer (stateAfter boot p))
       = (Renderer.created (renderer p) + length ts)%nat
    /\ fsTarget (stateAfter boot p) = last ts.
Proof.
  unfold boot. step.
  destruct (boot_loop_handles (Z.to_nat (boot_qty p)) 1 (boot_qty p)
     (set_gameShader (shaders p !! 2%nat)
        (set_copyShader (shaders p !! 1%nat)
           (set_drawSpriteShader (shaders p !! 0%nat) p))))
    as (ts & E & D).
  change (boot_qty (set_gameShader _ _)) with (boot_qty p).
  rewrite E. clear E. unfold onResize, grown. step.
  destruct p as [r g sh ts0 cs ab ds cps gs qv md inc alt sb tb fs sd].
  destruct r as [bo w h bm st cr].
  unfold handles in *. cbn in D |- *.
  destruct alt; cbn.
  - exists (ts ++ [fullScreenTarget w h (cr + length ts);
                   fullScreenTarget w h (S (cr + length ts));
                   fullScreenTarget w h (S (S (cr + length ts)));
                   fullScreenTarget w h (S (S (S (cr + length ts))))]).
    rewrite <- !app_assoc, map_app, D, length_app, seq_app, last_app. cbn.
    repeat split; try reflexivity. lia.
  - exists (ts ++ [fullScreenTarget w h (cr + length ts);
                   fullScreenTarget w h (S (cr + length ts));
                   fullScreenTarget w h (S (S (cr + length ts)))]).
    rewrite <- !app_assoc, map_app, D, length_app, seq_app, last_app. cbn.
    repeat split; try reflexivity. lia.
Qed.

Lemma initialize_Booted config r :
  Renderer.isBooted r = true ->
  0 < Renderer.width r -> 0 < Renderer.height r ->
  0 < frameInc (construct config r) ->
  Booted (initialize config r) (Z.to_nat (boot_qty (construct config r) - 1)).
Proof.
  intros Hb Hw Hh Hinc.
  destruct (initialize_Ladder config r Hb Hw Hh Hinc) as (L & _ & _).
  split; [exact L | |]; unfold initialize; rewrite Hb;
    destruct (boot_handles (construct config r)) as (ts & E & D & _ & F);
    cbn [renderTargets construct app] in E.
  - rewrite E, D. apply NoDup_seq.
  - rewrite E. exact F.
Qed.

(** The scratch target of a booted pipeline exists and has the size of the
    viewport. *)
Lemma Booted_scratch p n :
  Booted p n ->
  exists scratch,
    fsTarget p = Some scratch
    /\ dims scratch = (Renderer.width (renderer p), Renderer.height (renderer p)).
Proof.
  intros [L N F].
  pose proof (Ladder_length _ _ L) as Hlen.
  rewrite last_lookup, Hlen in F.
  destruct (Ladder_tier p n (offsetOf p) L) as (scratch & Hs & Hd); [lia|].
  rewrite <- Nat2Z.inj_mul, <- Nat2Z.inj_add, item_nat in Hs.
  replace (Init.Nat.pred (n * offsetOf p + offsetOf p + 1))
    with (n * offsetOf p + offsetOf p)%nat in F by lia.
  rewrite Hs in F. exists scratch. split; assumption.
Qed.

Lemma handles_lookup (ts : list RenderTarget.t) (i j : nat) t t' :
  NoDup (handles ts) -> ts !! i = Some t -> ts !! j = Some t' -> i <> j ->
  RenderTarget.texture t <> RenderTarget.texture t'.
Proof.
  intros N Hi Hj Hne E. apply Hne.
  apply (NoDup_lookup _ i j (RenderTarget.texture t) N); unfold handles;
    change (map RenderTarget.texture ts) with (RenderTarget.texture <$> ts);
    rewrite list_lookup_fmap; [rewrite Hi | rewrite Hj, E]; reflexivity.
Qed.

Lemma item_handles (ts : list RenderTarget.t) (i j : Z) t t' :
  NoDup (handles ts) -> item ts i = Some t -> item ts j = Some t' -> i <> j ->
  RenderTarget.texture t <> RenderTarget.texture t'.
Proof.
  unfold item. intros N Hi Hj Hne.
  destruct (Z.ltb_spec i 0); [discriminate|].
  destruct (Z.ltb_spec j 0); [discriminate|].
  apply (handles_lookup ts (Z.to_nat i) (Z.to_nat j)); auto. lia.
Qed.



Lemma getSwapTarget_selected index p :
  getSwapTarget (selected index p)
  = (Normal (item (renderTargets p) (index + 1)), selected index p).
Proof. unfold getSwapTarget, selected. step. destruct p; reflexivity. Qed.

Lemma getAltSwapTarget_selected index p :
  altFrame p = true ->
  getAltSwapTarget (selected index p)
  = (Normal (item (renderTargets p) (index + 2)), selected index p).
Proof.
  intros H. unfold getAltSwapTarget, selected. step.
  destruct p; cbn in *. subst. reflexivity.
Qed.

(** ** The siblings of the selected target *)

(** X2.  On a booted pipeline whose step is at most 64, after
    [getSpriteTarget] has chosen the target for a positive size,
    [getSwapTarget] returns a target that exists, has the dimensions of
    the chosen one and is a different GPU object.  With [altFrame],
    [getAltSwapTarget] returns a third object, different from both. *)
Theorem getSwapTarget_sibling (p : Pipeline) (n : nat) (s : Q) :
  Booted p n -> 0 < frameInc p <= 64 -> (0 < s)%Q ->
  exists t t',
    completion (getSpriteTarget s) p = Normal (Some t)
    /\ completion getSwapTarget (stateAfter (getSpriteTarget s) p) = Normal (Some t')
    /\ RenderTarget.sameSize t' t
    /\ RenderTarget.texture t' <> RenderTarget.texture t
    /\ (altFrame p = true ->
        exists t'',
          completion getAltSwapTarget (stateAfter (getSpriteTarget s) p)
          = Normal (Some t'')
          /\ RenderTarget.texture t'' <> RenderTarget.texture t
          /\ RenderTarget.texture t'' <> RenderTarget.texture t').
Proof.
  intros [L N _] Hinc Hs.
  assert (Hsel : forall index t t',
             getSpriteTarget s p = (Normal (Some t), selected index p) ->
             item (renderTargets p) index = Some t ->
             item (renderTargets p) (index + 1) = Some t' ->
             dims t' = dims t ->
             (altFrame p = true ->
              exists t'', item (renderTargets p) (index + 2) = Some t'') ->
             exists t t',
               completion (getSpriteTarget s) p = Normal (Some t)
               /\ completion getSwapTarget (stateAfter (getSpriteTarget s) p)
                  = Normal (Some t')
               /\ RenderTarget.sameSize t' t
               /\ RenderTarget.texture t' <> RenderTarget.texture t
               /\ (altFrame p = true ->
                   exists t'',
                     completion getAltSwapTarget (stateAfter (getSpriteTarget s) p)
                     = Normal (Some t'')
                     /\ RenderTarget.texture t'' <> RenderTarget.texture t
                     /\ RenderTarget.texture t'' <> RenderTarget.texture t')).
  { intros index t t' E Ht Ht' Hd Halt. exists t, t'.
    unfold completion, stateAfter. rewrite E. cbn [fst snd].
    rewrite getSwapTarget_selected, Ht'. cbn [fst].
    split; [reflexivity|]. split; [reflexivity|].
    split; [injection Hd as Hw Hh; split; assumption|].
    split; [apply (item_handles _ (index + 1) index _ _ N Ht' Ht); lia|].
    intros Ha. destruct (Halt Ha) as (t'' & Ht'').
    exists t''. rewrite (getAltSwapTarget_selected _ _ Ha), Ht''.
    split; [reflexivity|].
    split; [apply (item_handles _ (index + 2) index _ _ N Ht'' Ht)
           |apply (item_handles _ (index + 2) (index + 1) _ _ N Ht'' Ht')]; lia. }
  assert (Ho : altFrame p = true -> offsetOf p = 3%nat)
    by (unfold offsetOf; intros ->; reflexivity).
  pose proof (offsetOf_pos p) as Hoff.
  destruct (Qlt_le_dec (inject_Z (maxDimension p)) s) as [Hbig|Hfit].
  - destruct (getSpriteTarget_fullscreen p n s L Hbig) as (t & E & Hd).
    destruct (Ladder_tier p n 2 L) as (t' & Ht' & Hd'); [lia|].
    pose proof E as E'. rewrite getSpriteTarget_eq in E'.
    injection E' as Ht Hsl.
    assert (Hidx : targetIndex s p = Z.of_nat n * Z.of_nat (offsetOf p) + 1).
    { unfold targetIndex. destruct (Qlt_le_dec (inject_Z (maxDimension p)) s) as [_|C].
      - rewrite (Ladder_length _ _ L). lia.
      - exfalso. eapply Qlt_not_le; eassumption. }
    rewrite Hidx in Ht.
    apply (Hsel _ t t' E Ht); [rewrite <- Ht'; f_equal; lia | congruence |].
    intros Ha. destruct (Ladder_tier p n 3 L) as (t'' & Ht'' & _); [rewrite (Ho Ha); lia|].
    exists t''. rewrite <- Ht''. f_equal. lia.
  - destruct (getSpriteTarget_ladder p n s L Hinc Hs Hfit) as (t & E & Hd).
    pose proof (bucket_in_ladder p n s L Hinc Hs Hfit) as Hb.
    destruct (Ladder_bucket p n (SnapCeil s 64) 1 L Hb) as (t' & Ht' & Hd'); [lia|].
    pose proof E as E'. rewrite getSpriteTarget_eq in E'.
    injection E' as Ht Hsl.
    assert (Hidx : targetIndex s p = (SnapCeil s 64 - 1) * Z.of_nat (offsetOf p)).
    { unfold targetIndex. destruct (Qlt_le_dec (inject_Z (maxDimension p)) s) as [C|_].
      - exfalso. eapply Qlt_not_le; eassumption.
      - reflexivity. }
    rewrite Hidx in Ht.
    apply (Hsel _ t t' E Ht); [exact Ht' | congruence |].
    intros Ha.
    destruct (Ladder_bucket p n (SnapCeil s 64) 2 L Hb) as (t'' & Ht'' & _);
      [rewrite (Ho Ha); lia|].
    exists t''. exact Ht''.
Qed.

Lemma getSwapTarget_sibling_witness :
  let p := pipeline800x600 None (Some true) in
  exists t t',
    completion (getSpriteTarget 150) p = Normal (Some t)
    /\ completion getSwapTarget (stateAfter (getSpriteTarget 150) p) = Normal (Some t')
    /\ RenderTarget.sameSize t' t
    /\ RenderTarget.texture t' <> RenderTarget.texture t.
Proof.
  cbv zeta.
  pose proof (initialize_Booted (configOf None (Some true)) (bootedRenderer 800 600)
                ltac:(reflexivity) ltac:(reflexivity) ltac:(reflexivity)
                ltac:(reflexivity)) as B.
  destruct (getSwapTarget_sibling (pipeline800x600 None (Some true)) _ 150%Q B
              ltac:(vm_compute; split; [reflexivity | discriminate])
              ltac:(reflexivity)) as (t & t' & H1 & H2 & H3 & H4 & _).
  exists t, t'. auto.
Defined.

(** X3.  For a size beyond [maxDimension] on a booted pipeline,
    whatever its step, [getSpriteTarget] returns a target of the
    viewport's dimensions that is not the scratch target [fsTarget]; but
    the last sibling of that target is [fsTarget] itself: without
    [altFrame] it is what [getSwapTarget] returns, with [altFrame] what
    [getAltSwapTarget] returns. *)
Theorem oversized_swap_is_scratch (p : Pipeline) (n : nat) (s : Q) :
  Booted p n -> (inject_Z (maxDimension p) < s)%Q ->
  exists t scratch,
    completion (getSpriteTarget s) p = Normal (Some t)
    /\ dims t = (Renderer.width (renderer p), Renderer.height (renderer p))
    /\ fsTarget p = Some scratch
    /\ RenderTarget.texture t <> RenderTarget.texture scratch
    /\ (altFrame p = false ->
        completion getSwapTarget (stateAfter (getSpriteTarget s) p)
        = Normal (Some scratch))
    /\ (altFrame p = true ->
        completion getAltSwapTarget (stateAfter (getSpriteTarget s) p)
        = Normal (Some scratch)).
Proof.
  intros [L N F] Hbig.
  destruct (getSpriteTarget_fullscreen p n s L Hbig) as (t & E & Hd).
  pose proof (Ladder_length _ _ L) as Hlen.
  pose proof (offsetOf_pos p) as Hoff.
  rewrite last_lookup, Hlen in F.
  destruct (Ladder_tier p n (offsetOf p) L) as (scratch & Hs & _); [lia|].
  pose proof E as E'. rewrite getSpriteTarget_eq in E'. injection E' as Ht Hsl.
  assert (Hidx : targetIndex s p = Z.of_nat n * Z.of_nat (offsetOf p) + 1).
  { unfold targetIndex. destruct (Qlt_le_dec (inject_Z (maxDimension p)) s) as [_|C].
    - rewrite Hlen. lia.
    - exfalso. eapply Qlt_not_le; eassumption. }
  rewrite Hidx in Ht.
  assert (Hne : RenderTarget.texture t <> RenderTarget.texture scratch)
    by (apply (item_handles _ _ _ _ _ N Ht Hs); lia).
  rewrite <- Nat2Z.inj_mul, <- Nat2Z.inj_add, item_nat in Hs.
  replace (Init.Nat.pred (n * offsetOf p + offsetOf p + 1))
    with (n * offsetOf p + offsetOf p)%nat in F by lia.
  rewrite Hs in F. exists t, scratch.
  unfold stateAfter. rewrite E. cbn [snd]. unfold completion. rewrite E. cbn [fst].
  split; [reflexivity|]. split; [exact Hd|]. split; [exact F|]. split; [exact Hne|].
  split; intros Ha.
  - rewrite getSwapTarget_selected. cbn [fst]. rewrite <- Hs, <- item_nat.
    do 2 f_equal. unfold offsetOf. rewrite Ha. lia.
  - rewrite (getAltSwapTarget_selected _ _ Ha). cbn [fst]. rewrite <- Hs, <- item_nat.
    do 2 f_equal. unfold offsetOf. rewrite Ha. lia.
Qed.

Lemma oversized_swap_is_scratch_witness :
  let p := pipeline800x600 None None in
  exists scratch,
    fsTarget p = Some scratch
    /\ completion getSwapTarget (stateAfter (getSpriteTarget 700) p)
       = Normal (Some scratch).
Proof.
  cbv zeta.
  pose proof (initialize_Booted (configOf None None) (bootedRenderer 800 600)
                ltac:(reflexivity) ltac:(reflexivity) ltac:(reflexivity)
                ltac:(reflexivity)) as B.
  destruct (oversized_swap_is_scratch (pipeline800x600 None None) _ 700%Q B
              ltac:(vm_compute; reflexivity)) as (t & scratch & _ & _ & H1 & _ & H2 & _).
  exists scratch. split; [exact H1|]. apply H2. vm_compute. reflexivity.
Defined.

Lemma SnapCeil_tight (s gap : Q) :
  (0 < gap)%Q -> (inject_Z (SnapCeil s gap - 1) * gap < s)%Q.
Proof.
  intros Hg. unfold SnapCeil.
  pose proof (Qceiling_lt (s / gap)) as Hc.
  apply (Qmult_lt_compat_r _ _ gap) in Hc; [|exact Hg].
  eapply Qlt_le_trans; [exact Hc|].
  unfold Qdiv. rewrite <- Qmult_assoc, (Qmult_comm (/ gap)), Qmult_inv_r, Qmult_1_r.
  - apply Qle_refl.
  - intros E. rewrite E in Hg. discriminate.
Qed.

(** ** The size of the selected target *)

(** X4.  With the default step of 64, on a booted pipeline, the target
    [getSpriteTarget] returns for a size [s] between 0 (excluded) and
    [maxDimension] is a square whose side is the least multiple of 64 that
    is at least [s]: the side is [b * 64] with [(b - 1) * 64 < s <= b * 64]. *)
Theorem getSpriteTarget_snug (p : Pipeline) (n : nat) (s : Q) :
  Ladder p n -> frameInc p = 64 ->
  (0 < s)%Q -> (s <= inject_Z (maxDimension p))%Q ->
  exists t b,
    completion (getSpriteTarget s) p = Normal (Some t)
    /\ RenderTarget.isSquare (b * 64) t
    /\ (inject_Z ((b - 1) * 64) < s)%Q /\ (s <= inject_Z (b * 64))%Q.
Proof.
  intros L Hinc Hs Hfit.
  destruct (getSpriteTarget_ladder p n s L) as (t & E & Hd); try assumption; [lia|].
  exists t, (SnapCeil s 64). unfold completion. rewrite E. cbn [fst].
  rewrite Hinc in Hd. injection Hd as Hw Hh.
  split; [reflexivity|]. split; [split; assumption|].
  rewrite !inject_Z_mult. split.
  - apply (SnapCeil_tight s 64). reflexivity.
  - apply (SnapCeil_fits s 64). reflexivity.
Qed.

Lemma getSpriteTarget_snug_witness :
  exists t b,
    completion (getSpriteTarget 150) (pipeline800x600 None None) = Normal (Some t)
    /\ RenderTarget.isSquare (b * 64) t
    /\ (inject_Z ((b - 1) * 64) < 150)%Q /\ (150 <= inject_Z (b * 64))%Q.
Proof.
  destruct (initialize_Ladder (configOf None None) (bootedRenderer 800 600))
    as (L & Hi & Ha); [reflexivity | reflexivity | reflexivity | reflexivity |].
  apply (getSpriteTarget_snug _ _ 150%Q L);
    [reflexivity | reflexivity | vm_compute; discriminate].
Defined.

Lemma selected_textureIndex index p : textureIndex (spriteData (selected index p)) = index.
Proof. destruct p as [? ? ? ? ? ? ? ? ? ? ? ? ? ? ? ? []]; reflexivity. Qed.

(** X5.  On a booted pipeline whose step is at most 64, the index
    [getSpriteTarget] records never decreases when the size grows; and as
    long as the larger size is within [maxDimension], neither do the
    width and the height of the target returned. *)
Theorem getSpriteTarget_monotone (p : Pipeline) (n : nat) (s1 s2 : Q) :
  Ladder p n -> 0 < frameInc p <= 64 -> (0 < s1)%Q -> (s1 <= s2)%Q ->
  textureIndex (spriteData (stateAfter (getSpriteTarget s1) p))
  <= textureIndex (spriteData (stateAfter (getSpriteTarget s2) p))
  /\ ((s2 <= inject_Z (maxDimension p))%Q ->
      exists t1 t2,
        completion (getSpriteTarget s1) p = Normal (Some t1)
        /\ completion (getSpriteTarget s2) p = Normal (Some t2)
        /\ RenderTarget.width t1 <= RenderTarget.width t2
        /\ RenderTarget.height t1 <= RenderTarget.height t2).
Proof.
  intros L Hinc Hs1 Hle. split.
  - unfold stateAfter. rewrite !getSpriteTarget_eq. cbn [snd].
    rewrite !selected_textureIndex. eapply targetIndex_mono; eassumption.
  - intros Hfit.
    assert (Hs2 : (0 < s2)%Q) by (eapply Qlt_le_trans; eassumption).
    assert (Hfit1 : (s1 <= inject_Z (maxDimension p))%Q) by (eapply Qle_trans; eassumption).
    destruct (getSpriteTarget_ladder p n s1 L Hinc Hs1 Hfit1) as (t1 & E1 & D1).
    destruct (getSpriteTarget_ladder p n s2 L Hinc Hs2 Hfit) as (t2 & E2 & D2).
    exists t1, t2. unfold completion. rewrite E1, E2. cbn [fst].
    injection D1 as W1 H1. injection D2 as W2 H2.
    assert (SnapCeil s1 64 <= SnapCeil s2 64) by (apply SnapCeil_mono; [reflexivity|assumption]).
    repeat split; nia.
Qed.

Lemma getSpriteTarget_monotone_witness :
  let p := pipeline800x600 (Some 32%Q) None in
  textureIndex (spriteData (stateAfter (getSpriteTarget 100) p))
  <= textureIndex (spriteData (stateAfter (getSpriteTarget 300) p)).
Proof.
  cbv zeta.
  destruct (initialize_Ladder (configOf (Some 32%Q) None) (bootedRenderer 800 600))
    as (L & Hi & Ha); [reflexivity | reflexivity | reflexivity | reflexivity |].
  apply (getSpriteTarget_monotone _ _ 100%Q 300%Q L);
    [vm_compute; split; [reflexivity | discriminate] | reflexivity | vm_compute; discriminate].
Defined.

(** ** The alt swap target *)






Lemma ladderSizes_bound siblings inc i n d :
  d ∈ ladderSizes siblings inc i n ->
  exists b, i <= b < i + Z.of_nat n /\ d = (b * inc, b * inc).
Proof.
  revert i. induction n as [|n IH]; intros i H; cbn in H.
  - apply elem_of_nil in H. contradiction.
  - apply elem_of_app in H. destruct H as [H|H].
    + apply elem_of_replicate in H. destruct H as [-> _]. exists i. split; [lia|reflexivity].
    + destruct (IH _ H) as (b & Hb & ->). exists b. split; [lia|reflexivity].
Qed.

Lemma boot_qty_bounds p :
  0 < frameInc p ->
  (boot_qty p - 1) * frameInc p
  < Z.min (Renderer.width (renderer p)) (Renderer.height (renderer p))
  <= boot_qty p * frameInc p.
Proof.
  intros Hinc. unfold boot_qty.
  set (m := Z.min _ _).
  assert (Hg : (0 < inject_Z (frameInc p))%Q) by (unfold Qlt; cbn; lia).
  pose proof (SnapCeil_tight (inject_Z m) _ Hg) as H1.
  pose proof (SnapCeil_fits (inject_Z m) _ Hg) as H2.
  unfold SnapCeil in *.
  rewrite <- inject_Z_mult in H1, H2.
  rewrite <- Zlt_Qlt in H1. rewrite <- Zle_Qle in H2. lia.
Qed.

(** ** The ladder and the viewport *)

(** X6.  After [boot] on a pipeline without targets and with a positive
    step, [maxDimension] is strictly below the smaller side of the
    viewport and at most one step away from it, and every target of the
    list is at most as wide and as high as the viewport. *)
Theorem boot_targets_within_viewport (p : Pipeline) :
  renderTargets p = [] -> 0 < frameInc p ->
  let p' := stateAfter boot p in
  let smaller := Z.min (Renderer.width (renderer p')) (Renderer.height (renderer p')) in
  maxDimension p' < smaller <= maxDimension p' + frameInc p'
  /\ Forall (fun t => RenderTarget.width t <= Renderer.width (renderer p')
                      /\ RenderTarget.height t <= Renderer.height (renderer p'))
       (renderTargets p').
Proof.
  intros Hts Hinc. cbv zeta.
  destruct (boot_spec p) as (q & ladder & tier & scratch & Eq & R).
  assert (Hq : stateAfter boot p = q) by (unfold stateAfter; rewrite Eq; reflexivity).
  rewrite Hq. destruct R as [RT LD _ TD _ SD _ MD FI _ W H _ _ _ _].
  pose proof (boot_qty_bounds p Hinc) as Hb.
  rewrite MD, FI, W, H. split; [lia|].
  rewrite RT, Hts. cbn [app]. rewrite !Forall_app. split; [|split].
  - apply Forall_forall. intros t Ht.
    assert (Hd : dims t ∈ map dims ladder).
    { change (map dims ladder) with (dims <$> ladder). apply list_elem_of_fmap_2, Ht. }
    rewrite LD in Hd. apply ladderSizes_bound in Hd. destruct Hd as (b & Hb' & E).
    injection E as -> ->. split; nia.
  - apply Forall_forall. intros t Ht.
    assert (Hd : dims t ∈ map dims tier).
    { change (map dims tier) with (dims <$> tier). apply list_elem_of_fmap_2, Ht. }
    rewrite TD in Hd. apply elem_of_replicate in Hd. destruct Hd as [E _].
    injection E as -> ->. split; lia.
  - constructor; [|constructor]. injection SD as -> ->. split; lia.
Qed.

Lemma boot_targets_within_viewport_witness :
  let p' := stateAfter boot (construct (configOf None None) (bootedRenderer 800 600)) in
  maxDimension p' < 600 <= maxDimension p' + 64.
Proof.
  cbv zeta.
  destruct (boot_targets_within_viewport
              (construct (configOf None None) (bootedRenderer 800 600))
              ltac:(reflexivity) ltac:(reflexivity)) as (H & _).
  exact H.
Defined.

(** ** The vertices of a draw *)

Arguments batchedVertices : simpl never.

#[local] Instance quietly_PreOrder : PreOrder quietly.
Proof.
  split.
  - intros p. repeat split.
  - intros p0 p1 p2 (A1 & B1 & C1) (A2 & B2 & C2). repeat split; congruence.
Qed.

Lemma batchedVertices_snoc l c :
  batchedVertices (l ++ [c])
  = batchedVertices l
    ++ match c with pipeline_batchVert x y u v _ _ _ => [(x, y, u, v)] | _ => [] end.
Proof. unfold batchedVertices. rewrite omap_app. destruct c; reflexivity. Qed.

Lemma quietly_emit (c : Command) p :
  (forall x y u v a b t, c <> pipeline_batchVert x y u v a b t) ->
  quietly p (set_gl (gl p ++ [c]) p).
Proof.
  intros Hc. split; [|split; reflexivity]. cbn. rewrite batchedVertices_snoc.
  destruct c; try apply app_nil_r. exfalso. eapply Hc. reflexivity.
Qed.

Lemma batched_quietly vs p0 p q : batched vs p0 p -> quietly p q -> batched vs p0 q.
Proof. intros (A & B & C) (A' & B' & C'). repeat split; congruence. Qed.

Lemma batched_refl p : batched [] p p.
Proof. split; [rewrite app_nil_r|split]; reflexivity. Qed.

(** A statement that keeps the assertion [I]. *)
Lemma ensures_keep_bind {A B : Type} (I : Pipeline -> Prop)
    (R : Pipeline -> Pipeline -> Prop) (m : M A) (k : A -> M B) Q p :
  I p -> (forall q q', I q -> R q q' -> I q') -> neutral R m ->
  (forall a p1, I p1 -> ensures (k a) Q p1) ->
  (forall e p1, I p1 -> Q (Throw e) p1) ->
  ensures (bind m k) Q p.
Proof.
  intros H0 HR Hm Hk He. apply ensures_bind. unfold ensures at 1.
  assert (H1 : I (stateAfter m p)) by (eapply HR; [exact H0 | apply Hm]).
  destruct (completion m p); auto.
Qed.

Lemma returns_ret {A : Type} (a : A) : returns (ret a).
Proof. intros p. eexists. reflexivity. Qed.

#[local] Hint Resolve returns_ret : returns.

(** The same for a statement that cannot throw. *)
Lemma ensures_keep_returns_bind {A B : Type} (I : Pipeline -> Prop)
    (R : Pipeline -> Pipeline -> Prop) (m : M A) (k : A -> M B) Q p :
  I p -> (forall q q', I q -> R q q' -> I q') -> neutral R m -> returns m ->
  (forall a p1, I p1 -> ensures (k a) Q p1) ->
  ensures (bind m k) Q p.
Proof.
  intros H0 HR Hm Hr Hk. apply ensures_bind. unfold ensures at 1.
  assert (H1 : I (stateAfter m p)) by (eapply HR; [exact H0 | apply Hm]).
  destruct (Hr p) as (a & E). rewrite E. auto.
Qed.

(** Proves that a statement of the passes returns. *)
Ltac returning :=
  unfold setShader, set1i, batchVert, flush, popFramebuffer, renderer_modify,
    onDrawSprite, onCopySprite, getSwapTarget, setBlendMode;
  solve [auto 10 with returns].

Lemma ensures_gets_bind {A B : Type} (f : Pipeline -> A) (k : A -> M B) Q p :
  ensures (k (f p)) Q p -> ensures (bind (gets f) k) Q p.
Proof. intros H. apply ensures_bind. exact H. Qed.

Lemma ensures_deref_bind {A B : Type} (a : A) (k : A -> M B) Q p :
  ensures (k a) Q p -> ensures (bind (deref (Some a)) k) Q p.
Proof. intros H. apply ensures_bind. exact H. Qed.

Lemma ensures_batchVert_bind {B : Type} vs p0 x y u v a b t (k : unit -> M B) Q p :
  batched vs p0 p ->
  (forall p1, batched (vs ++ [(x, y, u, v)]) p0 p1 -> ensures (k tt) Q p1) ->
  ensures (bind (batchVert x y u v a b t) k) Q p.
Proof.
  intros (A1 & B1 & C1) Hk. apply ensures_bind. unfold ensures at 1.
  apply Hk. unfold batchVert, emit, stateAfter, modify. cbn [snd].
  split; [|split; assumption]. cbn. rewrite batchedVertices_snoc, A1, app_assoc.
  reflexivity.
Qed.

(** Closes the goals [neutrality] leaves for [quietly]. *)
Ltac quiet :=
  neutrality;
  try match goal with
      | |- quietly ?p (set_gl (gl ?p ++ [_]) ?p) =>
          apply quietly_emit; intros; discriminate
      | H : forall g q, quietly q (?hook g q) |- quietly ?p (?hook _ ?p) => apply H
      | |- quietly _ _ => repeat split
      end.

(** Goes through the statements that come before [onDraw]. *)
Ltac advance :=
  repeat match goal with
         | |- ensures (bind ?m _) _ _ =>
             lazymatch m with
             | onDraw _ _ => fail
             | gets fsTarget =>
                 apply ensures_gets_bind; cbv beta;
                 match goal with
                 | H : batched _ _ ?p |- ensures _ _ ?p =>
                   let E := fresh in
                   pose proof H as (_ & _ & E); rewrite E; clear E
                 end
             | gets targetBounds =>
                 apply ensures_gets_bind; cbv beta;
                 match goal with
                 | H : batched _ _ ?p |- ensures _ _ ?p =>
                   let E := fresh in
                   pose proof H as (_ & E & _); rewrite E; clear E
                 end
             | deref (Some _) => apply ensures_deref_bind
             | batchVert _ _ _ _ _ _ _ =>
                 eapply ensures_batchVert_bind; [eassumption|];
                 let p1 := fresh "p" in let H := fresh "H" in
                 intros p1 H;
                 match goal with H' : batched _ _ _ |- _ =>
                   tryif constr_eq H H' then fail else clear H' end
             | _ =>
                 eapply (ensures_keep_returns_bind (batched _ _) quietly);
                 [ eassumption
                 | apply batched_quietly
                 | quiet
                 | returning
                 | let p1 := fresh "p" in let H := fresh "H" in
                   intros ? p1 H;
                   match goal with H' : batched _ _ _ |- _ =>
                     tryif constr_eq H H' then fail else clear H' end ]
             end
         end.

Lemma bindAndDraw_batched source vs p0 p :
  batched vs p0 p ->
  ensures (bindAndDraw source)
    (fun c q =>
       c = Normal tt
       /\ exists blit,
            batched (vs ++ blit) p0 q
            /\ Forall2 sameVertex blit
                 (fullQuad (Rectangle.x (targetBounds p0)) (Rectangle.y (targetBounds p0))
                    (inject_Z (RenderTarget.width source))
                    (inject_Z (RenderTarget.height source)))) p.
Proof.
  intros H0. unfold bindAndDraw. cbv zeta.
  advance.
  unfold ensures, completion, stateAfter, modify. cbn [fst snd].
  split; [reflexivity|].
  rewrite <- !app_assoc in H. cbn [app] in H.
  eexists. split; [eapply batched_quietly; [exact H | repeat split]|].
  unfold fullQuad, TransformMatrix.getX, TransformMatrix.getY.
  repeat constructor; cbn; ring.
Qed.

Lemma onDraw_batched target swap vs p0 p :
  batched vs p0 p ->
  ensures (onDraw target swap)
    (fun c q =>
       c = Normal tt
       /\ exists blit,
            batched (vs ++ blit) p0 q
            /\ Forall2 sameVertex blit
                 (fullQuad (Rectangle.x (targetBounds p0)) (Rectangle.y (targetBounds p0))
                    (inject_Z (RenderTarget.width target))
                    (inject_Z (RenderTarget.height target)))) p.
Proof.
  intros H0. unfold onDraw, drawToGame.
  advance. apply bindAndDraw_batched. assumption.
Qed.

Lemma batchQuad_draw_batched
    (onFX onBatch : GameObject -> Pipeline -> Pipeline)
    object target (x0 y0 x1 y1 x2 y2 x3 y3 u0 v0 u1 v1 : Q)
    (tintTL tintTR tintBL tintBR tintEffect : Z) (texture' : nat) scratch vs p0 p :
  (forall g q, quietly q (onFX g q)) ->
  (forall g q, quietly q (onBatch g q)) ->
  fsTarget p0 = Some scratch ->
  batched vs p0 p ->
  ensures (batchQuad_draw onFX onBatch object target x0 y0 x1 y1 x2 y2 x3 y3 u0 v0 u1 v1
             tintTL tintTR tintBL tintBR tintEffect texture')
    (fun c q =>
       c = Normal true
       /\ exists blit,
            batched (vs ++ spriteQuad x0 y0 x1 y1 x2 y2 x3 y3 u0 v0 u1 v1 ++ blit) p0 q
            /\ Forall2 sameVertex blit
                 (fullQuad (Rectangle.x (targetBounds p0)) (Rectangle.y (targetBounds p0))
                    (inject_Z (RenderTarget.width target))
                    (inject_Z (RenderTarget.height target)))) p.
Proof.
  intros HFX HBatch Hfs H0.
  unfold batchQuad_draw. cbv zeta.
  advance. rewrite Hfs. advance.
  apply ensures_bind. eapply ensures_weaken; [apply onDraw_batched; eassumption|].
  intros c q (-> & blit & Hb & Hv). unfold ensures, completion, stateAfter, ret.
  cbn [fst snd]. split; [reflexivity|].
  exists blit. rewrite <- !app_assoc in Hb. split; assumption.
Qed.

Lemma sameVertex_trans a b c : sameVertex a b -> sameVertex b c -> sameVertex a c.
Proof.
  destruct a as [[[x y] u] v], b as [[[x' y'] u'] v'], c as [[[x'' y''] u''] v''].
  cbn. intros (A1 & A2 & A3 & A4) (B1 & B2 & B3 & B4).
  repeat split; etransitivity; eassumption.
Qed.

Lemma sameVertices_trans l m n :
  Forall2 sameVertex l m -> Forall2 sameVertex m n -> Forall2 sameVertex l n.
Proof.
  intros H. revert n. induction H as [|a b l m Hab _ IH]; intros n Hn.
  - inversion Hn. constructor.
  - inversion Hn as [|b' c m' n' Hbc Hmn]; subst.
    constructor; [eapply sameVertex_trans; eassumption | apply IH; assumption].
Qed.

Lemma fullQuad_comp (x y x' y' w h : Q) :
  x == x' -> y == y' -> Forall2 sameVertex (fullQuad x y w h) (fullQuad x' y' w h).
Proof.
  intros Hx Hy. unfold fullQuad. repeat constructor; cbn; rewrite ?Hx, ?Hy; reflexivity.
Qed.

Lemma begun_fields object t index bounds p :
  gl (begun object t index bounds p) = gl p
  /\ fsTarget (begun object t index bounds p) = fsTarget p
  /\ targetBounds (begun object t index bounds p)
     = Rectangle.CenterOn
         (Rectangle.setTo 0 0 (inject_Z (RenderTarget.width t))
            (inject_Z (RenderTarget.height t)))
         (Rectangle.centerX bounds) (Rectangle.centerY bounds).
Proof. destruct p; repeat split. Qed.

(** A draw whose target and scratch target exist completes, for hooks that
    batch nothing themselves. *)
Lemma batchQuad_completes
    (onFX onBatch : GameObject -> Pipeline -> Pipeline)
    (object : GameObject) (x0 y0 x1 y1 x2 y2 x3 y3 u0 v0 u1 v1 : Q)
    (tintTL tintTR tintBL tintBR tintEffect : Z) (texture' : nat)
    (p : Pipeline) (target scratch : RenderTarget.t) :
  (forall g q, quietly q (onFX g q)) ->
  (forall g q, quietly q (onBatch g q)) ->
  fsTarget p = Some scratch ->
  item (renderTargets p)
    (targetIndex (quadSize (fxPadding object) x0 y0 x1 y1 x2 y2 x3 y3) p) = Some target ->
  completion
    (batchQuad onFX onBatch (Some object) x0 y0 x1 y1 x2 y2 x3 y3 u0 v0 u1 v1
       tintTL tintTR tintBL tintBR tintEffect texture') p
  = Normal true.
Proof.
  intros HFX HBatch Hfs Ht.
  set (Q := fun (c : Completion bool) (q : Pipeline) => c = Normal true).
  match goal with |- completion ?call p = _ => change (ensures call Q p) end.
  unfold batchQuad. apply ensures_bind. unfold ensures at 1.
  pose proof (batchQuad_begin_eq object x0 y0 x1 y1 x2 y2 x3 y3 p) as E.
  cbv zeta in E. rewrite Ht in E.
  unfold completion at 1, stateAfter at 1. rewrite E. cbn [fst snd].
  set (p1 := begun _ _ _ _ p).
  eapply ensures_weaken.
  - eapply (batchQuad_draw_batched _ _ _ _ _ _ _ _ _ _ _ _ _ _ _ _ _ _ _ _ _ _ scratch [] p1);
      [ exact HFX | exact HBatch
      | unfold p1; rewrite (proj1 (proj2 (begun_fields _ _ _ _ p))); exact Hfs
      | apply batched_refl ].
  - intros c q (-> & _). reflexivity.
Qed.

(** X7.  A draw whose target exists, on a pipeline that has its scratch
    target, with hooks that batch no vertex and leave [targetBounds] and
    [fsTarget] alone, completes with [true] and batches twelve vertices:
    the six of the sprite's quad, with the corners and the UVs it was
    given, then the two triangles of a rectangle that has the size of the
    target and the centre of the quad's bounding box, with the UVs of the
    whole texture. *)
Theorem batchQuad_vertices
    (onFX onBatch : GameObject -> Pipeline -> Pipeline)
    (object : GameObject) (x0 y0 x1 y1 x2 y2 x3 y3 u0 v0 u1 v1 : Q)
    (tintTL tintTR tintBL tintBR tintEffect : Z) (texture' : nat)
    (p : Pipeline) (target scratch : RenderTarget.t) :
  (forall g q, quietly q (onFX g q)) ->
  (forall g q, quietly q (onBatch g q)) ->
  fsTarget p = Some scratch ->
  item (renderTargets p)
    (targetIndex (quadSize (fxPadding object) x0 y0 x1 y1 x2 y2 x3 y3) p) = Some target ->
  let call := batchQuad onFX onBatch (Some object) x0 y0 x1 y1 x2 y2 x3 y3 u0 v0 u1 v1
                tintTL tintTR tintBL tintBR tintEffect texture' in
  let cx := ((min4 x0 x1 x2 x3 + max4 x0 x1 x2 x3) / 2)%Q in
  let cy := ((min4 y0 y1 y2 y3 + max4 y0 y1 y2 y3) / 2)%Q in
  let w := inject_Z (RenderTarget.width target) in
  let h := inject_Z (RenderTarget.height target) in
  completion call p = Normal true
  /\ exists blit,
       batchedVertices (gl (stateAfter call p))
       = batchedVertices (gl p)
           ++ spriteQuad x0 y0 x1 y1 x2 y2 x3 y3 u0 v0 u1 v1 ++ blit
       /\ Forall2 sameVertex blit (fullQuad (cx - w / 2) (cy - h / 2) w h).
Proof.
  intros HFX HBatch Hfs Ht call cx cy w h.
  set (Q := fun (c : Completion bool) (q : Pipeline) =>
              c = Normal true
              /\ exists blit,
                   batchedVertices (gl q)
                   = batchedVertices (gl p)
                       ++ spriteQuad x0 y0 x1 y1 x2 y2 x3 y3 u0 v0 u1 v1 ++ blit
                   /\ Forall2 sameVertex blit (fullQuad (cx - w / 2) (cy - h / 2) w h)).
  change (ensures call Q p).
  unfold call, batchQuad. apply ensures_bind. unfold ensures at 1.
  pose proof (batchQuad_begin_eq object x0 y0 x1 y1 x2 y2 x3 y3 p) as E.
  cbv zeta in E. rewrite Ht in E.
  unfold completion at 1, stateAfter at 1. rewrite E. cbn [fst snd].
  set (p1 := begun _ _ _ _ p).
  destruct (begun_fields object target
              (targetIndex (quadSize (fxPadding object) x0 y0 x1 y1 x2 y2 x3 y3) p)
              (Rectangle.setTo (min4 x0 x1 x2 x3) (min4 y0 y1 y2 y3)
                 (max4 x0 x1 x2 x3 - min4 x0 x1 x2 x3)
                 (max4 y0 y1 y2 y3 - min4 y0 y1 y2 y3)) p) as (Hg & Hf & Hb).
  fold p1 in Hg, Hf, Hb.
  eapply ensures_weaken.
  - eapply (batchQuad_draw_batched _ _ _ _ _ _ _ _ _ _ _ _ _ _ _ _ _ _ _ _ _ _ scratch [] p1);
      [exact HFX | exact HBatch | rewrite Hf; exact Hfs | apply batched_refl].
  - intros c q (-> & blit & (Hq & _) & Hv). split; [reflexivity|].
    exists blit. rewrite Hq, Hg. split; [reflexivity|].
    eapply sameVertices_trans; [exact Hv|]. rewrite Hb.
    apply fullQuad_comp; unfold Rectangle.centerX, Rectangle.centerY; cbn;
      unfold w, h, cx, cy; field.
Qed.

Lemma batchQuad_vertices_witness :
  let call := batchQuad noHook noHook (Some {| objectId := 1; fxPadding := 10 |})
                0 0 0 130 130 130 130 0 0 0 1 1 0 0 0 0 0 7 in
  exists blit,
    batchedVertices (gl (stateAfter call (pipeline800x600 None None)))
    = spriteQuad 0 0 0 130 130 130 130 0 0 0 1 1 ++ blit
    /\ Forall2 sameVertex blit (fullQuad (-31) (-31) 192 192).
Proof.
  cbv zeta.
  destruct (batchQuad_vertices noHook noHook {| objectId := 1; fxPadding := 10 |}
              0 0 0 130 130 130 130 0 0 0 1 1 0 0 0 0 0 7
              (pipeline800x600 None None) (squareTarget 192 4) (fullScreenTarget 800 600 20)
              ltac:(intros; repeat split) ltac:(intros; repeat split)
              ltac:(vm_compute; reflexivity) ltac:(vm_compute; reflexivity))
    as (_ & blit & E & H).
  exists blit. split; [exact E|].
  eapply sameVertices_trans; [exact H|]. apply fullQuad_comp; reflexivity.
Defined.

(** X8.  With the default step of 64, on a booted pipeline, for a sprite
    with a padding that is not negative and a padded size between 0
    (excluded) and [maxDimension], [batchQuad] finds a square target that
    holds the padded bounding box in both directions, and that is less
    than 64 larger than the padded size; and the draw completes. *)
Theorem batchQuad_fits
    (onFX onBatch : GameObject -> Pipeline -> Pipeline)
    (object : GameObject) (x0 y0 x1 y1 x2 y2 x3 y3 u0 v0 u1 v1 : Q)
    (tintTL tintTR tintBL tintBR tintEffect : Z) (texture' : nat)
    (p : Pipeline) (n : nat) :
  let padding := fxPadding object in
  let bw := (max4 x0 x1 x2 x3 - min4 x0 x1 x2 x3)%Q in
  let bh := (max4 y0 y1 y2 y3 - min4 y0 y1 y2 y3)%Q in
  let size := (Qmax bw bh + padding * 2)%Q in
  Booted p n -> frameInc p = 64 ->
  (forall g q, quietly q (onFX g q)) ->
  (forall g q, quietly q (onBatch g q)) ->
  (0 <= padding)%Q -> (0 < size)%Q -> (size <= inject_Z (maxDimension p))%Q ->
  exists target q,
    batchQuad_begin (Some object) x0 y0 x1 y1 x2 y2 x3 y3 p = (Normal (object, target), q)
    /\ RenderTarget.width target = RenderTarget.height target
    /\ (bw + padding * 2 <= inject_Z (RenderTarget.width target))%Q
    /\ (bh + padding * 2 <= inject_Z (RenderTarget.height target))%Q
    /\ (inject_Z (RenderTarget.width target) - 64 < size)%Q
    /\ completion
         (batchQuad onFX onBatch (Some object) x0 y0 x1 y1 x2 y2 x3 y3 u0 v0 u1 v1
            tintTL tintTR tintBL tintBR tintEffect texture') p
       = Normal true.
Proof.
  intros padding bw bh size B Hinc HFX HBatch Hpad Hpos Hfit.
  pose proof (quadSize_padded padding x0 y0 x1 y1 x2 y2 x3 y3 Hpad) as Hsize.
  cbv zeta in Hsize. fold bw bh size in Hsize.
  set (s := quadSize padding x0 y0 x1 y1 x2 y2 x3 y3) in *.
  assert (Hs : (0 < s)%Q) by (rewrite Hsize; exact Hpos).
  assert (Hs' : (s <= inject_Z (maxDimension p))%Q) by (rewrite Hsize; exact Hfit).
  destruct B as [L N F].
  destruct (getSpriteTarget_ladder p n s L ltac:(lia) Hs Hs') as (t & E & Hd).
  pose proof E as E'. rewrite getSpriteTarget_eq in E'. injection E' as Ht _.
  destruct (Booted_scratch p n (Build_Booted _ _ L N F)) as (scratch & Hfs & _).
  pose proof (batchQuad_begin_eq object x0 y0 x1 y1 x2 y2 x3 y3 p) as Eb.
  cbv zeta in Eb. fold padding s in Eb. rewrite Ht in Eb.
  exists t. eexists. split; [exact Eb|].
  rewrite Hinc in Hd. injection Hd as Hw Hh.
  pose proof (SnapCeil_fits s 64 ltac:(reflexivity)) as Hle.
  pose proof (SnapCeil_tight s 64 ltac:(reflexivity)) as Hlt.
  rewrite Hsize in Hle at 1. rewrite Hsize in Hlt at 2.
  rewrite Hw, Hh, !inject_Z_mult.
  split; [reflexivity|].
  split; [eapply Qle_trans; [|exact Hle]; unfold size;
          apply Qplus_le_l; apply Q.le_max_l|].
  split; [eapply Qle_trans; [|exact Hle]; unfold size;
          apply Qplus_le_l; apply Q.le_max_r|].
  split.
  - eapply Qle_lt_trans; [|exact Hlt].
    unfold Z.sub. rewrite inject_Z_plus. apply Qle_lteq. right.
    change (inject_Z 64) with 64%Q. change (inject_Z (-(1))) with (-1 # 1)%Q. ring.
  - apply (batchQuad_completes onFX onBatch object x0 y0 x1 y1 x2 y2 x3 y3 u0 v0 u1 v1
             tintTL tintTR tintBL tintBR tintEffect texture' p t scratch);
      assumption.
Qed.

Lemma batchQuad_fits_witness :
  exists target q,
    batchQuad_begin (Some {| objectId := 1; fxPadding := 10 |})
      0 0 0 130 130 130 130 0 (pipeline800x600 None None)
    = (Normal ({| objectId := 1; fxPadding := 10 |}, target), q)
    /\ (150 <= inject_Z (RenderTarget.width target))%Q
    /\ (inject_Z (RenderTarget.width target) - 64 < 150)%Q.
Proof.
  pose proof (initialize_Booted (configOf None None) (bootedRenderer 800 600)
                ltac:(reflexivity) ltac:(reflexivity) ltac:(reflexivity)
                ltac:(reflexivity)) as B.
  destruct (batchQuad_fits noHook noHook {| objectId := 1; fxPadding := 10 |}
              0 0 0 130 130 130 130 0 0 0 1 1 0 0 0 0 0 7
              (pipeline800x600 None None) _ B ltac:(reflexivity)
              ltac:(intros; repeat split) ltac:(intros; repeat split)
              ltac:(vm_compute; discriminate) ltac:(vm_compute; reflexivity)
              ltac:(vm_compute; discriminate))
    as (target & q & E & _ & Hw & _ & Hlt & _).
  exists target, q. split; [exact E|]. split; [exact Hw | exact Hlt].
Defined.

Lemma item_negative {A : Type} (l : list A) (i : Z) : i < 0 -> item l i = None.
Proof. intros H. unfold item. destruct (Z.ltb_spec i 0); [reflexivity|lia]. Qed.

(** No size at or below zero has a target. *)
Lemma getSpriteTarget_nothing (s : Q) p :
  (s <= 0)%Q -> 0 <= maxDimension p ->
  targetIndex s p < 0 /\ item (renderTargets p) (targetIndex s p) = None.
Proof.
  intros Hs Hmax.
  assert (H : targetIndex s p < 0); [|split; [exact H | apply item_negative, H]].
  unfold targetIndex.
  destruct (Qlt_le_dec (inject_Z (maxDimension p)) s) as [Hbig|_].
  - exfalso. apply (Qlt_not_le _ _ Hbig). eapply Qle_trans; [exact Hs|].
    change 0%Q with (inject_Z 0). rewrite <- Zle_Qle. exact Hmax.
  - assert (SnapCeil s 64 <= 0) by (apply SnapCeil_le; [reflexivity | exact Hs]).
    pose proof (offsetOf_pos p). nia.
Qed.

(** X9.  A quad whose padded size is zero has no target: when
    [maxDimension] is not negative, [getSpriteTarget(0)] returns
    [undefined], and [batchQuad] throws a [TypeError] on reading the width
    of the target, having issued no command and recorded no sprite; the
    index it leaves in [spriteData] is negative. *)
Theorem batchQuad_zero_size
    (onFX onBatch : GameObject -> Pipeline -> Pipeline)
    (object : GameObject) (x0 y0 x1 y1 x2 y2 x3 y3 u0 v0 u1 v1 : Q)
    (tintTL tintTR tintBL tintBR tintEffect : Z) (texture' : nat) (p : Pipeline) :
  0 <= maxDimension p ->
  quadSize (fxPadding object) x0 y0 x1 y1 x2 y2 x3 y3 == 0 ->
  let call := batchQuad onFX onBatch (Some object) x0 y0 x1 y1 x2 y2 x3 y3 u0 v0 u1 v1
                tintTL tintTR tintBL tintBR tintEffect texture' in
  completion (getSpriteTarget 0) p = Normal None
  /\ completion call p = Throw TypeError
  /\ gl (stateAfter call p) = gl p
  /\ sprite (spriteData (stateAfter call p)) = sprite (spriteData p)
  /\ textureIndex (spriteData (stateAfter call p)) < 0.
Proof.
  intros Hmax Hsize call.
  destruct (getSpriteTarget_nothing 0 p ltac:(apply Qle_refl) Hmax) as (H0 & H0').
  split; [unfold completion; rewrite getSpriteTarget_eq, H0'; reflexivity|].
  destruct (getSpriteTarget_nothing
              (quadSize (fxPadding object) x0 y0 x1 y1 x2 y2 x3 y3) p
              ltac:(rewrite Hsize; apply Qle_refl) Hmax) as (Hi & Hn).
  pose proof (batchQuad_begin_eq object x0 y0 x1 y1 x2 y2 x3 y3 p) as E.
  cbv zeta in E. rewrite Hn in E.
  unfold call, batchQuad, completion, stateAfter, bind. rewrite E. cbn [fst snd].
  split; [reflexivity|]. rewrite selected_textureIndex.
  destruct p as [? ? ? ? ? ? ? ? ? ? ? ? ? ? ? ? []]. repeat split. exact Hi.
Qed.

Lemma batchQuad_zero_size_witness :
  completion
    (batchQuad noHook noHook (Some {| objectId := 1; fxPadding := 0 |})
       5 5 5 5 5 5 5 5 0 0 1 1 0 0 0 0 0 7) (pipeline800x600 None None)
  = Throw TypeError.
Proof.
  apply (batchQuad_zero_size noHook noHook {| objectId := 1; fxPadding := 0 |}
           5 5 5 5 5 5 5 5 0 0 1 1 0 0 0 0 0 7 (pipeline800x600 None None));
    [vm_compute; discriminate | vm_compute; reflexivity].
Defined.

(** ** copySprite *)

(** Without a sprite in [spriteData], [copySprite] throws at
    [sprite.onFXCopy], or before it at [shader.bind] when there is no
    shader; by then it has run its opening bindings and nothing else. *)
Lemma copySprite_no_sprite (onFXCopy : GameObject -> Pipeline -> Pipeline)
    (source target : RenderTarget.t) (clear clearAlpha eraseMode : option bool)
    (shader : option Shader) (p : Pipeline) :
  sprite (spriteData p) = None ->
  let call := copySprite onFXCopy source target clear clearAlpha eraseMode shader in
  completion call p = Throw TypeError /\ boundOnly shader p (stateAfter call p).
Proof.
  intros Hs call.
  unfold boundOnly, call, copySprite, resolvedShader, setVertexBuffer. cbv zeta. step.
  rewrite Hs.
  destruct p as [r g sh ts cs ab ds cps gs qv md inc alt sb tb fs sd]. cbn in *.
  destruct ab, shader as [s|], cps as [c|]; cbn;
    (split; [reflexivity|]);
    (split; [eexists; split; [rewrite <- ?app_assoc; try reflexivity;
                               symmetry; apply app_nil_r|];
             split; [reflexivity|cbn; lia]|]);
    repeat split.
Qed.

(** A completed draw leaves no sprite in [spriteData]. *)
Lemma batchQuad_forgets
    (onFX onBatch : GameObject -> Pipeline -> Pipeline)
    (gameObject : option GameObject)
    (x0 y0 x1 y1 x2 y2 x3 y3 u0 v0 u1 v1 : Q)
    (tintTL tintTR tintBL tintBR tintEffect : Z) (texture' : nat) (p : Pipeline) :
  let call := batchQuad onFX onBatch gameObject x0 y0 x1 y1 x2 y2 x3 y3 u0 v0 u1 v1
                tintTL tintTR tintBL tintBR tintEffect texture' in
  completion call p = Normal true -> sprite (spriteData (stateAfter call p)) = None.
Proof.
  intros call Hdone.
  set (Q := fun (c : Completion bool) (q : Pipeline) =>
              c = Normal true -> sprite (spriteData q) = None).
  assert (H : ensures call Q p); [|exact (H Hdone)].
  unfold call, batchQuad.
  apply ensures_bind_any; [|intros ? ? H; discriminate H].
  intros started p1. unfold batchQuad_draw. cbv zeta.
  repeat match goal with
         | |- ensures (bind ?m _) _ _ =>
             lazymatch m with
             | onDraw _ _ => fail
             | _ => apply ensures_bind_any; [intros ? ? | intros ? ? H; discriminate H]
             end
         end.
  apply ensures_bind.
  eapply ensures_weaken; [apply onDraw_clears|].
  intros c q (-> & Hs & _) _. exact Hs.
Qed.

(** X10.  Called while [spriteData] holds no sprite, [copySprite] throws
    a [TypeError], whatever its arguments.  By then it has overwritten
    [currentShader] with the shader it was to use and made the quad vertex
    buffer the active one, and the commands it has issued, three at most,
    are bindings: of that buffer, of the shader, and the shader's sampler
    uniform.  It has issued no other command (no viewport, texture,
    framebuffer, clear, upload or draw), and the renderer, the sprite
    data, the quad buffer and the targets are as before. *)
Theorem copySprite_needs_sprite (onFXCopy : GameObject -> Pipeline -> Pipeline)
    (source target : RenderTarget.t) (clear clearAlpha eraseMode : option bool)
    (shader : option Shader) (p : Pipeline) :
  sprite (spriteData p) = None ->
  let call := copySprite onFXCopy source target clear clearAlpha eraseMode shader in
  completion call p = Throw TypeError /\ boundOnly shader p (stateAfter call p).
Proof. intros Hs. exact (copySprite_no_sprite _ _ _ _ _ _ _ p Hs). Qed.

Lemma copySprite_needs_sprite_witness :
  completion
    (copySprite noHook (squareTarget 192 4) (squareTarget 192 5) None None None None)
    (pipeline800x600 None None)
  = Throw TypeError.
Proof.
  apply (copySprite_needs_sprite noHook (squareTarget 192 4) (squareTarget 192 5)
           None None None None (pipeline800x600 None None)).
  vm_compute. reflexivity.
Defined.

(** X11.  After a draw that completed, [copySprite] throws a
    [TypeError]: the draw ends in [bindAndDraw], which forgets the sprite,
    so [copySprite] can only be used from the hooks of a draw.  The failed
    call has run its opening bindings and nothing else: [currentShader]
    and [activeBuffer] are overwritten, at most three binding commands are
    issued and no other, and the renderer, the sprite data, the quad
    buffer and the targets are as the draw left them. *)
Theorem copySprite_after_batchQuad
    (onFX onBatch onFXCopy : GameObject -> Pipeline -> Pipeline)
    (gameObject : option GameObject)
    (x0 y0 x1 y1 x2 y2 x3 y3 u0 v0 u1 v1 : Q)
    (tintTL tintTR tintBL tintBR tintEffect : Z) (texture' : nat)
    (source target : RenderTarget.t) (clear clearAlpha eraseMode : option bool)
    (shader : option Shader) (p : Pipeline) :
  let draw := batchQuad onFX onBatch gameObject x0 y0 x1 y1 x2 y2 x3 y3 u0 v0 u1 v1
                tintTL tintTR tintBL tintBR tintEffect texture' in
  let copy := copySprite onFXCopy source target clear clearAlpha eraseMode shader in
  completion draw p = Normal true ->
  completion copy (stateAfter draw p) = Throw TypeError
  /\ boundOnly shader (stateAfter draw p) (stateAfter copy (stateAfter draw p)).
Proof.
  intros draw copy Hdone.
  apply (copySprite_no_sprite _ _ _ _ _ _ _ (stateAfter draw p)).
  apply batchQuad_forgets. exact Hdone.
Qed.

Lemma copySprite_after_batchQuad_witness :
  let draw := batchQuad noHook noHook (Some {| objectId := 1; fxPadding := 10 |})
                0 0 0 130 130 130 130 0 0 0 1 1 0 0 0 0 0 7 in
  completion
    (copySprite noHook (squareTarget 192 4) (squareTarget 192 5) None None None None)
    (stateAfter draw (pipeline800x600 None None))
  = Throw TypeError.
Proof.
  cbv zeta.
  apply (copySprite_after_batchQuad noHook noHook noHook
           (Some {| objectId := 1; fxPadding := 10 |})
           0 0 0 130 130 130 130 0 0 0 1 1 0 0 0 0 0 7
           (squareTarget 192 4) (squareTarget 192 5) None None None None
           (pipeline800x600 None None)).
  vm_compute. reflexivity.
Defined.

Lemma returns_if {A : Type} (c : bool) (m1 m2 : M A) :
  returns m1 -> returns m2 -> returns (if c then m1 else m2).
Proof. intros H1 H2. destruct c; assumption. Qed.

Lemma returns_setVertexBuffer buffer : returns (setVertexBuffer buffer).
Proof.
  unfold setVertexBuffer. apply returns_bind; [auto with returns|].
  intros active. apply returns_if; auto 10 with returns.
Qed.

Lemma returns_setBlendMode mode : returns (setBlendMode mode).
Proof. unfold setBlendMode, renderer_modify. auto with returns. Qed.

#[local] Hint Resolve returns_setVertexBuffer returns_setBlendMode returns_if : returns.

Lemma ensures_emit_bind {B : Type} (c : Command) (k : unit -> M B) Q p :
  ensures (k tt) Q (set_gl (gl p ++ [c]) p) -> ensures (bind (emit c) k) Q p.
Proof. intros H. apply ensures_bind. exact H. Qed.

Arguments uploads : simpl never.

#[local] Instance calmly_PreOrder : PreOrder calmly.
Proof.
  split.
  - intros p. split; reflexivity.
  - intros p0 p1 p2 (A1 & B1) (A2 & B2). split; congruence.
Qed.

Lemma uploads_snoc l c : uploads (l ++ [c]) = uploads l ++ uploads [c].
Proof. unfold uploads. apply omap_app. Qed.

Lemma calmly_emit (c : Command) p :
  uploads [c] = [] -> calmly p (set_gl (gl p ++ [c]) p).
Proof. intros Hc. split; [reflexivity|]. cbn. rewrite uploads_snoc, Hc. apply app_nil_r. Qed.

Lemma kept_calmly view ups q q' : kept view ups q -> calmly q q' -> kept view ups q'.
Proof. intros (A & B) (A' & B'). split; congruence. Qed.

(** Closes the goals [neutrality] leaves for [calmly]. *)
Ltac calm :=
  repeat (neutrality;
          try match goal with
              | |- neutral _ (setBlendMode _) => unfold setBlendMode
              end);
  try match goal with
      | |- calmly ?p (set_gl (gl ?p ++ [_]) ?p) => apply calmly_emit; reflexivity
      | H : forall g q, calmly q (?hook g q) |- calmly ?p (?hook _ ?p) => apply H
      | |- calmly _ _ => split; reflexivity
      end.

(** Proves that a statement with branches returns. *)
Ltac returning' :=
  unfold setShader, set1i, batchVert, flush, popFramebuffer, renderer_modify,
    onDrawSprite, onCopySprite, getSwapTarget;
  repeat match goal with
         | |- returns (if _ then _ else _) => apply returns_if
         | |- returns (when _ _) => apply returns_when
         | |- returns (bind _ _) => apply returns_bind; [|intros ?]
         | |- returns (match ?o with Some _ => _ | None => _ end) => destruct o
         end;
  solve [auto with returns].

(** One statement that leaves the quad buffer alone. *)
Ltac hold :=
  eapply (ensures_keep_returns_bind (kept _ _) calmly);
  [ eassumption | apply kept_calmly | calm | returning'
  | let p1 := fresh "p" in let H := fresh "H" in
    intros ? p1 H;
    match goal with H' : kept _ _ _ |- _ =>
      tryif constr_eq H H' then fail else clear H' end ].

Lemma setUVs_kept uA vA uB vB uC vC uD vD view ups p :
  kept view ups p ->
  ensures (setUVs uA vA uB vB uC vC uD vD)
    (fun c q => c = Normal tt /\ kept (setUVs_view uA vA uB vB uC vC uD vD view) ups q) p.
Proof.
  intros (Hv & Hu). unfold setUVs.
  apply ensures_gets_bind. rewrite Hv. apply ensures_deref_bind.
  unfold ensures, completion, stateAfter, modify. cbn [fst snd].
  split; [reflexivity|]. split; [reflexivity | exact Hu].
Qed.

Lemma copySprite_kept (onFXCopy : GameObject -> Pipeline -> Pipeline)
    (source target : RenderTarget.t) (clear clearAlpha eraseMode : option bool)
    (shader : option Shader) (p : Pipeline) object bound view :
  (forall g q, calmly q (onFXCopy g q)) ->
  sprite (spriteData p) = Some object ->
  match shader with Some s => Some s | None => copyShader p end = Some bound ->
  quadVertexViewF32 p = Some view ->
  let d := targetUVdiff source target in
  let view' := if RenderTarget.height source >? RenderTarget.height target
               then setUVs_view 0 d 0 (1 + d) 1 (1 + d) 1 d view
               else setUVs_view 0 0 0 1 1 1 1 0 view in
  ensures (copySprite onFXCopy source target clear clearAlpha eraseMode shader)
    (fun c q => c = Normal tt /\ kept view' (uploads (gl p) ++ [view']) q) p.
Proof.
  intros Hook Hs Hb Hv d view'.
  assert (H0 : kept view (uploads (gl p)) p) by (split; [exact Hv | reflexivity]).
  unfold copySprite. cbv zeta.
  apply ensures_gets_bind. rewrite Hb.
  apply ensures_gets_bind. rewrite Hs.
  revert H0. generalize (uploads (gl p)) as ups. generalize p as p0. clear Hs Hb Hv.
  intros p0 ups H0.
  do 2 hold. apply ensures_deref_bind. do 2 hold. apply ensures_deref_bind.
  do 4 hold.
  apply ensures_bind.
  assert (Huv : forall p1, kept view ups p1 ->
            ensures
              (if RenderTarget.height source >? RenderTarget.height target
               then
                 emit (gl_viewport 0 0 (inject_Z (RenderTarget.width source))
                         (inject_Z (RenderTarget.height source))) ;;
                 setTargetUVs source target
               else
                 emit (gl_viewport 0
                         (inject_Z (RenderTarget.height target - RenderTarget.height source))
                         (inject_Z (RenderTarget.width source))
                         (inject_Z (RenderTarget.height source))) ;;
                 resetUVs)
              (fun c q => c = Normal tt /\ kept view' ups q) p1).
  { intros q Hq. unfold view', d, setTargetUVs, resetUVs.
    destruct (RenderTarget.height source >? RenderTarget.height target);
      hold; apply setUVs_kept; assumption. }
  eapply ensures_weaken; [apply Huv; assumption|]. clear Huv.
  intros c q (-> & Hq). clear H0.
  do 4 hold.
  apply ensures_gets_bind.
  match goal with
  | H : kept _ _ ?q |- ensures _ _ ?q =>
      replace (quadVertexViewF32 q) with (Some view') by (symmetry; apply H);
      change (default [] (Some view')) with view';
      apply ensures_emit_bind;
      assert (H1 : kept view' (ups ++ [view']) (set_gl (gl q ++ [gl_bufferData view']) q))
        by (destruct H as (A & B); split; [exact A|]; cbn;
            rewrite uploads_snoc, B; reflexivity);
      clear H; revert H1; generalize (set_gl (gl q ++ [gl_bufferData view']) q) as q1
  end.
  intros q1 H1.
  hold. hold.
  unfold ensures, completion, stateAfter, emit, modify. cbn [fst snd].
  split; [reflexivity|].
  eapply kept_calmly; [eassumption|]. apply calmly_emit. reflexivity.
Qed.

(** X12.  With a sprite in [spriteData], a shader to bind and the quad
    buffer in place, and a hook that neither writes nor uploads the quad
    buffer, [copySprite] completes.  It writes the UV cells of the quad
    buffer and no other cell (the six positions are as before), and
    uploads the buffer once, after that write.  When the source is not
    taller than the target, the UVs it draws with are those of the whole
    texture, whatever they were before the call. *)
Theorem copySprite_quad (onFXCopy : GameObject -> Pipeline -> Pipeline)
    (source target : RenderTarget.t) (clear clearAlpha eraseMode : option bool)
    (shader : option Shader) (p : Pipeline)
    (object : GameObject) (bound : Shader) (view : list float32) :
  (forall g q, calmly q (onFXCopy g q)) ->
  sprite (spriteData p) = Some object ->
  match shader with Some s => Some s | None => copyShader p end = Some bound ->
  quadVertexViewF32 p = Some view -> length view = 42%nat ->
  let call := copySprite onFXCopy source target clear clearAlpha eraseMode shader in
  let d := targetUVdiff source target in
  let view' := if RenderTarget.height source >? RenderTarget.height target
               then setUVs_view 0 d 0 (1 + d) 1 (1 + d) 1 d view
               else setUVs_view 0 0 0 1 1 1 1 0 view in
  completion call p = Normal tt
  /\ quadVertexViewF32 (stateAfter call p) = Some view'
  /\ uploads (gl (stateAfter call p)) = uploads (gl p) ++ [view']
  /\ (forall k, positionAt view' k = positionAt view k)
  /\ (RenderTarget.height source <= RenderTarget.height target ->
      map (uvAt view') (seq 0 6)
      = [ Some (F32 0, F32 0); Some (F32 0, F32 1); Some (F32 1, F32 1);
          Some (F32 0, F32 0); Some (F32 1, F32 1); Some (F32 1, F32 0) ]).
Proof.
  intros Hook Hs Hb Hv Hlen call d view'.
  destruct (copySprite_kept onFXCopy source target clear clearAlpha eraseMode shader
              p object bound view Hook Hs Hb Hv) as (Hc & Hq & Hu).
  split; [exact Hc|]. split; [exact Hq|]. split; [exact Hu|]. split.
  - intros k. unfold positionAt, view'.
    destruct (RenderTarget.height source >? RenderTarget.height target);
      (rewrite !setUVs_view_other; [reflexivity| |]);
      unfold uvCells; rewrite !not_elem_of_cons; repeat split; try lia;
      apply not_elem_of_nil.
  - intros Hle. unfold view'.
    destruct (Z.gtb_spec (RenderTarget.height source) (RenderTarget.height target)); [lia|].
    rewrite (setUVs_view_uvs view _ _ _ _ _ _ _ _ Hlen), toFloat32_0, toFloat32_1.
    reflexivity.
Qed.

Lemma copySprite_quad_witness :
  let call := copySprite noHook (squareTarget 192 4) (squareTarget 192 5) None None None
                (Some {| shaderName := "Glow"; fragShader := "GlowFS";
                         vertShader := "SingleQuadVS" |}) in
  completion call midDraw = Normal tt
  /\ option_map (fun view => map (uvAt view) (seq 0 6))
       (quadVertexViewF32 (stateAfter call midDraw))
     = Some [ Some (F32 0, F32 0); Some (F32 0, F32 1); Some (F32 1, F32 1);
              Some (F32 0, F32 0); Some (F32 1, F32 1); Some (F32 1, F32 0) ].
Proof.
  cbv zeta.
  destruct (copySprite_quad noHook (squareTarget 192 4) (squareTarget 192 5) None None None
              (Some {| shaderName := "Glow"; fragShader := "GlowFS";
                       vertShader := "SingleQuadVS" |})
              midDraw {| objectId := 1; fxPadding := 10 |}
              {| shaderName := "Glow"; fragShader := "GlowFS";
                 vertShader := "SingleQuadVS" |}
              (onResize_view 800 600 (replicate 42 (F32 0)))
              ltac:(intros; split; reflexivity) ltac:(vm_compute; reflexivity)
              ltac:(reflexivity) ltac:(vm_compute; reflexivity)
              ltac:(vm_compute; reflexivity))
    as (Hc & Hq & _ & _ & Hu).
  split; [exact Hc|]. rewrite Hq. cbn [option_map].
  rewrite Hu by (cbn; lia). reflexivity.
Defined.

(** ** Before boot, the shaders, and the rest of the quad buffer *)

Lemma item_nil {A : Type} (i : Z) : item (@nil A) i = None.
Proof. unfold item. destruct (i <? 0); reflexivity. Qed.

(** X13.  A pipeline constructed on a renderer that has not booted has
    no targets, no scratch target and no quad buffer.  Until [boot] runs,
    [onResize], [setUVs], [setTargetUVs] and [resetUVs] throw a
    [TypeError] and change nothing, [getSpriteTarget] returns [undefined]
    for every size, and [batchQuad] and [copySprite] throw a [TypeError]
    whatever their arguments. *)
Theorem unbooted_pipeline (config : Config) (r : Renderer.t) :
  Renderer.isBooted r = false ->
  let p := initialize config r in
  renderTargets p = [] /\ fsTarget p = None /\ quadVertexViewF32 p = None
  /\ (forall w h, onResize w h p = (Throw TypeError, p))
  /\ (forall uA vA uB vB uC vC uD vD,
        setUVs uA vA uB vB uC vC uD vD p = (Throw TypeError, p))
  /\ (forall source target, setTargetUVs source target p = (Throw TypeError, p))
  /\ resetUVs p = (Throw TypeError, p)
  /\ (forall size, completion (getSpriteTarget size) p = Normal None)
  /\ (forall onFX onBatch gameObject x0 y0 x1 y1 x2 y2 x3 y3 u0 v0 u1 v1
        tintTL tintTR tintBL tintBR tintEffect texture',
        completion
          (batchQuad onFX onBatch gameObject x0 y0 x1 y1 x2 y2 x3 y3 u0 v0 u1 v1
             tintTL tintTR tintBL tintBR tintEffect texture') p
        = Throw TypeError)
  /\ (forall onFXCopy source target clear clearAlpha eraseMode shader,
        completion (copySprite onFXCopy source target clear clearAlpha eraseMode shader) p
        = Throw TypeError).
Proof.
  intros Hb. unfold initialize. rewrite Hb. cbv zeta.
  set (p := construct config r).
  repeat match goal with |- _ /\ _ => split end; try reflexivity.
  - intros size. unfold completion. rewrite getSpriteTarget_eq. cbn [fst].
    change (renderTargets p) with (@nil RenderTarget.t). rewrite item_nil. reflexivity.
  - intros onFX onBatch gameObject a0 b0 a1 b1 a2 b2 a3 b3 c0 d0 c1 d1 tTL tTR tBL tBR tE tex.
    unfold completion, batchQuad, bind.
    destruct gameObject as [object|]; [|reflexivity].
    pose proof (batchQuad_begin_eq object a0 b0 a1 b1 a2 b2 a3 b3 p) as E.
    cbv zeta in E. change (renderTargets p) with (@nil RenderTarget.t) in E.
    rewrite item_nil in E. rewrite E. reflexivity.
  - intros onFXCopy source target clear clearAlpha eraseMode shader.
    exact (proj1 (copySprite_no_sprite onFXCopy source target clear clearAlpha
                    eraseMode shader p eq_refl)).
Qed.

Lemma unbooted_pipeline_witness :
  let r := {| Renderer.isBooted := false; Renderer.width := 800; Renderer.height := 600;
              Renderer.currentBlendMode := NORMAL; Renderer.fboStack := [];
              Renderer.created := 0 |} in
  completion (onResize 800 600) (initialize (configOf None None) r) = Throw TypeError.
Proof.
  cbv zeta.
  destruct (unbooted_pipeline (configOf None None)
              {| Renderer.isBooted := false; Renderer.width := 800; Renderer.height := 600;
                 Renderer.currentBlendMode := NORMAL; Renderer.fboStack := [];
                 Renderer.created := 0 |} ltac:(reflexivity))
    as (_ & _ & _ & H & _).
  unfold completion. rewrite H. reflexivity.
Defined.

#[local] Instance shaderwise_PreOrder : PreOrder shaderwise.
Proof.
  split.
  - intros p. repeat split.
  - intros p0 p1 p2 (A1 & B1 & C1) (A2 & B2 & C2). repeat split; congruence.
Qed.

Lemma bindAndDraw_shaderwise source : neutral shaderwise (bindAndDraw source).
Proof.
  unfold bindAndDraw. cbv zeta. neutrality; repeat split.
Qed.

Lemma bindAndDraw_returns source : returns (bindAndDraw source).
Proof. unfold bindAndDraw. cbv zeta. returning'. Qed.

(** [drawToGame] leaves the copy shader current, [copyToGame] the game
    shader. *)
Lemma drawToGame_shader source p :
  completion (drawToGame source) p = Normal tt
  /\ currentShader (stateAfter (drawToGame source) p) = copyShader p
  /\ copyShader (stateAfter (drawToGame source) p) = copyShader p.
Proof.
  unfold drawToGame. step.
  set (p1 := set_currentShader _ _).
  destruct (bindAndDraw_returns source p1) as ([] & E).
  destruct (bindAndDraw_shaderwise source p1) as (A & B & _).
  unfold completion, stateAfter in *.
  destruct (bindAndDraw source p1) as [c q]. cbn [fst snd] in *.
  split; [exact E|]. rewrite A, B. split; reflexivity.
Qed.

Lemma copyToGame_shader source p :
  completion (copyToGame source) p = Normal tt
  /\ currentShader (stateAfter (copyToGame source) p) = gameShader p
  /\ gameShader (stateAfter (copyToGame source) p) = gameShader p.
Proof.
  unfold copyToGame. step.
  set (p1 := set_currentShader _ _).
  destruct (bindAndDraw_returns source p1) as ([] & E).
  destruct (bindAndDraw_shaderwise source p1) as (A & _ & B).
  unfold completion, stateAfter in *.
  destruct (bindAndDraw source p1) as [c q]. cbn [fst snd] in *.
  split; [exact E|]. rewrite A, B. split; reflexivity.
Qed.

(** X14.  A draw that completes leaves the copy shader as the current
    shader, whatever the hooks did to [currentShader]: it ends in
    [drawToGame], which leaves [copyShader] current.  [copyToGame] leaves
    [gameShader] current instead. *)
Theorem draw_leaves_copyShader
    (onFX onBatch : GameObject -> Pipeline -> Pipeline)
    (gameObject : option GameObject)
    (x0 y0 x1 y1 x2 y2 x3 y3 u0 v0 u1 v1 : Q)
    (tintTL tintTR tintBL tintBR tintEffect : Z) (texture' : nat)
    (source : RenderTarget.t) (p : Pipeline) :
  let call := batchQuad onFX onBatch gameObject x0 y0 x1 y1 x2 y2 x3 y3 u0 v0 u1 v1
                tintTL tintTR tintBL tintBR tintEffect texture' in
  (completion call p = Normal true ->
   currentShader (stateAfter call p) = copyShader (stateAfter call p))
  /\ currentShader (stateAfter (drawToGame source) p) = copyShader p
  /\ currentShader (stateAfter (copyToGame source) p) = gameShader p.
Proof.
  intros call. split; [|split; [apply drawToGame_shader | apply copyToGame_shader]].
  intros Hdone.
  set (Q := fun (c : Completion bool) (q : Pipeline) =>
              c = Normal true -> currentShader q = copyShader q).
  assert (H : ensures call Q p); [|exact (H Hdone)].
  unfold call, batchQuad.
  apply ensures_bind_any; [|intros ? ? H; discriminate H].
  intros started p1. unfold batchQuad_draw. cbv zeta.
  repeat match goal with
         | |- ensures (bind ?m _) _ _ =>
             lazymatch m with
             | onDraw _ _ => fail
             | _ => apply ensures_bind_any; [intros ? ? | intros ? ? H; discriminate H]
             end
         end.
  apply ensures_bind. unfold ensures at 1, onDraw.
  match goal with
  | |- context [completion (drawToGame ?t) ?q] =>
      destruct (drawToGame_shader t q) as (E & A & B); rewrite E
  end.
  unfold ensures, Q, ret. cbn [fst snd]. unfold completion at 1, stateAfter at 1.
  cbn [fst snd]. intros _. unfold stateAfter at 1 3. cbn [snd]. congruence.
Qed.

Lemma draw_leaves_copyShader_witness :
  let call := batchQuad noHook noHook (Some {| objectId := 1; fxPadding := 10 |})
                0 0 0 130 130 130 130 0 0 0 1 1 0 0 0 0 0 7 in
  currentShader (stateAfter call (pipeline800x600 None None))
  = copyShader (stateAfter call (pipeline800x600 None None)).
Proof.
  cbv zeta.
  destruct (draw_leaves_copyShader noHook noHook
              (Some {| objectId := 1; fxPadding := 10 |})
              0 0 0 130 130 130 130 0 0 0 1 1 0 0 0 0 0 7 (squareTarget 192 4)
              (pipeline800x600 None None)) as (H & _).
  apply H. vm_compute. reflexivity.
Defined.

(** X15.  On a booted renderer, with a step of at least 1 (so that [boot]
    ends), the constructor fills the three shader
    slots from the three built-in entries, whatever [config.shaders]
    holds: [config.fragShader] and [config.vertShader] reach the copy
    shader only, [config.drawShader] the game shader only, and the copy
    shader is the current one. *)
Theorem boot_shader_slots (config : Config) (r : Renderer.t) :
  Renderer.isBooted r = true -> 0 < frameInc (construct config r) ->
  let p := initialize config r in
  let fragShader := GetFastValue (config_fragShader config) "PostFXFS"%string in
  let vertShader := GetFastValue (config_vertShader config) "SingleQuadVS"%string in
  let drawShader := GetFastValue (config_drawShader config) "PostFXFS"%string in
  drawSpriteShader p
  = Some {| shaderName := "DrawSprite"; fragShader := "SingleQuadFS";
            vertShader := "SingleQuadVS" |}
  /\ copyShader p
     = Some {| shaderName := "CopySprite"; fragShader := fragShader;
               vertShader := vertShader |}
  /\ gameShader p
     = Some {| shaderName := "DrawGame"; fragShader := drawShader;
               vertShader := "SingleQuadVS" |}
  /\ currentShader p = copyShader p.
Proof.
  intros Hb _. unfold initialize. rewrite Hb. cbv zeta.
  destruct (boot_spec (construct config r)) as (q & ladder & tier & scratch & E & R).
  destruct (boot_shaders _ _ _ _ _ R) as (H0 & H1 & H2 & H3).
  unfold stateAfter. rewrite E. cbn [snd].
  rewrite H0, H1, H2, H3. repeat split.
Qed.

Lemma boot_shader_slots_witness :
  let config := {| config_frameInc := None; config_altFrame := None;
                   config_fragShader := Some "GlowFS"%string; config_vertShader := None;
                   config_drawShader := None;
                   config_shaders := [ {| shaderName := "Extra"; fragShader := "ExtraFS";
                                          vertShader := "ExtraVS" |} ] |} in
  copyShader (initialize config (bootedRenderer 800 600))
  = Some {| shaderName := "CopySprite"; fragShader := "GlowFS";
            vertShader := "SingleQuadVS" |}.
Proof.
  cbv zeta.
  destruct (boot_shader_slots
              {| config_frameInc := None; config_altFrame := None;
                 config_fragShader := Some "GlowFS"%string; config_vertShader := None;
                 config_drawShader := None;
                 config_shaders := [ {| shaderName := "Extra"; fragShader := "ExtraFS";
                                        vertShader := "ExtraVS" |} ] |}
              (bootedRenderer 800 600) ltac:(reflexivity) ltac:(reflexivity))
    as (_ & H & _).
  exact H.
Defined.

(** X16.  In every quad buffer the pipeline can hold, the cells other
    than the twelve that [setUVs] assigns and the six that [onResize]
    assigns are zero: the texture unit, the tint effect and the tint of
    the six vertices are never written. *)
Theorem QuadView_zero_elsewhere (view : list float32) (i : nat) :
  QuadView view -> (i < 42)%nat -> i ∉ uvCells -> i ∉ resizedCells ->
  view !! i = Some (F32 0).
Proof.
  intros Hq Hi Huv Hre. induction Hq as [|w h view Hq IH|uA vA uB vB uC vC uD vD view Hq IH].
  - apply lookup_replicate_2. exact Hi.
  - destruct (decide (i ∈ positionCells)) as [Hp|Hp].
    + destruct (QuadView_inv _ (QuadView_onResize w h view Hq)) as (_ & Hz).
      rewrite Forall_forall in Hz. apply Hz.
      unfold positionCells in Hp. rewrite !elem_of_cons in Hp.
      repeat (destruct Hp as [->|Hp]);
        first [ apply elem_of_nil in Hp; contradiction
              | exfalso; apply Hre; unfold resizedCells; solve [repeat constructor]
              | unfold restingCells; solve [repeat constructor] ].
    + rewrite onResize_view_other by exact Hp. exact IH.
  - rewrite setUVs_view_other by exact Huv. exact IH.
Qed.

Lemma QuadView_zero_elsewhere_witness :
  setUVs_view 0 0 0 1 1 1 1 0 (onResize_view 800 600 (replicate 42 (F32 0))) !! 6%nat
  = Some (F32 0).
Proof.
  apply (QuadView_zero_elsewhere _ 6).
  - apply QuadView_setUVs, QuadView_onResize, QuadView_fresh.
  - lia.
  - unfold uvCells. rewrite !not_elem_of_cons. repeat split; try lia. apply not_elem_of_nil.
  - unfold resizedCells. rewrite !not_elem_of_cons. repeat split; try lia.
    apply not_elem_of_nil.
Defined.

(** ** The score of flappybird.js *)

(** The text shows the score: an invariant of [incrementScore]. *)
Lemma incrementScores_shown (n : nat) : forall g,
  FlappyBird.scoreText g = Some ("Score: " +:+ pretty (FlappyBird.score g)) ->
  FlappyBird.incrementScores n g
  = (Normal tt,
     {| FlappyBird.score := FlappyBird.score g + Z.of_nat n;
        FlappyBird.scoreText :=
          Some ("Score: " +:+ pretty (FlappyBird.score g + Z.of_nat n)) |}).
Proof.
  induction n as [|n IH]; intros [s t] Hg; cbn in Hg; subst t.
  - cbn. rewrite Z.add_0_r. reflexivity.
  - cbn [FlappyBird.incrementScores FlappyBird.incrementScore FlappyBird.score
          FlappyBird.scoreText].
    rewrite IH by reflexivity. cbn [FlappyBird.score].
    replace (s + 1 + Z.of_nat n) with (s + Z.of_nat (S n)) by lia. reflexivity.
Qed.

(** X17.  From the state [create] leaves, [n] calls of
    [incrementScore] all complete and leave the count at [n] and the text
    at 'Score: ' followed by [n] in decimal, for every [n] a JS number
    counts exactly.  Before [create], [incrementScore] throws a
    [TypeError], with the count already incremented. *)
Theorem incrementScore_counts (n : nat) :
  FlappyBird.exactCount (Z.of_nat n) ->
  FlappyBird.incrementScores n (FlappyBird.create FlappyBird.loaded)
  = (Normal tt,
     {| FlappyBird.score := Z.of_nat n;
        FlappyBird.scoreText := Some ("Score: " +:+ pretty (Z.of_nat n)) |})
  /\ FlappyBird.incrementScore FlappyBird.loaded
     = (Throw TypeError, {| FlappyBird.score := 1; FlappyBird.scoreText := None |}).
Proof.
  intros _. split; [|reflexivity].
  rewrite incrementScores_shown by reflexivity. reflexivity.
Qed.

Lemma incrementScore_counts_witness :
  FlappyBird.incrementScores 3 (FlappyBird.create FlappyBird.loaded)
  = (Normal tt,
     {| FlappyBird.score := 3; FlappyBird.scoreText := Some "Score: 3"%string |}).
Proof.
  destruct (incrementScore_counts 3 ltac:(unfold FlappyBird.exactCount; lia)) as (H & _).
  exact H.
Defined.

(** ** The ladder during the draws *)

#[local] Instance sameLadder_PreOrder : PreOrder sameLadder.
Proof.
  split.
  - intros p. repeat split.
  - intros p0 p1 p2 (A1 & B1 & C1 & D1 & E1 & F1 & G1 & H1)
      (A2 & B2 & C2 & D2 & E2 & F2 & G2 & H2).
    repeat split; congruence.
Qed.

Lemma Booted_sameLadder p0 p n : Booted p0 n -> sameLadder p0 p -> Booted p n.
Proof.
  intros [[LT LM] N F] (A & B & C & D & E & F' & G & H).
  split; [split|..].
  - unfold offsetOf. rewrite A, D, E, F', G. exact LT.
  - rewrite C, D. exact LM.
  - rewrite A. exact N.
  - rewrite A, B. exact F.
Qed.

(** Closes the goals [neutrality] leaves for [sameLadder]. *)
Ltac still :=
  repeat (neutrality;
          try match goal with
              | |- neutral _ (setBlendMode _) => unfold setBlendMode
              | |- neutral _ (onDraw _ _) => unfold onDraw
              | |- neutral _ (drawToGame _) => unfold drawToGame
              | |- neutral _ (copyToGame _) => unfold copyToGame
              | |- neutral _ (bindAndDraw _) => unfold bindAndDraw; cbv zeta
              | |- neutral _ (onResize _ _) => unfold onResize
              end);
  try match goal with
      | H : forall g q, sameLadder q (?hook g q) |- sameLadder ?p (?hook _ ?p) => apply H
      | |- sameLadder _ _ => repeat split
      end.

Lemma getSpriteTarget_sameLadder size : neutral sameLadder (getSpriteTarget size).
Proof.
  intros p. unfold stateAfter. rewrite getSpriteTarget_eq. cbn [snd].
  destruct p. repeat split.
Qed.

Lemma batchQuad_begin_sameLadder gameObject x0 y0 x1 y1 x2 y2 x3 y3 :
  neutral sameLadder (batchQuad_begin gameObject x0 y0 x1 y1 x2 y2 x3 y3).
Proof.
  intros p. destruct gameObject as [object|]; [|repeat split].
  pose proof (batchQuad_begin_eq object x0 y0 x1 y1 x2 y2 x3 y3 p) as E.
  cbv zeta in E. unfold stateAfter. rewrite E.
  destruct (item (renderTargets p) _); destruct p; repeat split.
Qed.

Lemma batchQuad_sameLadder
    (onFX onBatch : GameObject -> Pipeline -> Pipeline)
    (gameObject : option GameObject)
    (x0 y0 x1 y1 x2 y2 x3 y3 u0 v0 u1 v1 : Q)
    (tintTL tintTR tintBL tintBR tintEffect : Z) (texture' : nat) :
  (forall g q, sameLadder q (onFX g q)) ->
  (forall g q, sameLadder q (onBatch g q)) ->
  neutral sameLadder
    (batchQuad onFX onBatch gameObject x0 y0 x1 y1 x2 y2 x3 y3 u0 v0 u1 v1
       tintTL tintTR tintBL tintBR tintEffect texture').
Proof.
  intros HFX HBatch. unfold batchQuad.
  apply neutral_bind; [exact _ | apply batchQuad_begin_sameLadder|].
  intros started. unfold batchQuad_draw. cbv zeta. still.
Qed.

Lemma copySprite_sameLadder (onFXCopy : GameObject -> Pipeline -> Pipeline)
    (source target : RenderTarget.t) (clear clearAlpha eraseMode : option bool)
    (shader : option Shader) :
  (forall g q, sameLadder q (onFXCopy g q)) ->
  neutral sameLadder (copySprite onFXCopy source target clear clearAlpha eraseMode shader).
Proof. intros Hook. unfold copySprite. cbv zeta. still. Qed.

(** X18.  The draws do not touch the ladder: with hooks that leave the
    targets, the viewport and what selects among the targets alone, a
    pipeline that is booted stays booted, with the same number of steps,
    over [batchQuad] and [copySprite] (whether they complete or throw),
    [drawToGame], [copyToGame] and [onResize]. *)
Theorem draws_keep_the_ladder
    (onFX onBatch onFXCopy : GameObject -> Pipeline -> Pipeline)
    (gameObject : option GameObject)
    (x0 y0 x1 y1 x2 y2 x3 y3 u0 v0 u1 v1 : Q)
    (tintTL tintTR tintBL tintBR tintEffect : Z) (texture' : nat)
    (source target : RenderTarget.t) (clear clearAlpha eraseMode : option bool)
    (shader : option Shader) (width height : Q) (p : Pipeline) (n : nat) :
  (forall g q, sameLadder q (onFX g q)) ->
  (forall g q, sameLadder q (onBatch g q)) ->
  (forall g q, sameLadder q (onFXCopy g q)) ->
  Booted p n ->
  Booted (stateAfter
            (batchQuad onFX onBatch gameObject x0 y0 x1 y1 x2 y2 x3 y3 u0 v0 u1 v1
               tintTL tintTR tintBL tintBR tintEffect texture') p) n
  /\ Booted (stateAfter
               (copySprite onFXCopy source target clear clearAlpha eraseMode shader) p) n
  /\ Booted (stateAfter (drawToGame source) p) n
  /\ Booted (stateAfter (copyToGame source) p) n
  /\ Booted (stateAfter (onResize width height) p) n.
Proof.
  intros HFX HBatch HCopy B.
  split; [|split; [|split; [|split]]]; apply (Booted_sameLadder p _ n B).
  - apply batchQuad_sameLadder; assumption.
  - apply copySprite_sameLadder; assumption.
  - assert (H : neutral sameLadder (drawToGame source)) by still. apply H.
  - assert (H : neutral sameLadder (copyToGame source)) by still. apply H.
  - assert (H : neutral sameLadder (onResize width height)) by still. apply H.
Qed.

Lemma draws_keep_the_ladder_witness :
  let draw := batchQuad noHook noHook (Some {| objectId := 1; fxPadding := 10 |})
                0 0 0 130 130 130 130 0 0 0 1 1 0 0 0 0 0 7 in
  Booted (stateAfter draw (pipeline800x600 None None)) 9.
Proof.
  cbv zeta.
  pose proof (initialize_Booted (configOf None None) (bootedRenderer 800 600)
                ltac:(reflexivity) ltac:(reflexivity) ltac:(reflexivity)
                ltac:(reflexivity)) as B.
  destruct (draws_keep_the_ladder noHook noHook noHook
              (Some {| objectId := 1; fxPadding := 10 |})
              0 0 0 130 130 130 130 0 0 0 1 1 0 0 0 0 0 7
              (squareTarget 192 4) (squareTarget 192 5) None None None None 800 600
              (pipeline800x600 None None) _
              ltac:(intros; repeat split) ltac:(intros; repeat split)
              ltac:(intros; repeat split) B) as (H & _).
  exact H.
Defined.

(** ** When a draw completes *)

(** On a booted ladder whose step is at most 64, every positive size has a
    target. *)
Lemma getSpriteTarget_found p n (s : Q) :
  Ladder p n -> 0 < frameInc p <= 64 -> (0 < s)%Q ->
  exists t, item (renderTargets p) (targetIndex s p) = Some t.
Proof.
  intros L Hinc Hs.
  destruct (Qlt_le_dec (inject_Z (maxDimension p)) s) as [Hbig|Hfit].
  - destruct (getSpriteTarget_fullscreen p n s L Hbig) as (t & E & _).
    rewrite getSpriteTarget_eq in E. injection E as Ht _. exists t. exact Ht.
  - destruct (getSpriteTarget_ladder p n s L Hinc Hs Hfit) as (t & E & _).
    rewrite getSpriteTarget_eq in E. injection E as Ht _. exists t. exact Ht.
Qed.

Lemma quadSize_nonneg padding x0 y0 x1 y1 x2 y2 x3 y3 :
  (0 <= quadSize padding x0 y0 x1 y1 x2 y2 x3 y3)%Q.
Proof. unfold quadSize. apply Qabs_nonneg. Qed.

(** X19.  On a booted pipeline whose step is at most 64, with hooks that
    batch no vertex and leave [targetBounds] and [fsTarget] alone,
    [batchQuad] completes with [true] when it is given a game object and
    the padded size of the quad is not zero, and throws a [TypeError]
    otherwise. *)
Theorem batchQuad_completes_iff
    (onFX onBatch : GameObject -> Pipeline -> Pipeline)
    (gameObject : option GameObject)
    (x0 y0 x1 y1 x2 y2 x3 y3 u0 v0 u1 v1 : Q)
    (tintTL tintTR tintBL tintBR tintEffect : Z) (texture' : nat)
    (p : Pipeline) (n : nat) :
  Booted p n -> 0 < frameInc p <= 64 ->
  (forall g q, quietly q (onFX g q)) ->
  (forall g q, quietly q (onBatch g q)) ->
  let call := batchQuad onFX onBatch gameObject x0 y0 x1 y1 x2 y2 x3 y3 u0 v0 u1 v1
                tintTL tintTR tintBL tintBR tintEffect texture' in
  let drawable :=
    exists object,
      gameObject = Some object
      /\ ~ quadSize (fxPadding object) x0 y0 x1 y1 x2 y2 x3 y3 == 0 in
  (drawable -> completion call p = Normal true)
  /\ (~ drawable -> completion call p = Throw TypeError).
Proof.
  intros B Hinc HFX HBatch call drawable.
  destruct (Booted_scratch p n B) as (scratch & Hfs & _).
  destruct B as [L N F].
  split.
  - intros (object & -> & Hsize).
    assert (Hs : (0 < quadSize (fxPadding object) x0 y0 x1 y1 x2 y2 x3 y3)%Q).
    { pose proof (quadSize_nonneg (fxPadding object) x0 y0 x1 y1 x2 y2 x3 y3) as H0.
      apply Qle_lteq in H0. destruct H0 as [H0|H0]; [exact H0|].
      exfalso. apply Hsize. symmetry. exact H0. }
    destruct (getSpriteTarget_found p n _ L Hinc Hs) as (t & Ht).
    apply (batchQuad_completes onFX onBatch object x0 y0 x1 y1 x2 y2 x3 y3 u0 v0 u1 v1
             tintTL tintTR tintBL tintBR tintEffect texture' p t scratch);
      assumption.
  - intros Hnot. unfold call, batchQuad, completion, bind.
    destruct gameObject as [object|]; [|reflexivity].
    assert (Hsize : quadSize (fxPadding object) x0 y0 x1 y1 x2 y2 x3 y3 == 0).
    { destruct (Qeq_dec (quadSize (fxPadding object) x0 y0 x1 y1 x2 y2 x3 y3) 0)
        as [H0|H0]; [exact H0|].
      exfalso. apply Hnot. exists object. split; [reflexivity | exact H0]. }
    assert (Hmax : 0 <= maxDimension p).
    { rewrite (ladder_maxDimension _ _ L). nia. }
    destruct (getSpriteTarget_nothing
                (quadSize (fxPadding object) x0 y0 x1 y1 x2 y2 x3 y3) p
                ltac:(rewrite Hsize; apply Qle_refl) Hmax) as (_ & Hn).
    pose proof (batchQuad_begin_eq object x0 y0 x1 y1 x2 y2 x3 y3 p) as E.
    cbv zeta in E. rewrite Hn in E. rewrite E. reflexivity.
Qed.

Lemma batchQuad_completes_iff_witness :
  completion
    (batchQuad noHook noHook (Some {| objectId := 1; fxPadding := 10 |})
       0 0 0 130 130 130 130 0 0 0 1 1 0 0 0 0 0 7) (pipeline800x600 (Some 32%Q) None)
  = Normal true.
Proof.
  pose proof (initialize_Booted (configOf (Some 32%Q) None) (bootedRenderer 800 600)
                ltac:(reflexivity) ltac:(reflexivity) ltac:(reflexivity)
                ltac:(reflexivity)) as B.
  destruct (batchQuad_completes_iff noHook noHook
              (Some {| objectId := 1; fxPadding := 10 |})
              0 0 0 130 130 130 130 0 0 0 1 1 0 0 0 0 0 7
              (pipeline800x600 (Some 32%Q) None) _ B
              ltac:(vm_compute; split; [reflexivity | discriminate])
              ltac:(intros; repeat split) ltac:(intros; repeat split)) as (H & _).
  apply H. eexists. split; [reflexivity|]. vm_compute. discriminate.
Defined.
